(** * Agent-run orchestration core: quota ledger, run lock, executor, dispatcher

    A shallow embedding of the coordination layer of the backend
    ([services/token_billing.py], [run_agent_background.py],
    [utils/concurrency_monitor.py], [agent/api.py], [utils/constants.py])
    and the properties of it that the specification states.

    Conventions.
    - Python [int] is [Z]; [//] with a positive divisor is [Z.div].
    - Every [await] of one database or Redis round trip is one atomic
      action of the store.  A coroutine is a tree of such actions
      ([prog]); running it alone gives its sequential meaning ([run]),
      scheduling several of them step by step gives the interleavings
      ([run_sched]).
    - Round trips are taken to succeed on the modelled tables; transport
      failures are modelled only where the source has a handler whose
      behaviour a property depends on.
    - [datetime.now()] reads the [clock] of the world, in seconds;
      [isoformat()] strings are kept as those numbers. *)

From Stdlib Require Import ZArith String Ascii List Lia Bool.
From Stdlib Require Import DecimalString DecimalZ DecimalPos.
From stdpp Require Import base option list gmap strings.

Local Open Scope string_scope.
Local Open Scope Z_scope.
Local Open Scope list_scope.

(** ** Python helpers *)

(** [str(n)] / an [int] inside an f-string. *)
Definition py_str (z : Z) : string := NilZero.string_of_int (Z.to_int z).

(** [int(s)] for a [str] of ASCII characters (base 10): the white space
    around the literal is skipped, one sign [+] or [-] may come first,
    then digits, where single underscores may stand between two digits;
    every other string is a [ValueError] ([None]).  ([int] also reads
    the decimal digits and white space of other scripts, and the
    interpreter refuses literals of more than 4300 digits; the strings
    parsed here are ASCII and short.) *)

(** The characters skipped around a literal: blank, tab, line feed,
    vertical tab, form feed, carriage return. *)
Definition is_space (c : ascii) : bool :=
  existsb (Ascii.eqb c) [" "; "009"; "010"; "011"; "012"; "013"]%char.

Fixpoint lstrip (s : string) : string :=
  match s with
  | EmptyString => EmptyString
  | String c s' => if is_space c then lstrip s' else s
  end.

Fixpoint rstrip (s : string) : string :=
  match s with
  | EmptyString => EmptyString
  | String c s' =>
      match rstrip s' with
      | EmptyString => if is_space c then EmptyString
                       else String c EmptyString
      | r => String c r
      end
  end.

(** The digits of a literal, most significant first; [prev_digit] says
    that the character before was a digit (an underscore is refused at
    the start, at the end and after another underscore). *)
Fixpoint int_digits (prev_digit : bool) (s : string) : option Decimal.uint :=
  match s with
  | EmptyString => if prev_digit then Some Decimal.Nil else None
  | String c s' =>
      if Ascii.eqb c "_"
      then (if prev_digit then int_digits false s' else None)
      else uint_of_char c (int_digits true s')
  end.

Definition int_literal (s : string) : option Decimal.signed_int :=
  match s with
  | EmptyString => None
  | String c s' =>
      if Ascii.eqb c "-" then Decimal.Neg <$> int_digits false s'
      else if Ascii.eqb c "+" then Decimal.Pos <$> int_digits false s'
      else Decimal.Pos <$> int_digits false s
  end.

Definition py_int (s : string) : option Z :=
  Z.of_int <$> int_literal (rstrip (lstrip s)).

(** The characters an integer literal can contain. *)
Definition int_char (c : ascii) : bool :=
  is_space c || Ascii.eqb c "-" || Ascii.eqb c "+" || Ascii.eqb c "_"
  || existsb (Ascii.eqb c)
       ["0"; "1"; "2"; "3"; "4"; "5"; "6"; "7"; "8"; "9"]%char.

Fixpoint all_chars (f : ascii -> bool) (s : string) : bool :=
  match s with
  | EmptyString => true
  | String c s' => f c && all_chars f s'
  end.



(** ** Coroutines as trees of atomic store actions *)

Section Prog.
Context {St E : Type}.

Inductive prog (A : Type) : Type :=
| Ret (a : A)
| Raise (e : E)
| Await {R : Type} (op : St -> St * R) (k : R -> prog A).

Global Arguments Ret {A} a.
Global Arguments Raise {A} e.
Global Arguments Await {A R} op k.

Inductive outcome (A : Type) : Type :=
| Returned (a : A)
| Raised (e : E).

Global Arguments Returned {A} a.
Global Arguments Raised {A} e.

Fixpoint bind {A B} (p : prog A) (f : A -> prog B) : prog B :=
  match p with
  | Ret a => f a
  | Raise e => Raise e
  | Await op k => Await op (fun r => bind (k r) f)
  end.

(** [try: p except e: h e] *)
Fixpoint try_except {A} (p : prog A) (h : E -> prog A) : prog A :=
  match p with
  | Ret a => Ret a
  | Raise e => h e
  | Await op k => Await op (fun r => try_except (k r) h)
  end.

(** One awaited round trip. *)
Definition await {R} (op : St -> St * R) : prog R := Await op Ret.

(** The coroutine run alone, with nothing scheduled in between. *)
Fixpoint run {A} (p : prog A) (s : St) : St * outcome A :=
  match p with
  | Ret a => (s, Returned a)
  | Raise e => (s, Raised e)
  | Await op k => let '(s', r) := op s in run (k r) s'
  end.

(** One scheduler step: the next round trip of [p], if it has one. *)
Definition step {A} (p : prog A) (s : St) : St * prog A :=
  match p with
  | Await op k => let '(s', r) := op s in (s', k r)
  | _ => (s, p)
  end.

(** A schedule names, step after step, the task that runs next. *)
Fixpoint run_sched {A} (sched : list nat) (s : St) (tasks : list (prog A))
  : St * list (prog A) :=
  match sched with
  | [] => (s, tasks)
  | i :: sched' =>
      match tasks !! i with
      | Some p => let '(s', p') := step p s in
                  run_sched sched' s' (<[i := p']> tasks)
      | None => run_sched sched' s tasks
      end
  end.

Definition finished {A} (p : prog A) : option (outcome A) :=
  match p with
  | Ret a => Some (Returned a)
  | Raise e => Some (Raised e)
  | Await _ _ => None
  end.

End Prog.

Global Arguments prog : clear implicits.
Global Arguments outcome : clear implicits.

Notation "'let*' x ':=' p 'in' k" := (bind p (fun x => k))
  (at level 10, x pattern, p at level 100, k at level 200).
Notation "p ';;' k" := (bind p (fun _ => k))
  (at level 100, k at level 200, right associativity).

(** ** [utils/constants.py] *)

Module Constants.

Record plan := {
  name : string;
  token_quota : Z;
  display_credits : Z;
  features : list string
}.

(** [PLANS] (prices and descriptions, which nothing here reads, are
    left out). *)
Definition PLANS : list (string * plan) :=
  [ ("free",
     {| name := "Free"; token_quota := 100000; display_credits := 20;
        features := ["5 credits daily (up to 20/month)";
                     "1 deployed website"; "Community support"] |});
    ("pro",
     {| name := "Pro"; token_quota := 750000; display_credits := 150;
        features := ["Priority Support"; "All Models";
                     "Advanced Features"] |});
    ("premium",
     {| name := "Premium"; token_quota := 1250000; display_credits := 250;
        features := ["Priority Support"; "All Models + Beta";
                     "Advanced Analytics"] |});
    ("byok",
     {| name := "BYOK"; token_quota := -1; display_credits := -1;
        features := ["Bring Your Own OpenRouter Key"; "Unlimited Usage";
                     "Real Cost Pricing"; "Dedicated Support"] |}) ].

Definition AVERAGE_TOKENS_PER_CREDIT : Z := 5000.
Definition TOKENS_PER_CONVERSATION_ESTIMATE : Z := 5000.

(** [PLANS.get(plan_id)] *)
Fixpoint assoc_get {V} (k : string) (l : list (string * V)) : option V :=
  match l with
  | [] => None
  | (k', v) :: l' => if String.eqb k k' then Some v else assoc_get k l'
  end.

Definition get_plan_by_id (plan_id : string) : option plan :=
  assoc_get plan_id PLANS.

Definition get_credits_from_tokens (tokens : Z) : Z :=
  if tokens <=? 0 then 0
  else tokens / TOKENS_PER_CONVERSATION_ESTIMATE.

End Constants.

(** ** [services/token_billing.py] *)

Module TokenBilling.
Import Constants.

(** A row of [basejump.billing_customers]. *)
Record billing_customer := {
  id : string;
  email : string;
  active : bool;
  provider : string;
  plan_id : string;
  token_quota_total : Z;
  token_quota_remaining : Z;
  quota_resets_at : Z;
  billing_updated_at : Z
}.

(** A row of [token_usage_log] (the float [estimated_cost] column is
    left out). *)
Record usage_entry := {
  log_account_id : string;
  log_thread_id : option string;
  log_message_id : option string;
  log_model : string;
  prompt_tokens : Z;
  completion_tokens : Z;
  total_tokens : Z;
  tokens_remaining_after : Z
}.

(** What [await client.rpc('consume_tokens_atomic', ...)] does.  The
    database function is not part of the Python sources, so both
    situations the caller is written for are modelled: the call raises
    ([RpcRaises]: function absent, transport error), or the function is
    installed ([RpcAtomic]). *)
Inductive rpc_mode := RpcRaises | RpcAtomic.

Record world := {
  billing_customers : gmap string billing_customer;
  token_usage_log : list usage_entry;
  clock : Z;
  consume_tokens_atomic : rpc_mode
}.

Inductive exn :=
| InsufficientTokensError (message : string)
                          (remaining_tokens remaining_credits : Z)
| Exception (message : string).

Definition set_billing (f : gmap string billing_customer ->
                            gmap string billing_customer) (w : world) :=
  {| billing_customers := f (billing_customers w);
     token_usage_log := token_usage_log w;
     clock := clock w;
     consume_tokens_atomic := consume_tokens_atomic w |}.

Definition set_remaining (v now : Z) (r : billing_customer) :=
  {| id := id r; email := email r; active := active r;
     provider := provider r; plan_id := plan_id r;
     token_quota_total := token_quota_total r;
     token_quota_remaining := v;
     quota_resets_at := quota_resets_at r;
     billing_updated_at := now |}.

(** *** Round trips *)

(** [.table('billing_customers').select(...).eq('account_id', a).execute()] *)
Definition select_billing (account_id : string) (w : world)
  : world * option billing_customer :=
  (w, billing_customers w !! account_id).

Definition days (n : Z) : Z := n * 86400.

(** The row [_create_billing_record] inserts. *)
Definition fallback_record (account_id : string) (free_plan : plan)
           (now : Z) : billing_customer :=
  {| id := account_id;
     email := "missing_email_" +:+ account_id +:+ "@placeholder.com";
     active := true;
     provider := "dodopayments";
     plan_id := "free";
     token_quota_total := token_quota free_plan;
     token_quota_remaining := token_quota free_plan;
     quota_resets_at := now + days 30;
     billing_updated_at := now |}.

(** [.insert({...}).execute()]; [false] when the account already has a
    row (the store refuses the duplicate key). *)
Definition insert_billing (account_id : string) (free_plan : plan)
           (w : world) : world * bool :=
  match billing_customers w !! account_id with
  | Some _ => (w, false)
  | None =>
      (set_billing
         <[account_id := fallback_record account_id free_plan (clock w)]> w,
       true)
  end.

(** [.update({'token_quota_remaining': v, 'billing_updated_at': now})
     .eq('account_id', a).gte('token_quota_remaining', n).execute()];
    the answer says whether a row was updated. *)
Definition update_remaining_gte (account_id : string) (v n : Z)
           (w : world) : world * bool :=
  match billing_customers w !! account_id with
  | Some r =>
      if n <=? token_quota_remaining r
      then (set_billing <[account_id := set_remaining v (clock w) r]> w,
            true)
      else (w, false)
  | None => (w, false)
  end.

Inductive rpc_reply :=
| RpcError
| RpcSuccess (tokens_remaining : Z)
| RpcFailure (tokens_remaining : Z).

(** Modelled from the spec: the database function
    [consume_tokens_atomic], absent from the sources, as the single
    conditional update "set remaining = remaining - n WHERE
    remaining >= n"; zero affected rows is a failure reply. *)
Definition rpc_consume_tokens_atomic (account_id : string) (n : Z)
           (w : world) : world * rpc_reply :=
  match consume_tokens_atomic w with
  | RpcRaises => (w, RpcError)
  | RpcAtomic =>
      match billing_customers w !! account_id with
      | Some r =>
          let cur := token_quota_remaining r in
          if n <=? cur
          then (set_billing
                  <[account_id := set_remaining (cur - n) (clock w) r]> w,
                RpcSuccess (cur - n))
          else (w, RpcFailure cur)
      | None => (w, RpcFailure 0)
      end
  end.

(** [client.table('token_usage_log').insert({...}).execute()] *)
Definition insert_usage (e : usage_entry) (w : world) : world * unit :=
  ({| billing_customers := billing_customers w;
      token_usage_log := token_usage_log w ++ [e];
      clock := clock w;
      consume_tokens_atomic := consume_tokens_atomic w |}, tt).

Definition usage (account_id : string) (thread_id message_id : option string)
           (model : string) (tokens_used remaining_after : Z) :=
  {| log_account_id := account_id; log_thread_id := thread_id;
     log_message_id := message_id; log_model := model;
     prompt_tokens := tokens_used / 2;
     completion_tokens := tokens_used / 2;
     total_tokens := tokens_used;
     tokens_remaining_after := remaining_after |}.

(** The dictionary [consume_tokens] returns. *)
Record consumed := {
  success : bool;
  tokens_consumed : Z;
  tokens_remaining : Z;
  credits_remaining : Z;
  consumed_plan_id : string;
  byok_unlimited : bool
}.

Abbreviation task := (prog world exn).

(** *** [_create_billing_record]
    (its [except Exception: log; raise] re-raises unchanged) *)
Definition _create_billing_record (account_id : string) : task unit :=
  let* existing := await (select_billing account_id) in
  match existing with
  | Some _ => Ret tt
  | None =>
      match get_plan_by_id "free" with
      | None => Raise (Exception "'NoneType' object is not subscriptable")
      | Some free_plan =>
          let* inserted := await (insert_billing account_id free_plan) in
          if inserted : bool then Ret tt
          else Raise (Exception "duplicate key value")
      end
  end.

Definition insufficient_message (tokens_used remaining_credits : Z) :=
  "Insufficient credits. You need "
    +:+ py_str (get_credits_from_tokens tokens_used)
    +:+ " credits but only have " +:+ py_str remaining_credits
    +:+ " remaining.".

(** *** [_consume_tokens_fallback] *)
Definition _consume_tokens_fallback (account_id : string) (tokens_used : Z)
           (model : string) (thread_id message_id : option string)
  : task consumed :=
  let* billing_result := await (select_billing account_id) in
  match billing_result with
  | None => Raise (Exception "User billing record not found")
  | Some user_billing =>
      let current_remaining := token_quota_remaining user_billing in
      let plan := plan_id user_billing in
      let* new_remaining :=
        try_except
          (let* reply :=
             await (rpc_consume_tokens_atomic account_id tokens_used) in
           match reply with
           | RpcError => Raise (Exception "rpc call failed")
           | RpcSuccess r => Ret r
           | RpcFailure r =>
               Raise (InsufficientTokensError "Insufficient tokens" r
                        (get_credits_from_tokens r))
           end)
          (* except Exception: the conditional UPDATE *)
          (fun _ =>
             let* updated :=
               await (update_remaining_gte account_id
                        (current_remaining - tokens_used) tokens_used) in
             if updated : bool then Ret (current_remaining - tokens_used)
             else
               let* fresh := await (select_billing account_id) in
               let fresh_remaining :=
                 from_option token_quota_remaining 0 fresh in
               let remaining_credits :=
                 get_credits_from_tokens fresh_remaining in
               Raise (InsufficientTokensError
                        (insufficient_message tokens_used remaining_credits)
                        fresh_remaining remaining_credits)) in
      await (insert_usage (usage account_id thread_id message_id model
                             tokens_used new_remaining)) ;;
      Ret {| success := true;
             tokens_consumed := tokens_used;
             tokens_remaining := new_remaining;
             credits_remaining := get_credits_from_tokens new_remaining;
             consumed_plan_id := plan;
             byok_unlimited := false |}
  end.

(** *** [consume_tokens]
    (for a [byok] plan the cost lookup, which touches no modelled
    table, is left out: usage is logged and nothing is debited) *)
Definition consume_tokens (account_id : string) (tokens_used : Z)
           (model : string) (thread_id message_id : option string)
  : task consumed :=
  let* billing_result := await (select_billing account_id) in
  let* billing_result :=
    match billing_result with
    | Some r => Ret (Some r)
    | None =>
        _create_billing_record account_id ;;
        await (select_billing account_id)
    end in
  match billing_result with
  | None => Raise (Exception "list index out of range")
  | Some user_billing =>
      let current_remaining := token_quota_remaining user_billing in
      let plan := plan_id user_billing in
      if String.eqb plan "byok" then
        await (insert_usage (usage account_id thread_id message_id model
                               tokens_used current_remaining)) ;;
        Ret {| success := true;
               tokens_consumed := tokens_used;
               tokens_remaining := current_remaining;
               credits_remaining := -1;
               consumed_plan_id := plan;
               byok_unlimited := true |}
      else
        _consume_tokens_fallback account_id tokens_used model
                                 thread_id message_id
  end.

(** The dictionary [get_user_token_status] returns. *)
Record token_status := {
  status_account_id : string;
  status_plan : string;
  plan_name : string;
  status_tokens_remaining : Z;
  tokens_total : Z;
  status_credits_remaining : Z;
  credits_total : Z;
  status_quota_resets_at : Z;
  status_features : list string
}.

(** *** [get_user_token_status] *)
Definition get_user_token_status (account_id : string) : task token_status :=
  let* billing_result := await (select_billing account_id) in
  let* billing_result :=
    match billing_result with
    | Some r => Ret (Some r)
    | None =>
        _create_billing_record account_id ;;
        await (select_billing account_id)
    end in
  match billing_result with
  | None => Raise (Exception "list index out of range")
  | Some user_billing =>
      let plan_id := plan_id user_billing in
      let tokens_remaining := token_quota_remaining user_billing in
      let plan :=
        match get_plan_by_id plan_id with
        | Some p => Some p
        | None => get_plan_by_id "free"
        end in
      match plan with
      | None => Raise (Exception "'NoneType' object is not subscriptable")
      | Some plan =>
          let '(credits_remaining, credits_total) :=
            if String.eqb plan_id "byok" then (-1, -1)
            else (get_credits_from_tokens tokens_remaining,
                  display_credits plan) in
          Ret {| status_account_id := account_id;
                 status_plan := plan_id;
                 plan_name := name plan;
                 status_tokens_remaining := tokens_remaining;
                 tokens_total := token_quota_total user_billing;
                 status_credits_remaining := credits_remaining;
                 credits_total := credits_total;
                 status_quota_resets_at := quota_resets_at user_billing;
                 status_features := features plan |}
      end
  end.

(** *** A concrete ledger used in the examples below *)
Definition example_row (plan : string) (remaining : Z) : billing_customer :=
  {| id := "acc-1"; email := "user@example.com"; active := true;
     provider := "dodopayments"; plan_id := plan;
     token_quota_total := 100000; token_quota_remaining := remaining;
     quota_resets_at := 2592000; billing_updated_at := 0 |}.

Definition example_world (mode : rpc_mode) (remaining : Z) : world :=
  {| billing_customers := {[ "acc-1" := example_row "free" remaining ]};
     token_usage_log := [];
     clock := 1000;
     consume_tokens_atomic := mode |}.

Definition empty_world (mode : rpc_mode) : world :=
  {| billing_customers := ∅; token_usage_log := []; clock := 1000;
     consume_tokens_atomic := mode |}.

Definition remaining_of (account_id : string) (w : world) : option Z :=
  token_quota_remaining <$> billing_customers w !! account_id.

End TokenBilling.


(** ** The coordination store and the durable tables
    ([services/redis.py] and the tables [agent/api.py] and
    [run_agent_background.py] use) *)

Module Store.

(** A stream item: the JSON object the agent generator yields.  Only the
    keys the orchestration code reads are kept apart; [body] stands for
    the rest.  [json.dumps] followed by [json.loads] gives the item
    back, so lists hold the items themselves. *)
Record item := {
  type : option string;
  status : option string;
  message : option string;
  body : string
}.

(** A row of [agent_runs]. *)
Record agent_run := {
  run_id : string;
  run_thread_id : string;
  run_status : string;
  started_at : Z;
  completed_at : option Z;
  updated_at : option Z;
  error : option string;
  responses : list item;
  run_model_name : string
}.

(** A row of [threads]. *)
Record thread := {
  thread_id : string;
  thread_project_id : string;
  thread_account_id : string;
  is_agent_builder : bool;
  target_agent_id : option string
}.

(** A row of [projects]. *)
Record project := {
  project_id : string;
  project_account_id : string;
  project_name : string;
  project_app_type : string;
  sandbox_id : option string
}.

(** A row of [messages]. *)
Record message_row := {
  message_id : string;
  message_thread_id : string;
  message_content : string
}.

(** The keyword arguments of [run_agent_background.send]. *)
Record queue_item := {
  q_agent_run_id : string;
  q_thread_id : string;
  q_instance_id : string;
  q_project_id : string;
  q_model_name : string;
  q_enable_thinking : bool;
  q_reasoning_effort : string;
  q_stream : bool;
  q_enable_context_manager : bool;
  q_is_agent_builder : bool;
  q_target_agent_id : option string;
  q_request_id : string;
  q_app_type : string
}.

(** A Redis command handed to [asyncio.create_task] and not awaited. *)
Inductive redis_op :=
| Rpush (key : string) (it : item)
| Publish (channel data : string).

Record world := {
  kv : gmap string (string * Z);        (* string keys: value and EX seconds *)
  lists : gmap string (list item);      (* Redis lists *)
  published : list (string * string);   (* pub/sub messages, oldest first *)
  pending : list redis_op;              (* spawned, not yet executed commands *)
  monitor_events : list (string * string); (* ConcurrencyMonitor.events *)
  agent_runs : list agent_run;
  threads : list thread;
  projects : list project;
  messages : list message_row;
  sandboxes : list (string * string);   (* created sandboxes: id, snapshot *)
  queue : list queue_item;              (* the task queue *)
  clock : Z
}.

Definition with_kv (f : gmap string (string * Z) -> gmap string (string * Z))
           (w : world) : world :=
  {| kv := f (kv w); lists := lists w; published := published w;
     pending := pending w; monitor_events := monitor_events w;
     agent_runs := agent_runs w; threads := threads w;
     projects := projects w; messages := messages w;
     sandboxes := sandboxes w; queue := queue w; clock := clock w |}.

Definition with_lists (f : gmap string (list item) -> gmap string (list item))
           (w : world) : world :=
  {| kv := kv w; lists := f (lists w); published := published w;
     pending := pending w; monitor_events := monitor_events w;
     agent_runs := agent_runs w; threads := threads w;
     projects := projects w; messages := messages w;
     sandboxes := sandboxes w; queue := queue w; clock := clock w |}.

Definition with_published (f : list (string * string) -> list (string * string))
           (w : world) : world :=
  {| kv := kv w; lists := lists w; published := f (published w);
     pending := pending w; monitor_events := monitor_events w;
     agent_runs := agent_runs w; threads := threads w;
     projects := projects w; messages := messages w;
     sandboxes := sandboxes w; queue := queue w; clock := clock w |}.

Definition with_pending (f : list redis_op -> list redis_op)
           (w : world) : world :=
  {| kv := kv w; lists := lists w; published := published w;
     pending := f (pending w); monitor_events := monitor_events w;
     agent_runs := agent_runs w; threads := threads w;
     projects := projects w; messages := messages w;
     sandboxes := sandboxes w; queue := queue w; clock := clock w |}.

Definition with_monitor_events
           (f : list (string * string) -> list (string * string))
           (w : world) : world :=
  {| kv := kv w; lists := lists w; published := published w;
     pending := pending w; monitor_events := f (monitor_events w);
     agent_runs := agent_runs w; threads := threads w;
     projects := projects w; messages := messages w;
     sandboxes := sandboxes w; queue := queue w; clock := clock w |}.

Definition with_agent_runs (f : list agent_run -> list agent_run)
           (w : world) : world :=
  {| kv := kv w; lists := lists w; published := published w;
     pending := pending w; monitor_events := monitor_events w;
     agent_runs := f (agent_runs w); threads := threads w;
     projects := projects w; messages := messages w;
     sandboxes := sandboxes w; queue := queue w; clock := clock w |}.

Definition with_threads (f : list thread -> list thread) (w : world) : world :=
  {| kv := kv w; lists := lists w; published := published w;
     pending := pending w; monitor_events := monitor_events w;
     agent_runs := agent_runs w; threads := f (threads w);
     projects := projects w; messages := messages w;
     sandboxes := sandboxes w; queue := queue w; clock := clock w |}.

Definition with_projects (f : list project -> list project) (w : world) : world :=
  {| kv := kv w; lists := lists w; published := published w;
     pending := pending w; monitor_events := monitor_events w;
     agent_runs := agent_runs w; threads := threads w;
     projects := f (projects w); messages := messages w;
     sandboxes := sandboxes w; queue := queue w; clock := clock w |}.

Definition with_messages (f : list message_row -> list message_row)
           (w : world) : world :=
  {| kv := kv w; lists := lists w; published := published w;
     pending := pending w; monitor_events := monitor_events w;
     agent_runs := agent_runs w; threads := threads w;
     projects := projects w; messages := f (messages w);
     sandboxes := sandboxes w; queue := queue w; clock := clock w |}.

Definition with_sandboxes (f : list (string * string) -> list (string * string))
           (w : world) : world :=
  {| kv := kv w; lists := lists w; published := published w;
     pending := pending w; monitor_events := monitor_events w;
     agent_runs := agent_runs w; threads := threads w;
     projects := projects w; messages := messages w;
     sandboxes := f (sandboxes w); queue := queue w; clock := clock w |}.

Definition with_queue (f : list queue_item -> list queue_item)
           (w : world) : world :=
  {| kv := kv w; lists := lists w; published := published w;
     pending := pending w; monitor_events := monitor_events w;
     agent_runs := agent_runs w; threads := threads w;
     projects := projects w; messages := messages w;
     sandboxes := sandboxes w; queue := f (queue w); clock := clock w |}.

Definition empty_world : world :=
  {| kv := ∅; lists := ∅; published := []; pending := [];
     monitor_events := []; agent_runs := []; threads := []; projects := [];
     messages := []; sandboxes := []; queue := []; clock := 0 |}.

(** [REDIS_KEY_TTL = 3600 * 24] *)
Definition REDIS_KEY_TTL : Z := 3600 * 24.

(** *** Redis commands ([services/redis.py]) *)

(** [SET key value EX ex] *)
Definition redis_set (key value : string) (ex : Z) (w : world) : world * unit :=
  (with_kv <[key := (value, ex)]> w, tt).

(** [SET key value NX EX ex]; the answer says whether the key was set. *)
Definition redis_set_nx (key value : string) (ex : Z) (w : world)
  : world * bool :=
  match kv w !! key with
  | Some _ => (w, false)
  | None => (with_kv <[key := (value, ex)]> w, true)
  end.

(** [GET key] *)
Definition redis_get (key : string) (w : world) : world * option string :=
  (w, fst <$> kv w !! key).

(** [RPUSH key value] *)
Definition redis_rpush (key : string) (it : item) (w : world) : world * unit :=
  (with_lists <[key := default [] (lists w !! key) ++ [it]]> w, tt).

(** [PUBLISH channel data] *)
Definition redis_publish (channel data : string) (w : world) : world * unit :=
  (with_published (fun l => l ++ [(channel, data)]) w, tt).

(** [LRANGE key start -1], for [start >= 0] *)
Definition redis_lrange (key : string) (start : nat) (w : world)
  : world * list item :=
  (w, drop start (default [] (lists w !! key))).

Definition in_list (s : string) (l : list string) : bool :=
  existsb (String.eqb s) l.

End Store.

(** ** Phase 1 of [run_agent_background]: ownership of the run
    ([run_agent_background.py], [utils/concurrency_monitor.py]) *)

Module RunLock.
Import Store.

Abbreviation task := (prog world string).

(** [existing_value.split(':', 1)] unpacked into two names: the text
    before the first colon and the text after it; [None] is the
    [ValueError] of a value without a colon. *)
Fixpoint split_colon (s : string) : option (string * string) :=
  match s with
  | EmptyString => None
  | String c s' =>
      if Ascii.eqb c ":" then Some (EmptyString, s')
      else match split_colon s' with
           | Some (a, b) => Some (String c a, b)
           | None => None
           end
  end.

(** One delivery of a queued run to a worker: the run, the worker's
    instance id, and the readings of [time.time()] it takes. *)
Record delivery := {
  agent_run_id : string;
  instance_id : string;
  lock_time : Z;      (* int(time.time()) inside lock_value *)
  event_time_ms : Z;  (* int(now * 1000) of the monitor event *)
  current_time : Z    (* int(time.time()) of the staleness check *)
}.

Definition run_lock_key (agent_run_id : string) : string :=
  "agent_run_lock:" +:+ agent_run_id.

Definition lock_value (d : delivery) : string :=
  instance_id d +:+ ":" +:+ py_str (lock_time d).

(** [ConcurrencyMonitor.record_lock_acquisition]: the event is kept in
    the process and stored under a [concurrency_event:] key for an hour
    (its JSON body is abbreviated to the event type; the worker's monitor
    is created by [initialize] under the module's own instance id,
    ["single"]). *)
Definition record_lock_acquisition (lock_key : string) (now_ms : Z)
           (w : world) : world * unit :=
  redis_set ("concurrency_event:single:" +:+ py_str now_ms) "lock_acquired"
            3600
            (with_monitor_events
               (fun l => l ++ [("lock_acquired", lock_key)]) w).

(** [ConcurrencyMonitor.record_lock_failure]: process-local only. *)
Definition record_lock_failure (lock_key : string) (w : world)
  : world * unit :=
  (with_monitor_events (fun l => l ++ [("lock_failed", lock_key)]) w, tt).

(** [monitored_lock] *)
Definition monitored_lock (lock_key value : string) (timeout now_ms : Z)
  : task bool :=
  let* acquired := await (redis_set_nx lock_key value timeout) in
  if acquired : bool then
    await (record_lock_acquisition lock_key now_ms) ;; Ret true
  else
    await (record_lock_failure lock_key) ;; Ret false.

(** The reclaim script: [if GET key == old then SET key new EX ttl]. *)
Definition redis_eval_reclaim (key old new : string) (ttl : Z) (w : world)
  : world * bool :=
  match kv w !! key with
  | Some (v, _) =>
      if String.eqb v old then (with_kv <[key := (new, ttl)]> w, true)
      else (w, false)
  | None => (w, false)
  end.

(** The staleness check and the reclaim, from the value read.  The
    result says whether the worker goes on to execute the run. *)
Definition reclaim_if_stale (d : delivery) (existing_value : string)
  : task bool :=
  match split_colon existing_value with
  | None => Ret false                               (* ValueError *)
  | Some (existing_instance, existing_timestamp) =>
      match py_int existing_timestamp with
      | None => Ret false                           (* ValueError *)
      | Some existing_time =>
          if current_time d - existing_time >? REDIS_KEY_TTL / 2 then
            let* result :=
              await (redis_eval_reclaim (run_lock_key (agent_run_id d))
                       existing_value (lock_value d) REDIS_KEY_TTL) in
            if result : bool then Ret true else Ret false
          else Ret false
      end
  end.

(** Lines 112-174 of [run_agent_background]: [true] when the worker owns
    the run and executes it, [false] when it returns at once. *)
Definition acquire_run_lock (d : delivery) : task bool :=
  let* lock_acquired :=
    monitored_lock (run_lock_key (agent_run_id d)) (lock_value d)
                   REDIS_KEY_TTL (event_time_ms d) in
  if lock_acquired : bool then Ret true
  else
    let* existing_value := await (redis_get (run_lock_key (agent_run_id d))) in
    match existing_value with
    | None => Ret false
    | Some v =>
        if String.eqb v "" then Ret false
        else reclaim_if_stale d v
    end.

(** The specification's words, "the embedded timestamp is older than
    half the lock TTL", for a lock value read at [current_time d]. *)
Definition older_than_half_ttl (d : delivery) (value : string) : bool :=
  match split_colon value with
  | Some (_, timestamp) =>
      match py_int timestamp with
      | Some t => current_time d - t >? REDIS_KEY_TTL / 2
      | None => false
      end
  | None => false
  end.

Fixpoint no_colon (s : string) : bool :=
  match s with
  | EmptyString => true
  | String c s' => negb (Ascii.eqb c ":") && no_colon s'
  end.

(** What the failed [monitored_lock] leaves behind: one process-local
    monitor event, and the store as it was. *)
Definition note_failure (d : delivery) (w : world) : world :=
  with_monitor_events
    (fun l => l ++ [("lock_failed", run_lock_key (agent_run_id d))]) w.

(** *** The continuations of [acquire_run_lock] at its awaits *)








(** *** Two concrete deliveries of run [r5] *)
Definition first_delivery : delivery :=
  {| agent_run_id := "r5"; instance_id := "3f9c2a71"; lock_time := 1700000000;
     event_time_ms := 1700000000123; current_time := 1700000001 |}.

Definition second_delivery : delivery :=
  {| agent_run_id := "r5"; instance_id := "b81e04d5"; lock_time := 1700000002;
     event_time_ms := 1700000002456; current_time := 1700000003 |}.

End RunLock.

(** ** Phases 2-4 of [run_agent_background]: driving the generator and
    finalizing ([run_agent_background.py], lines 247-384 and 566-649) *)

Module Executor.
Import Store.

(** Exceptions are kept as their text. *)
Abbreviation task := (prog world string).

Definition response_list_key (agent_run_id : string) : string :=
  "agent_run:" +:+ agent_run_id +:+ ":responses".
Definition response_channel (agent_run_id : string) : string :=
  "agent_run:" +:+ agent_run_id +:+ ":new_response".
Definition global_control_channel (agent_run_id : string) : string :=
  "agent_run:" +:+ agent_run_id +:+ ":control".
Definition instance_active_key (instance_id agent_run_id : string) : string :=
  "active_run:" +:+ instance_id +:+ ":" +:+ agent_run_id.
Definition task_status_key (agent_run_id : string) : string :=
  "task_status:" +:+ agent_run_id.

(** [REDIS_RESPONSE_LIST_TTL = 3600 * 24] *)
Definition REDIS_RESPONSE_LIST_TTL : Z := 3600 * 24.

(** [_update_task_status]: the payload is kept as its status. *)
Definition update_task_status (agent_run_id status : string) (w : world)
  : world * unit :=
  redis_set (task_status_key agent_run_id) status REDIS_RESPONSE_LIST_TTL w.

(** [asyncio.create_task(...)]: the command joins the pool of commands
    in flight; nothing waits for it. *)
Definition create_task (op : redis_op) (w : world) : world :=
  with_pending (fun l => l ++ [op]) w.

(** A status item announcing the end of the run:
    [type == 'status' and status in ['completed', 'failed', 'stopped']]. *)
Definition terminal_status (response : item) : option string :=
  match type response, status response with
  | Some t, Some s =>
      if String.eqb t "status" && in_list s ["completed"; "failed"; "stopped"]
      then Some s else None
  | _, _ => None
  end.

(** One turn of [async for response in agent_gen], from the arrival of
    [response] to the next suspension; [stop_signal_received] is the
    flag as the listener task has left it.  [Some (final_status,
    error_message)] leaves the loop. *)
Definition loop_body (agent_run_id : string) (stop_signal_received : bool)
           (response : item) (w : world)
  : world * option (string * option string) :=
  if stop_signal_received then (w, Some ("stopped", None))
  else
    let w :=
      create_task (Publish (response_channel agent_run_id) "new")
        (create_task (Rpush (response_list_key agent_run_id) response) w) in
    match terminal_status response with
    | Some status_val =>
        let error_message :=
          if String.eqb status_val "failed" || String.eqb status_val "stopped"
          then Some (default ("Run ended with status: " +:+ status_val)
                             (message response))
          else None in
        (w, Some (status_val, error_message))
    | None => (w, None)
    end.

(** The loop over the generator: the items it yields, each with the
    stop flag at its arrival, and how it ends ([Some e]: it raises). *)
Fixpoint drive (agent_run_id : string) (gen : list (bool * item))
         (ending : option string) : task (string * option string) :=
  match gen with
  | [] =>
      match ending with
      | None => Ret ("running", None)
      | Some e => Raise e
      end
  | (stop_signal_received, response) :: rest =>
      let* exit :=
        await (loop_body agent_run_id stop_signal_received response) in
      match exit with
      | Some r => Ret r
      | None => drive agent_run_id rest ending
      end
  end.

Definition completion_message : item :=
  {| type := Some "status"; status := Some "completed";
     message := Some "Agent run completed successfully"; body := "" |}.

Definition control_signal (final_status : string) : string :=
  if String.eqb final_status "completed" then "END_STREAM"
  else if String.eqb final_status "failed" then "ERROR"
  else "STOP".

(** [client.table('agent_runs').update(update_data).eq("run_id", id)]:
    every row of the run is rewritten; the answer says whether there
    was one. *)
Definition update_row (agent_run_id status : string) (now : Z)
           (err : option string) (resp : list item) (r : agent_run)
  : agent_run :=
  if String.eqb (run_id r) agent_run_id then
    {| run_id := run_id r; run_thread_id := run_thread_id r;
       run_status := status;
       started_at := started_at r;
       completed_at := Some now;
       updated_at := updated_at r;
       error := match err with
                | Some e => if String.eqb e "" then error r else Some e
                | None => error r
                end;
       responses := match resp with [] => responses r | _ => resp end;
       run_model_name := run_model_name r |}
  else r.

Definition db_update_run (agent_run_id status : string) (err : option string)
           (resp : list item) (w : world) : world * bool :=
  (with_agent_runs (map (update_row agent_run_id status (clock w) err resp)) w,
   existsb (fun r => String.eqb (run_id r) agent_run_id) (agent_runs w)).

Definition db_select_run (agent_run_id : string) (w : world)
  : world * option agent_run :=
  (w, find (fun r => String.eqb (run_id r) agent_run_id) (agent_runs w)).

(** [update_agent_run_status]: up to three attempts; after an update
    that found the row, one verifying read. *)
Fixpoint update_attempts (n : nat) (agent_run_id status : string)
         (err : option string) (resp : list item) : task bool :=
  match n with
  | O => Ret false
  | S n' =>
      let* updated := await (db_update_run agent_run_id status err resp) in
      if updated : bool then
        await (db_select_run agent_run_id) ;; Ret true
      else update_attempts n' agent_run_id status err resp
  end.

Definition update_agent_run_status := update_attempts 3.

(** The final control signal and the final task status. *)
Definition announce (agent_run_id final_status : string) : task string :=
  await (redis_publish (global_control_channel agent_run_id)
                       (control_signal final_status)) ;;
  await (update_task_status agent_run_id final_status) ;;
  Ret final_status.

(** Phase 4, from the snapshot of the list on. *)
Definition finalize (agent_run_id final_status : string)
           (error_message : option string) : task string :=
  let* all_responses :=
    await (redis_lrange (response_list_key agent_run_id) 0) in
  update_agent_run_status agent_run_id final_status error_message
                          all_responses ;;
  announce agent_run_id final_status.

(** [if final_status == "running": ...] *)
Definition complete_normally (agent_run_id : string) : task string :=
  await (redis_rpush (response_list_key agent_run_id) completion_message) ;;
  await (redis_publish (response_channel agent_run_id) "new") ;;
  Ret "completed".

Definition after_loop (agent_run_id : string) (r : string * option string)
  : task string :=
  let* final_status :=
    (if String.eqb r.1 "running" then complete_normally agent_run_id
     else Ret r.1) in
  finalize agent_run_id final_status r.2.

Definition newline : string := String (Ascii.ascii_of_nat 10) EmptyString.

(** The [except Exception as e] branch: [error_message] is [str(e)],
    [traceback_str] what [traceback.format_exc()] gives there; the row
    gets [f"{error_message}\n{traceback_str}"]. *)
Definition on_error (agent_run_id traceback_str : string)
           (error_message : string) : task string :=
  let error_response :=
    {| type := Some "status"; status := Some "error";
       message := Some error_message; body := "" |} in
  await (redis_rpush (response_list_key agent_run_id) error_response) ;;
  await (redis_publish (response_channel agent_run_id) "new") ;;
  let* all_responses :=
    await (redis_lrange (response_list_key agent_run_id) 0) in
  update_agent_run_status agent_run_id "failed"
    (Some (error_message +:+ newline +:+ traceback_str)) all_responses ;;
  await (redis_publish (global_control_channel agent_run_id) "ERROR") ;;
  await (update_task_status agent_run_id "failed") ;;
  Ret "failed".

(** The [try] block, once the lock is held. *)
Definition run_body (agent_run_id instance_id : string)
           (gen : list (bool * item)) (ending : option string) : task string :=
  await (update_task_status agent_run_id "running") ;;
  await (redis_set (instance_active_key instance_id agent_run_id) "running"
                   REDIS_KEY_TTL) ;;
  let* r := drive agent_run_id gen ending in
  after_loop agent_run_id r.

(** [run_agent_background] from line 247 to the end of its handlers; the
    result is [final_status].  (The [finally] clean-up is not modelled.) *)
Definition execute (agent_run_id instance_id traceback_str : string)
           (gen : list (bool * item)) (ending : option string) : task string :=
  try_except (run_body agent_run_id instance_id gen ending)
             (on_error agent_run_id traceback_str).

(** *** Scheduling the executor against its spawned commands *)

Definition apply_op (op : redis_op) (w : world) : world :=
  match op with
  | Rpush key it => (redis_rpush key it w).1
  | Publish channel data => (redis_publish channel data w).1
  end.

(** The [i]-th command in flight reaches the server. *)
Definition complete (i : nat) (w : world) : world :=
  match pending w !! i with
  | Some op => apply_op op (with_pending (delete i) w)
  | None => w
  end.

Inductive choice :=
| Main                (* the executor runs to its next suspension *)
| Complete (i : nat). (* a spawned command completes *)

Fixpoint exec_sched {A} (cs : list choice) (w : world) (p : task A)
  : world * task A :=
  match cs with
  | [] => (w, p)
  | Main :: cs' => let '(w', p') := step p w in exec_sched cs' w' p'
  | Complete i :: cs' => exec_sched cs' (complete i w) p
  end.

(** *** Observations *)

Definition response_list (agent_run_id : string) (w : world) : list item :=
  default [] (lists w !! response_list_key agent_run_id).

Definition item_eqb (x y : item) : bool :=
  bool_decide (type x = type y) && bool_decide (status x = status y)
  && bool_decide (message x = message y) && String.eqb (body x) (body y).

Definition count {A} (f : A -> bool) (l : list A) : nat :=
  length (filter (fun x => f x = true) l).

(** Messages published on a channel, oldest first. *)
Definition heard (channel : string) (w : world) : list string :=
  snd <$> filter (fun m => m.1 = channel) (published w).

Definition run_rows (agent_run_id : string) (w : world) : list agent_run :=
  filter (fun r => run_id r = agent_run_id) (agent_runs w).

(** The synthetic completion items in the response list. *)
Definition synthetic_count (agent_run_id : string) (w : world) : nat :=
  count (item_eqb completion_message) (response_list agent_run_id w).

(** Notifications delivered on the response channel, and notifications
    spawned but not yet delivered. *)
Definition notified (agent_run_id : string) (w : world) : nat :=
  length (heard (response_channel agent_run_id) w).

Definition is_notification (agent_run_id : string) (op : redis_op) : bool :=
  match op with
  | Publish c d => String.eqb c (response_channel agent_run_id)
                   && String.eqb d "new"
  | Rpush _ _ => false
  end.

Definition in_flight (agent_run_id : string) (w : world) : nat :=
  count (is_notification agent_run_id) (pending w).

(** A generator that yields no terminal status item, during a run that
    receives no stop signal. *)
Definition quiet (gen : list (bool * item)) : Prop :=
  Forall (fun x => x.1 = false /\ terminal_status x.2 = None) gen.

(** *** The suspension points of a quiet run
    (the executor between two awaits, as the program still to run) *)

Inductive stage :=
| AtTaskStatus                       (* before the first status write *)
| AtActiveKey                        (* before SET active_run:... *)
| AtItem (rest : list (bool * item)) (* waiting for the generator *)
| AtNotify                           (* synthetic item appended *)
| AtSnapshot                         (* its notification published *)
| AtUpdate (all_responses : list item)
| AtVerify
| AtSignal
| AtFinalStatus
| AtEnd.

Definition stage_prog (agent_run_id instance_id traceback_str : string)
           (gen : list (bool * item)) (st : stage) : task string :=
  let handler := on_error agent_run_id traceback_str in
  match st with
  | AtTaskStatus => execute agent_run_id instance_id traceback_str gen None
  | AtActiveKey =>
      try_except
        (await (redis_set (instance_active_key instance_id agent_run_id)
                          "running" REDIS_KEY_TTL) ;;
         let* r := drive agent_run_id gen None in
         after_loop agent_run_id r) handler
  | AtItem rest =>
      try_except (let* r := drive agent_run_id rest None in
                  after_loop agent_run_id r) handler
  | AtNotify =>
      try_except
        (let* final_status :=
           (await (redis_publish (response_channel agent_run_id) "new") ;;
            Ret "completed") in
         finalize agent_run_id final_status None) handler
  | AtSnapshot => try_except (finalize agent_run_id "completed" None) handler
  | AtUpdate all_responses =>
      try_except
        (update_agent_run_status agent_run_id "completed" None all_responses ;;
         announce agent_run_id "completed") handler
  | AtVerify =>
      try_except
        ((await (db_select_run agent_run_id) ;; Ret true) ;;
         announce agent_run_id "completed") handler
  | AtSignal => try_except (announce agent_run_id "completed") handler
  | AtFinalStatus =>
      try_except (await (update_task_status agent_run_id "completed") ;;
                  Ret "completed") handler
  | AtEnd => Ret "completed"
  end.

(** How far a stage is: synthetic items appended, notifications issued
    (delivered or in flight), an upper bound on those in flight, whether
    the run row is finalized, what has been said on the control
    channel. *)
Definition appended (st : stage) : nat :=
  match st with
  | AtTaskStatus | AtActiveKey | AtItem _ => 0
  | _ => 1
  end.

Definition issued (n : nat) (st : stage) : nat :=
  match st with
  | AtTaskStatus | AtActiveKey => 0
  | AtItem rest => n - length rest
  | AtNotify => n
  | _ => S n
  end.

Definition spawned (n : nat) (st : stage) : nat :=
  match st with
  | AtTaskStatus | AtActiveKey => 0
  | AtItem rest => n - length rest
  | _ => n
  end.

Definition finalized (st : stage) : bool :=
  match st with
  | AtVerify | AtSignal | AtFinalStatus | AtEnd => true
  | _ => false
  end.

Definition signalled (st : stage) : list string :=
  match st with
  | AtFinalStatus | AtEnd => ["END_STREAM"]
  | _ => []
  end.

(** Executor steps left before the end, for a generator of [n] items. *)
Definition steps_needed (n : nat) (st : stage) : nat :=
  match st with
  | AtTaskStatus => n + 9
  | AtActiveKey => n + 8
  | AtItem rest => length rest + 7
  | AtNotify => 6
  | AtSnapshot => 5
  | AtUpdate _ => 4
  | AtVerify => 3
  | AtSignal => 2
  | AtFinalStatus => 1
  | AtEnd => 0
  end.

(** Commands the loop of a quiet run spawns. *)
Definition loop_spawned (agent_run_id : string) (op : redis_op) : Prop :=
  match op with
  | Publish c d => c = response_channel agent_run_id /\ d = "new"
  | Rpush k it => k = response_list_key agent_run_id
                  /\ item_eqb completion_message it = false
  end.

Definition row_known (agent_run_id : string) (w : world) : Prop :=
  existsb (fun r => String.eqb (run_id r) agent_run_id) (agent_runs w) = true.

Definition rows_completed (agent_run_id : string) (w : world) : Prop :=
  Forall (fun r => run_status r = "completed") (run_rows agent_run_id w).

Definition rows_not_completed (agent_run_id : string) (w : world) : Prop :=
  Forall (fun r => run_status r <> "completed") (run_rows agent_run_id w).

Definition stage_facts (agent_run_id : string) (gen : list (bool * item))
           (st : stage) (w : world) : Prop :=
  synthetic_count agent_run_id w = appended st
  /\ Forall (loop_spawned agent_run_id) (pending w)
  /\ (notified agent_run_id w + in_flight agent_run_id w
      = issued (length gen) st)%nat
  /\ (in_flight agent_run_id w <= spawned (length gen) st)%nat
  /\ row_known agent_run_id w
  /\ (if finalized st then rows_completed agent_run_id w
      else rows_not_completed agent_run_id w)
  /\ heard (global_control_channel agent_run_id) w = signalled st
  /\ match st with
     | AtItem rest => quiet rest /\ (length rest <= length gen)%nat
     | _ => True
     end.

Definition exec_inv (agent_run_id instance_id traceback_str : string)
           (gen : list (bool * item)) (w : world) (p : task string) : Prop :=
  exists st, p = stage_prog agent_run_id instance_id traceback_str gen st
             /\ stage_facts agent_run_id gen st w.

(** The world the dispatcher leaves for the executor: the run row is
    there and not completed, nothing of the run is in the store yet. *)
Definition fresh_run (agent_run_id : string) (w : world) : Prop :=
  lists w !! response_list_key agent_run_id = None
  /\ pending w = []
  /\ published w = []
  /\ row_known agent_run_id w
  /\ rows_not_completed agent_run_id w.

(** *** A concrete run *)
Definition example_traceback : string :=
  "Traceback (most recent call last): File run_agent_background.py, line 282".

Definition chunk (text : string) : item :=
  {| type := Some "content"; status := None; message := None; body := text |}.

Definition run_row (id thread status : string) : agent_run :=
  {| run_id := id; run_thread_id := thread; run_status := status;
     started_at := 0; completed_at := None; updated_at := None;
     error := None; responses := []; run_model_name := "model" |}.

Definition world_with_run (id thread status : string) : world :=
  with_agent_runs (fun _ => [run_row id thread status]) empty_world.

End Executor.

(** ** The dispatcher and stream delivery ([agent/api.py]) *)

Module AgentApi.
Import Store Executor.

Inductive http_error := HTTPException (status_code : Z) (detail : string).

Definition detail_of (e : http_error) : string :=
  match e with HTTPException _ d => d end.

Abbreviation handler := (prog world http_error).

(** What the collaborators of a request answer.  Authentication, the
    quota ledger, the sandbox provider, the task queue and the id
    generators are outside this model; a request comes with their
    answers. *)
Record collaborators := {
  account : option string;            (* get_account_id_for_clerk_user *)
  thread_access : option http_error;  (* verify_thread_access raising *)
  token_status : option (string * Z * Z);
      (* get_user_token_status: plan, tokens_remaining, credits_remaining;
         None when the check itself raises, which is logged and ignored *)
  can_use : bool;                     (* can_use_model *)
  can_run : bool;                     (* check_billing_status *)
  sandbox_failure : option string;    (* the sandbox provider raising *)
  enqueue_failure : option string;    (* run_agent_background.send raising *)
  new_run_id : string;
  new_request_id : string;
  new_project_id : string;
  new_thread_id : string;
  new_message_id : string;
  new_sandbox_id : string
}.

(** [utils/config.py] values read by the handlers. *)
Record config := {
  MODEL_TO_USE : string;
  SANDBOX_SNAPSHOT_NAME : string;
  MOBILE_SANDBOX_SNAPSHOT_NAME : string
}.

(** [MODEL_NAME_ALIASES] *)
Definition MODEL_NAME_ALIASES : list (string * string) :=
  [ ("gpt-4", "openrouter/openai/gpt-4o");
    ("gpt-4o", "openrouter/openai/gpt-4o");
    ("claude", "openrouter/anthropic/claude-3.5-sonnet");
    ("claude-3.5", "openrouter/anthropic/claude-3.5-sonnet");
    ("claude-3.5-sonnet", "openrouter/anthropic/claude-3.5-sonnet");
    ("gemini", "openrouter/google/gemini-2.5-pro");
    ("gemini-pro", "openrouter/google/gemini-2.5-pro");
    ("openrouter/openai/gpt-4o", "openrouter/openai/gpt-4o");
    ("openrouter/anthropic/claude-3.5-sonnet",
     "openrouter/anthropic/claude-3.5-sonnet");
    ("openrouter/google/gemini-2.5-pro", "openrouter/google/gemini-2.5-pro") ].

Definition resolve_model (cfg : config) (model_name : option string) : string :=
  let model_name := default (MODEL_TO_USE cfg) model_name in
  default model_name (Constants.assoc_get model_name MODEL_NAME_ALIASES).

(** [if app_type not in ['web', 'mobile']: app_type = 'web'] *)
Definition validate_app_type (app_type : string) : string :=
  if negb (in_list app_type ["web"; "mobile"]) then "web" else app_type.

(** The token quota check before a conversation. *)
Definition quota_precheck (g : collaborators) : handler unit :=
  match token_status g with
  | Some (plan, tokens_remaining, credits_remaining) =>
      if negb (String.eqb plan "byok")
         && (tokens_remaining <? Constants.TOKENS_PER_CONVERSATION_ESTIMATE)
      then Raise (HTTPException 402 "insufficient_credits")
      else Ret tt
  | None => Ret tt
  end.

Definition billing_checks (g : collaborators) : handler unit :=
  if negb (can_use g) then Raise (HTTPException 403 "model not allowed")
  else if negb (can_run g) then Raise (HTTPException 402 "billing")
  else Ret tt.

(** *** Table round trips *)

Definition db_select_thread (tid : string) (w : world) : world * option thread :=
  (w, find (fun t => String.eqb (thread_id t) tid) (threads w)).

Definition db_select_project (pid : string) (w : world)
  : world * option project :=
  (w, find (fun p => String.eqb (project_id p) pid) (projects w)).

Definition db_insert_run (row : agent_run) (w : world) : world * unit :=
  (with_agent_runs (fun l => l ++ [row]) w, tt).

(** [update({"status": "failed", "error": ..., "completed_at": now})] *)
Definition mark_failed (rid err : string) (now : Z) (r : agent_run)
  : agent_run :=
  if String.eqb (run_id r) rid then
    {| run_id := run_id r; run_thread_id := run_thread_id r;
       run_status := "failed"; started_at := started_at r;
       completed_at := Some now; updated_at := updated_at r;
       error := Some err; responses := responses r;
       run_model_name := run_model_name r |}
  else r.

Definition db_fail_run (rid err : string) (w : world) : world * unit :=
  (with_agent_runs (map (mark_failed rid err (clock w))) w, tt).

(** [update({"status": "stopping", "updated_at": now})] *)
Definition mark_stopping (rid : string) (now : Z) (r : agent_run) : agent_run :=
  if String.eqb (run_id r) rid then
    {| run_id := run_id r; run_thread_id := run_thread_id r;
       run_status := "stopping"; started_at := started_at r;
       completed_at := completed_at r; updated_at := Some now;
       error := error r; responses := responses r;
       run_model_name := run_model_name r |}
  else r.

Definition db_stop_run (rid : string) (w : world) : world * unit :=
  (with_agent_runs (map (mark_stopping rid (clock w))) w, tt).

Definition enqueue (q : queue_item) (w : world) : world * unit :=
  (with_queue (fun l => l ++ [q]) w, tt).

(** The runs of a project that are queued or running. *)
Definition active_runs (pid : string) (w : world) : list agent_run :=
  let tids :=
    thread_id <$> filter (fun t => thread_project_id t = pid) (threads w) in
  filter (fun r => in_list (run_thread_id r) tids = true
                   /\ in_list (run_status r) ["queued"; "running"] = true)
         (agent_runs w).

(** Modelled from the spec: [check_for_active_project_agent_run] of
    [agent/utils.py], which is not among the sources: "scan runs
    belonging to threads of the same project; if one is in {queued,
    running}", it is the run the dispatcher stops. *)
Definition check_for_active_project_agent_run (pid : string) (w : world)
  : world * option string :=
  (w, run_id <$> head (active_runs pid w)).

(** [run_agent_background.stop_agent_run(agent_run_id)]: STOP on the
    run's global control channel. *)
Definition stop_agent_run (rid : string) : handler bool :=
  await (redis_publish (global_control_channel rid) "STOP") ;; Ret true.

(** *** [POST /thread/{thread_id}/agent/start] *)

Record start_request := {
  model_name : option string;
  enable_thinking : bool;
  reasoning_effort : string;
  stream : bool;
  enable_context_manager : bool;
  app_type : string
}.

Definition with_app_type (a : string) (body : start_request) : start_request :=
  {| model_name := model_name body; enable_thinking := enable_thinking body;
     reasoning_effort := reasoning_effort body; stream := stream body;
     enable_context_manager := enable_context_manager body; app_type := a |}.

Definition new_run (rid tid model : string) (now : Z) : agent_run :=
  {| run_id := rid; run_thread_id := tid; run_status := "running";
     started_at := now; completed_at := None; updated_at := None;
     error := None; responses := []; run_model_name := model |}.

Definition insert_new_run (rid tid model : string) (w : world) : world * unit :=
  db_insert_run (new_run rid tid model (clock w)) w.

(** Registering and queueing a run that has been inserted. *)
Definition register_and_enqueue (g : collaborators) (q : queue_item) : handler unit :=
  await (redis_set (instance_active_key (q_instance_id q) (q_agent_run_id q))
                   "running" REDIS_KEY_TTL) ;;
  match enqueue_failure g with
  | None => await (enqueue q)
  | Some e =>
      await (db_fail_run (q_agent_run_id q)
                         ("Failed to queue background task: " +:+ e)) ;;
      Raise (HTTPException 500 ("Failed to queue background task: " +:+ e))
  end.

(** The project's sandbox is looked up and started; every failure in
    there, the 404s included, comes out as a 500. *)
Definition start_project_sandbox (g : collaborators) (pid : string) : handler unit :=
  try_except
    (let* project_result := await (db_select_project pid) in
     match project_result with
     | None => Raise (HTTPException 404 "Project not found")
     | Some project_data =>
         match sandbox_id project_data with
         | None => Raise (HTTPException 404 "No sandbox found for this project")
         | Some _ =>
             match sandbox_failure g with
             | Some e => Raise (HTTPException 500 e)
             | None => Ret tt
             end
         end
     end)
    (fun e => Raise (HTTPException 500
                       ("Failed to initialize sandbox: " +:+ detail_of e))).

Definition start_agent (cfg : config) (instance_id : option string)
           (g : collaborators) (tid : string) (body : start_request)
  : handler (string * string) :=
  match instance_id with
  | None => Raise (HTTPException 500 "Agent API not initialized with instance ID")
  | Some instance_id =>
      let model_name := resolve_model cfg (model_name body) in
      let app_type := validate_app_type (app_type body) in
      match thread_access g with
      | Some e => Raise e
      | None =>
          let* thread_result := await (db_select_thread tid) in
          match thread_result with
          | None => Raise (HTTPException 404 "Thread not found")
          | Some thread_data =>
              let pid := thread_project_id thread_data in
              quota_precheck g ;;
              billing_checks g ;;
              let* active_run_id :=
                await (check_for_active_project_agent_run pid) in
              match active_run_id with
              | Some rid => stop_agent_run rid ;; Ret tt
              | None => Ret tt
              end ;;
              start_project_sandbox g pid ;;
              await (insert_new_run (new_run_id g) tid model_name) ;;
              register_and_enqueue g
                {| q_agent_run_id := new_run_id g; q_thread_id := tid;
                   q_instance_id := instance_id; q_project_id := pid;
                   q_model_name := model_name;
                   q_enable_thinking := enable_thinking body;
                   q_reasoning_effort := reasoning_effort body;
                   q_stream := stream body;
                   q_enable_context_manager := enable_context_manager body;
                   q_is_agent_builder := is_agent_builder thread_data;
                   q_target_agent_id := target_agent_id thread_data;
                   q_request_id := new_request_id g;
                   q_app_type := app_type |} ;;
              Ret (new_run_id g, "queued")
          end
      end
  end.

(** *** [POST /agent-run/{agent_run_id}/stop] *)

Definition get_agent_run_with_access_check (g : collaborators) (rid : string)
  : handler agent_run :=
  let* agent_run := await (db_select_run rid) in
  match agent_run with
  | None => Raise (HTTPException 404 "Agent run not found")
  | Some agent_run_data =>
      match thread_access g with
      | Some e => Raise e
      | None => Ret agent_run_data
      end
  end.

(** The answer is [{"message", "agent_run_id", "status"}]; its last two
    entries are kept. *)
Definition stop_agent (g : collaborators) (rid : string) : handler (string * string) :=
  let* agent_run_data := get_agent_run_with_access_check g rid in
  let current_status := run_status agent_run_data in
  if negb (in_list current_status ["running"; "queued"]) then
    Raise (HTTPException 400
             ("Cannot stop agent run with status: " +:+ current_status))
  else
    let* success := stop_agent_run rid in
    if success : bool then
      await (db_stop_run rid) ;;
      Ret (rid, "stopping")
    else Raise (HTTPException 500 "Failed to send stop signal").

(** *** [GET /agent-run/{agent_run_id}/stream]: the start of
    [stream_generator], up to the status check.  A stream either is
    closed there, or goes on to tail the run from
    [last_processed_index] (the tailing loop is not modelled). *)

Inductive stream_end :=
| Closed
| Tailing (last_processed_index : Z).

Definition status_event (s : string) : item :=
  {| type := Some "status"; status := Some s; message := None; body := "" |}.

(** The events yielded so far, in order, and how the stream stands. *)
Definition stream_generator (rid : string) : handler (list item * stream_end) :=
  let* initial_responses :=
    await (redis_lrange (response_list_key rid) 0) in
  let last_processed_index :=
    match initial_responses with
    | [] => -1
    | _ => Z.of_nat (length initial_responses) - 1
    end in
  let* run_status_row := await (db_select_run rid) in
  let current_status := run_status <$> run_status_row in
  if negb (bool_decide (current_status = Some "running")) then
    Ret (initial_responses ++ [status_event "completed"], Closed)
  else Ret (initial_responses, Tailing last_processed_index).

(** *** [POST /agent/initiate] *)

(** An uploaded file: its name, what [is_image_file] says of it, and
    whether the sandbox stores it (upload and verification). *)
Record upload := {
  filename : string;
  is_image : bool;
  stored : bool
}.

Record initiate_request := {
  prompt : string;
  i_model_name : option string;
  i_enable_thinking : bool;
  i_reasoning_effort : string;
  i_stream : bool;
  i_enable_context_manager : bool;
  files : list upload;
  i_is_agent_builder : bool;
  i_target_agent_id : option string;
  i_app_type : string
}.

Definition with_i_app_type (a : string) (q : initiate_request)
  : initiate_request :=
  {| prompt := prompt q; i_model_name := i_model_name q;
     i_enable_thinking := i_enable_thinking q;
     i_reasoning_effort := i_reasoning_effort q; i_stream := i_stream q;
     i_enable_context_manager := i_enable_context_manager q;
     files := files q; i_is_agent_builder := i_is_agent_builder q;
     i_target_agent_id := i_target_agent_id q; i_app_type := a |}.

Definition nl : string := String (Ascii.ascii_of_nat 10) EmptyString.

(** [f"{prompt[:30]}..." if len(prompt) > 30 else prompt] *)
Definition placeholder_name (prompt : string) : string :=
  if (30 <? String.length prompt)%nat
  then String.substring 0 30 prompt +:+ "..."
  else prompt.

(** [filename.replace('/', '_').replace('\\', '_')] *)
Fixpoint safe_filename (s : string) : string :=
  match s with
  | EmptyString => EmptyString
  | String c s' =>
      String (if Ascii.eqb c "/" || Ascii.eqb c (Ascii.ascii_of_nat 92)
              then "_"%char else c)
             (safe_filename s')
  end.

Definition workspace_dir (app_type : string) : string :=
  if String.eqb app_type "mobile" then "cheatcode-mobile" else "cheatcode-app".

(** [upload_and_verify_file]: the stored path, or the name to report. *)
Definition upload_and_verify_file (app_type : string) (f : upload)
  : option string * option string :=
  if String.eqb (filename f) "" then (None, Some "unnamed_file")
  else
    let safe := safe_filename (filename f) in
    if stored f
    then (Some ("/workspace/" +:+ workspace_dir app_type +:+ "/" +:+ safe),
          None)
    else (None, Some safe).

Definition omap_list {A B} (f : A -> option B) (l : list A) : list B :=
  flat_map (fun x => match f x with Some y => [y] | None => [] end) l.

Definition concat_strings (l : list string) : string :=
  fold_right String.append "" l.

Definition message_content_of (app_type prompt : string) (fs : list upload)
  : string :=
  let results := map (upload_and_verify_file app_type) fs in
  let successful_uploads := omap_list fst results in
  let failed_uploads :=
    omap_list (fun r => match r.1 with Some _ => None | None => r.2 end)
              results in
  let m := prompt in
  let m :=
    match successful_uploads with
    | [] => m
    | _ =>
        (m +:+ (if String.eqb m "" then "" else nl +:+ nl))
          +:+ concat_strings
                (map (fun p => "[Uploaded File: " +:+ p +:+ "]" +:+ nl)
                     successful_uploads)
    end in
  match failed_uploads with
  | [] => m
  | _ =>
      m +:+ nl +:+ nl +:+ "The following files failed to upload:" +:+ nl
        +:+ concat_strings (map (fun n => "- " +:+ n +:+ nl) failed_uploads)
  end.

Definition db_insert_project (p : project) (w : world) : world * unit :=
  (with_projects (fun l => l ++ [p]) w, tt).

Definition db_delete_project (pid : string) (w : world) : world * unit :=
  (with_projects (filter (fun p => project_id p <> pid)) w, tt).

Definition set_sandbox (pid sid : string) (p : project) : project :=
  if String.eqb (project_id p) pid then
    {| project_id := project_id p; project_account_id := project_account_id p;
       project_name := project_name p; project_app_type := project_app_type p;
       sandbox_id := Some sid |}
  else p.

Definition db_update_project_sandbox (pid sid : string) (w : world)
  : world * bool :=
  (with_projects (map (set_sandbox pid sid)) w,
   existsb (fun p => String.eqb (project_id p) pid) (projects w)).

(** [create_sandbox_from_snapshot] *)
Definition create_sandbox (sid snapshot : string) (w : world) : world * unit :=
  (with_sandboxes (fun l => l ++ [(sid, snapshot)]) w, tt).

(** [delete_sandbox] *)
Definition delete_sandbox (sid : string) (w : world) : world * unit :=
  (with_sandboxes (filter (fun s => s.1 <> sid)) w, tt).

Definition db_insert_thread (t : thread) (w : world) : world * unit :=
  (with_threads (fun l => l ++ [t]) w, tt).

Definition db_insert_message (m : message_row) (w : world) : world * unit :=
  (with_messages (fun l => l ++ [m]) w, tt).

Definition snapshot_for (cfg : config) (app_type : string) : string :=
  if String.eqb app_type "mobile" then MOBILE_SANDBOX_SNAPSHOT_NAME cfg
  else SANDBOX_SNAPSHOT_NAME cfg.

(** The [try] block of [initiate_agent_with_files]. *)
Definition initiate_body (cfg : config) (instance_id : string) (g : collaborators)
           (account_id model_name app_type : string) (q : initiate_request)
  : handler (string * string) :=
  let pid := new_project_id g in
  let sid := new_sandbox_id g in
  let tid := new_thread_id g in
  await (db_insert_project
           {| project_id := pid; project_account_id := account_id;
              project_name := placeholder_name (prompt q);
              project_app_type := app_type; sandbox_id := None |}) ;;
  match sandbox_failure g with
  | Some _ =>
      await (db_delete_project pid) ;;
      Raise (HTTPException 500 "Failed to create sandbox")
  | None => await (create_sandbox sid (snapshot_for cfg app_type))
  end ;;
  let* updated := await (db_update_project_sandbox pid sid) in
  (if updated : bool then Ret tt
   else await (delete_sandbox sid) ;;
        Raise (HTTPException 500 "Database update failed")) ;;
  await (db_insert_thread
           {| thread_id := tid; thread_project_id := pid;
              thread_account_id := account_id;
              is_agent_builder := i_is_agent_builder q;
              target_agent_id :=
                if i_is_agent_builder q then i_target_agent_id q else None |}) ;;
  (if existsb (fun f => negb (String.eqb (filename f) "")
                        && negb (is_image f)) (files q)
   then Raise (HTTPException 400 "Only image files are allowed.")
   else Ret tt) ;;
  await (db_insert_message
           {| message_id := new_message_id g; message_thread_id := tid;
              message_content :=
                message_content_of app_type (prompt q) (files q) |}) ;;
  await (insert_new_run (new_run_id g) tid model_name) ;;
  register_and_enqueue g
    {| q_agent_run_id := new_run_id g; q_thread_id := tid;
       q_instance_id := instance_id; q_project_id := pid;
       q_model_name := model_name;
       q_enable_thinking := i_enable_thinking q;
       q_reasoning_effort := i_reasoning_effort q;
       q_stream := i_stream q;
       q_enable_context_manager := i_enable_context_manager q;
       q_is_agent_builder := i_is_agent_builder q;
       q_target_agent_id := i_target_agent_id q;
       q_request_id := new_request_id g;
       q_app_type := app_type |} ;;
  Ret (tid, new_run_id g).

(** The answer is [{thread_id, agent_run_id}].  Whatever the [try]
    block raises, HTTP errors included, comes out as a 500. *)
Definition initiate_agent_with_files (cfg : config)
           (instance_id : option string) (g : collaborators) (q : initiate_request)
  : handler (string * string) :=
  match instance_id with
  | None => Raise (HTTPException 500 "Agent API not initialized with instance ID")
  | Some instance_id =>
      let app_type := validate_app_type (i_app_type q) in
      let model_name := resolve_model cfg (i_model_name q) in
      match account g with
      | None => Raise (HTTPException 400 "User account not found")
      | Some account_id =>
          quota_precheck g ;;
          billing_checks g ;;
          try_except
            (initiate_body cfg instance_id g account_id model_name app_type q)
            (fun e =>
               Raise (HTTPException 500
                        ("Failed to initiate agent session: " +:+ detail_of e)))
      end
  end.

(** *** A concrete deployment *)

Definition example_config : config :=
  {| MODEL_TO_USE := "openrouter/google/gemini-2.5-pro";
     SANDBOX_SNAPSHOT_NAME := "cheatcode-web-snapshot";
     MOBILE_SANDBOX_SNAPSHOT_NAME := "cheatcode-mobile-snapshot" |}.

Definition all_willing : collaborators :=
  {| account := Some "acc-1"; thread_access := None;
     token_status := Some ("pro", 750000, 150);
     can_use := true; can_run := true;
     sandbox_failure := None; enqueue_failure := None;
     new_run_id := "r4"; new_request_id := "req-1";
     new_project_id := "p9"; new_thread_id := "t9";
     new_message_id := "m9"; new_sandbox_id := "sb9" |}.

(** Project [p1] with its sandbox, thread [t3] of it, run [r3] of that
    thread in the given status. *)
Definition project_world (r3_status : string) : world :=
  with_projects
    (fun _ => [ {| project_id := "p1"; project_account_id := "acc-1";
                   project_name := "hello"; project_app_type := "web";
                   sandbox_id := Some "sb1" |} ])
    (with_threads
       (fun _ => [ {| thread_id := "t3"; thread_project_id := "p1";
                      thread_account_id := "acc-1";
                      is_agent_builder := false; target_agent_id := None |} ])
       (world_with_run "r3" "t3" r3_status)).

Definition start_body (a : string) : start_request :=
  {| model_name := None; enable_thinking := false; reasoning_effort := "low";
     stream := true; enable_context_manager := true; app_type := a |}.

Definition initiate_form (a : string) : initiate_request :=
  {| prompt := "build a hello world page"; i_model_name := None;
     i_enable_thinking := false; i_reasoning_effort := "low";
     i_stream := true; i_enable_context_manager := true; files := [];
     i_is_agent_builder := false; i_target_agent_id := None;
     i_app_type := a |}.

End AgentApi.

(** ** [utils/constants.py] and [services/token_billing.py], continued:
    credits, quota reset and plan change *)

Module TokenBillingAdmin.
Import Constants TokenBilling.

(** [get_tokens_from_credits] *)
Definition get_tokens_from_credits (credits : Z) : Z :=
  if credits <=? 0 then 0 else credits * AVERAGE_TOKENS_PER_CREDIT.

(** The columns [reset_user_quota] writes. *)
Definition reset_columns (quota now : Z) (r : billing_customer)
  : billing_customer :=
  {| id := id r; email := email r; active := active r;
     provider := provider r; plan_id := plan_id r;
     token_quota_total := token_quota_total r;
     token_quota_remaining := quota;
     quota_resets_at := now + days 30;
     billing_updated_at := now |}.

(** The columns [upgrade_user_plan] writes. *)
Definition upgrade_columns (new_plan_id : string) (quota now : Z)
           (r : billing_customer) : billing_customer :=
  {| id := id r; email := email r; active := active r;
     provider := provider r; plan_id := new_plan_id;
     token_quota_total := quota;
     token_quota_remaining := quota;
     quota_resets_at := now + days 30;
     billing_updated_at := now |}.

(** [.update({...}).eq('account_id', a).execute()]: the row of the
    account, when there is one, is rewritten. *)
Definition update_billing (account_id : string)
           (f : Z -> billing_customer -> billing_customer) (w : world)
  : world * unit :=
  (set_billing (alter (f (clock w)) account_id) w, tt).

(** [reset_user_quota] (its [except Exception] answers [False]). *)
Definition reset_user_quota (account_id : string) : task bool :=
  let* billing_result := await (select_billing account_id) in
  match billing_result with
  | None => Ret false
  | Some row =>
      match get_plan_by_id (plan_id row) with
      | None => Ret false
      | Some plan =>
          await (update_billing account_id
                   (reset_columns (token_quota plan))) ;;
          Ret true
      end
  end.

(** [upgrade_user_plan] (the [ValueError] of an unknown plan is logged
    and raised again). *)
Definition upgrade_user_plan (account_id new_plan_id : string)
  : task token_status :=
  match get_plan_by_id new_plan_id with
  | None => Raise (Exception ("Invalid plan_id: " +:+ new_plan_id))
  | Some plan =>
      await (update_billing account_id
               (upgrade_columns new_plan_id (token_quota plan))) ;;
      get_user_token_status account_id
  end.

(** Calls of [consume_tokens] for one account, one after the other; the
    world after the last one. *)
Definition consume_in_turn (account_id model : string) (amounts : list Z)
           (w : world) : world :=
  fold_left
    (fun w n => (run (consume_tokens account_id n model None None) w).1)
    amounts w.

(** The balance those calls should leave: an amount is taken off when
    the balance covers it, and skipped otherwise. *)
Definition debit_in_turn (balance : Z) (amounts : list Z) : Z :=
  fold_left (fun r n => if n <=? r then r - n else r) amounts balance.

(** How many of them are covered at their turn. *)
Fixpoint covered_in_turn (balance : Z) (amounts : list Z) : nat :=
  match amounts with
  | [] => 0%nat
  | n :: rest =>
      if n <=? balance then S (covered_in_turn (balance - n) rest)
      else covered_in_turn balance rest
  end.

End TokenBillingAdmin.

(** ** [run_agent_background], continued: how the loop is left *)

Module ExecutorEndings.
Import Store Executor.

(** The commands the loop hands to [asyncio.create_task] for the items
    it goes through: for each an RPUSH and a PUBLISH, in that order. *)
Definition spawned_for (agent_run_id : string) (items : list item)
  : list redis_op :=
  flat_map (fun it => [Rpush (response_list_key agent_run_id) it;
                       Publish (response_channel agent_run_id) "new"])
           items.

(** [error_message] as the loop sets it on a terminal status item. *)
Definition exit_message (status_val : string) (response : item)
  : option string :=
  if String.eqb status_val "failed" || String.eqb status_val "stopped"
  then Some (default ("Run ended with status: " +:+ status_val)
                     (message response))
  else None.

(** The item the [except] branch appends. *)
Definition error_response (error_message : string) : item :=
  {| type := Some "status"; status := Some "error";
     message := Some error_message; body := "" |}.

(** The [error] column after an update carrying [err]. *)
Definition stored_error (err : option string) (r : agent_run)
  : option string :=
  match err with
  | Some e => if String.eqb e "" then error r else Some e
  | None => error r
  end.

(** What one turn of the loop decides: [Some (final_status,
    error_message)] leaves the loop. *)
Definition exit_of (stop_signal_received : bool) (response : item)
  : option (string * option string) :=
  if stop_signal_received then Some ("stopped", None)
  else match terminal_status response with
       | Some status_val => Some (status_val, exit_message status_val response)
       | None => None
       end.

(** The items of the turn that left the loop which were handed to
    Redis: none when the stop flag was seen first. *)
Definition last_spawned (stop_signal_received : bool) (response : item)
  : list item :=
  if stop_signal_received then [] else [response].

(** *** The suspension points of a run whose generator raises
    (the executor between two awaits, as the program still to run;
    [error_message] is the text of the exception) *)

Inductive error_stage :=
| ErrTaskStatus                       (* before the first status write *)
| ErrActiveKey                        (* before SET active_run:... *)
| ErrItem (rest : list (bool * item)) (* waiting for the generator *)
| ErrNotify                           (* error item appended *)
| ErrSnapshot                         (* its notification published *)
| ErrUpdate (all_responses : list item)
| ErrVerify
| ErrSignal
| ErrFinalStatus
| ErrEnd.

Definition error_stage_prog (agent_run_id instance_id traceback_str : string)
           (gen : list (bool * item)) (error_message : string)
           (st : error_stage) : task string :=
  let handler := on_error agent_run_id traceback_str in
  let stored := error_message +:+ newline +:+ traceback_str in
  let signal :=
    await (redis_publish (global_control_channel agent_run_id) "ERROR") ;;
    await (update_task_status agent_run_id "failed") ;;
    Ret "failed" in
  match st with
  | ErrTaskStatus =>
      execute agent_run_id instance_id traceback_str gen (Some error_message)
  | ErrActiveKey =>
      try_except
        (await (redis_set (instance_active_key instance_id agent_run_id)
                          "running" REDIS_KEY_TTL) ;;
         let* r := drive agent_run_id gen (Some error_message) in
         after_loop agent_run_id r) handler
  | ErrItem rest =>
      try_except (let* r := drive agent_run_id rest (Some error_message) in
                  after_loop agent_run_id r) handler
  | ErrNotify =>
      await (redis_publish (response_channel agent_run_id) "new") ;;
      let* all_responses :=
        await (redis_lrange (response_list_key agent_run_id) 0) in
      update_agent_run_status agent_run_id "failed" (Some stored)
                              all_responses ;;
      signal
  | ErrSnapshot =>
      let* all_responses :=
        await (redis_lrange (response_list_key agent_run_id) 0) in
      update_agent_run_status agent_run_id "failed" (Some stored)
                              all_responses ;;
      signal
  | ErrUpdate all_responses =>
      update_agent_run_status agent_run_id "failed" (Some stored)
                              all_responses ;;
      signal
  | ErrVerify =>
      (await (db_select_run agent_run_id) ;; Ret true) ;; signal
  | ErrSignal => signal
  | ErrFinalStatus =>
      await (update_task_status agent_run_id "failed") ;; Ret "failed"
  | ErrEnd => Ret "failed"
  end.

Definition error_steps_needed (n : nat) (st : error_stage) : nat :=
  match st with
  | ErrTaskStatus => n + 9
  | ErrActiveKey => n + 8
  | ErrItem rest => length rest + 7
  | ErrNotify => 6
  | ErrSnapshot => 5
  | ErrUpdate _ => 4
  | ErrVerify => 3
  | ErrSignal => 2
  | ErrFinalStatus => 1
  | ErrEnd => 0
  end.

(** Commands of the run's own loop: appends to its response list and
    publications on its response channel. *)
Definition loop_op (agent_run_id : string) (op : redis_op) : Prop :=
  match op with
  | Publish c _ => c = response_channel agent_run_id
  | Rpush k _ => k = response_list_key agent_run_id
  end.

(** The rows of a run that [on_error] has finalized. *)
Definition rows_failed (agent_run_id stored : string) (it : item)
           (w : world) : Prop :=
  Forall (fun r => run_status r = "failed"
                   /\ error r = Some stored
                   /\ it ∈ responses r)
         (run_rows agent_run_id w).

Definition error_stage_facts (agent_run_id traceback_str : string)
           (gen : list (bool * item)) (error_message : string)
           (st : error_stage) (w : world) : Prop :=
  let it := error_response error_message in
  let stored := error_message +:+ newline +:+ traceback_str in
  Forall (loop_op agent_run_id) (pending w)
  /\ heard (global_control_channel agent_run_id) w
     = match st with ErrFinalStatus | ErrEnd => ["ERROR"] | _ => [] end
  /\ match st with
     | ErrTaskStatus | ErrActiveKey | ErrItem _ => True
     | _ => it ∈ response_list agent_run_id w
     end
  /\ row_known agent_run_id w
  /\ match st with
     | ErrVerify | ErrSignal | ErrFinalStatus | ErrEnd =>
         rows_failed agent_run_id stored it w
     | _ => True
     end
  /\ match st with
     | ErrItem rest => quiet rest /\ (length rest <= length gen)%nat
     | ErrUpdate all_responses => it ∈ all_responses
     | ErrEnd => kv w !! task_status_key agent_run_id
                 = Some ("failed", REDIS_RESPONSE_LIST_TTL)
     | _ => True
     end.

End ExecutorEndings.

(** ** Releasing and expiring the run lock
    ([run_agent_background.py], lines 481-540;
     [utils/concurrency_monitor.py], lines 349-407) *)

Module LockUpkeep.
Import Store RunLock Executor.

(** The module-level [instance_id = "single"] of
    [run_agent_background.py], which the clean-up functions read (the
    lock value and the active key are built from the [instance_id]
    argument of [run_agent_background]). *)
Definition worker_instance_id : string := "single".

(** [DEL key] *)
Definition redis_delete (key : string) (w : world) : world * unit :=
  (with_kv (delete key) w, tt).

(** The clean-up script: [if GET key and string.find(GET key, ARGV[1])
    == 1 then DEL key]. For an argument without pattern characters, as
    ["single:"], [string.find(v, arg) == 1] says that [v] starts with
    [arg]. *)
Definition redis_eval_cleanup (key expected : string) (w : world)
  : world * bool :=
  match kv w !! key with
  | Some (v, _) =>
      if String.prefix expected v then (with_kv (delete key) w, true)
      else (w, false)
  | None => (w, false)
  end.

(** [_cleanup_redis_run_lock] *)
Definition _cleanup_redis_run_lock (agent_run_id : string)
  : RunLock.task unit :=
  await (redis_eval_cleanup (run_lock_key agent_run_id)
                            (worker_instance_id +:+ ":")) ;;
  Ret tt.

(** [_cleanup_redis_instance_key] *)
Definition _cleanup_redis_instance_key (agent_run_id : string)
  : RunLock.task unit :=
  if String.eqb worker_instance_id "" then Ret tt
  else
    await (redis_delete (instance_active_key worker_instance_id
                                             agent_run_id)) ;;
    Ret tt.

(** [SCAN ... MATCH "agent_run_lock:*"], all batches together: the keys
    that start with the prefix. *)
Definition is_lock_key (key : string) : bool :=
  String.prefix "agent_run_lock:" key.

Definition redis_scan_locks (w : world) : world * list string :=
  (w, filter (fun k => is_lock_key k = true) (map_to_list (kv w)).*1).

(** The pipeline of GETs: [keys[i]] with [values[i]]. *)
Definition redis_get_all (keys : list string) (w : world)
  : world * list (string * option string) :=
  (w, map (fun k => (k, fst <$> kv w !! k)) keys).

(** The pipeline of DELs. *)
Definition redis_delete_all (keys : list string) (w : world)
  : world * unit :=
  (with_kv (fun m => foldr delete m keys) w, tt).

(** [value.split(':')[1]] when there are at least two parts. *)
Definition second_part (value : string) : option string :=
  match split_colon value with
  | None => None
  | Some (_, rest) =>
      Some (match split_colon rest with
            | Some (part, _) => part
            | None => rest
            end)
  end.

(** The body of the loop over [values]: is the key put on
    [stale_keys]?  A missing or empty value is skipped, a value without
    a colon is kept, a second part that is not a number counts as
    stale. *)
Definition stale_lock (max_lock_age current_time : Z)
           (value : option string) : bool :=
  match value with
  | None => false
  | Some v =>
      if String.eqb v "" then false
      else match second_part v with
           | None => false
           | Some part =>
               match py_int part with
               | Some lock_timestamp =>
                   current_time - lock_timestamp >? max_lock_age
               | None => true
               end
           end
  end.

(** [cleanup_stale_locks], read at [current_time]; the result is
    [stale_locks_cleaned]. *)
Definition cleanup_stale_locks (max_lock_age current_time : Z)
  : RunLock.task nat :=
  let* keys := await redis_scan_locks in
  match keys with
  | [] => Ret 0%nat
  | _ =>
      let* values := await (redis_get_all keys) in
      let stale_keys :=
        (filter (fun kv => stale_lock max_lock_age current_time kv.2 = true)
                values).*1 in
      match stale_keys with
      | [] => Ret 0%nat
      | _ => await (redis_delete_all stale_keys) ;;
             Ret (length stale_keys)
      end
  end.

(** The age after which the worker's upkeep task removes a lock:
    [start_stale_lock_cleanup_task(redis_client, interval=60,
    max_lock_age=300)]. *)
Definition MAX_LOCK_AGE : Z := 300.




End LockUpkeep.

(** * Properties *)

Section ProgFacts.
Context {St E : Type}.

Lemma run_bind {A B} (p : prog St E A) (f : A -> prog St E B) s :
  run (bind p f) s =
  match run p s with
  | (s', Returned a) => run (f a) s'
  | (s', Raised e) => (s', Raised e)
  end.
Proof.
  revert s. induction p as [a|e|R op k IH]; intros s; simpl; try done.
  destruct (op s) as [s' r]. apply IH.
Qed.

Lemma run_try_except {A} (p : prog St E A) (h : E -> prog St E A) s :
  run (try_except p h) s =
  match run p s with
  | (s', Returned a) => (s', Returned a)
  | (s', Raised e) => run (h e) s'
  end.
Proof.
  revert s. induction p as [a|e|R op k IH]; intros s; simpl; try done.
  destruct (op s) as [s' r]. apply IH.
Qed.

End ProgFacts.

Module TokenBillingFacts.
Import Constants TokenBilling.

Lemma set_billing_id (w : world) : set_billing (fun m => m) w = w.
Proof. by destruct w. Qed.

Lemma free_plan_quota :
  token_quota <$> get_plan_by_id "free" = Some 100000.
Proof. reflexivity. Qed.

(** Running [_consume_tokens_fallback] alone against a row holding at
    least [n] tokens debits exactly [n]. *)
Lemma fallback_enough (w : world) a (row : billing_customer) n model th msg :
  billing_customers w !! a = Some row ->
  n <= token_quota_remaining row ->
  exists w',
    run (_consume_tokens_fallback a n model th msg) w =
      (w', Returned {| success := true; tokens_consumed := n;
                       tokens_remaining := token_quota_remaining row - n;
                       credits_remaining :=
                         get_credits_from_tokens (token_quota_remaining row - n);
                       consumed_plan_id := plan_id row;
                       byok_unlimited := false |})
    /\ billing_customers w' !! a =
         Some (set_remaining (token_quota_remaining row - n) (clock w) row)
    /\ token_usage_log w' =
         token_usage_log w ++
           [usage a th msg model n (token_quota_remaining row - n)].
Proof.
  intros Hrow Hn.
  assert (Hle : (n <=? token_quota_remaining row) = true) by lia.
  unfold _consume_tokens_fallback; simpl. rewrite Hrow; simpl.
  unfold rpc_consume_tokens_atomic, update_remaining_gte.
  destruct (consume_tokens_atomic w) eqn:Hmode; simpl;
    repeat (first [rewrite Hrow | rewrite Hle]; simpl);
    (eexists; split; [reflexivity|]; simpl; split;
     [by rewrite lookup_insert_eq | done]).
Qed.

(** Running it against a row holding fewer than [n] tokens raises
    [InsufficientTokensError] and leaves the world as it was. *)
Lemma fallback_short (w : world) a (row : billing_customer) n model th msg :
  billing_customers w !! a = Some row ->
  token_quota_remaining row < n ->
  run (_consume_tokens_fallback a n model th msg) w =
    (w, Raised (InsufficientTokensError
                  (insufficient_message n
                     (get_credits_from_tokens (token_quota_remaining row)))
                  (token_quota_remaining row)
                  (get_credits_from_tokens (token_quota_remaining row)))).
Proof.
  intros Hrow Hn.
  assert (Hle : (n <=? token_quota_remaining row) = false) by lia.
  unfold _consume_tokens_fallback; simpl. rewrite Hrow; simpl.
  unfold rpc_consume_tokens_atomic, update_remaining_gte.
  destruct (consume_tokens_atomic w) eqn:Hmode; simpl;
    repeat (first [rewrite Hrow | rewrite Hle]; simpl); done.
Qed.

Lemma consume_tokens_existing (w : world) a (row : billing_customer) n model th msg :
  billing_customers w !! a = Some row ->
  plan_id row <> "byok" ->
  run (consume_tokens a n model th msg) w =
  run (_consume_tokens_fallback a n model th msg) w.
Proof.
  intros Hrow Hplan. apply String.eqb_neq in Hplan.
  set (rhs := run (_consume_tokens_fallback a n model th msg) w).
  unfold consume_tokens. simpl. rewrite Hrow. simpl. by rewrite Hplan.
Qed.

(** C5. Boundary of the debit, for an account on a plan other than
    [byok] holding [r] tokens: consuming exactly [r] succeeds and leaves
    0; consuming [r + 1] raises [InsufficientTokensError] carrying the
    remaining tokens [r] and their credits, and the world (the billing
    row included) is left exactly as it was. *)
Theorem consume_tokens_boundary (w : world) a (row : billing_customer)
        model th msg :
  billing_customers w !! a = Some row ->
  plan_id row <> "byok" ->
  (exists w' res,
      run (consume_tokens a (token_quota_remaining row) model th msg) w
        = (w', Returned res)
      /\ success res = true
      /\ tokens_consumed res = token_quota_remaining row
      /\ tokens_remaining res = 0
      /\ remaining_of a w' = Some 0)
  /\ (exists m,
      run (consume_tokens a (token_quota_remaining row + 1) model th msg) w
        = (w, Raised (InsufficientTokensError m
                        (token_quota_remaining row)
                        (get_credits_from_tokens
                           (token_quota_remaining row))))).
Proof.
  intros Hrow Hplan. split.
  - rewrite (consume_tokens_existing _ _ _ _ _ _ _ Hrow Hplan).
    destruct (fallback_enough w a row (token_quota_remaining row)
                model th msg Hrow) as (w' & Hrun & Hlook & _); [lia|].
    exists w'; eexists. split; [exact Hrun|]. simpl.
    unfold remaining_of. rewrite Hlook. simpl.
    repeat split; f_equal; lia.
  - rewrite (consume_tokens_existing _ _ _ _ _ _ _ Hrow Hplan).
    eexists. apply fallback_short; [done | lia].
Qed.

Lemma consume_tokens_boundary_witness :
  (exists w' res,
      run (consume_tokens "acc-1" 100 "m" None None)
          (example_world RpcRaises 100) = (w', Returned res)
      /\ success res = true /\ tokens_consumed res = 100
      /\ tokens_remaining res = 0 /\ remaining_of "acc-1" w' = Some 0)
  /\ (exists m,
      run (consume_tokens "acc-1" (100 + 1) "m" None None)
          (example_world RpcRaises 100)
        = (example_world RpcRaises 100,
           Raised (InsufficientTokensError m 100
                     (get_credits_from_tokens 100)))).
Proof.
  apply (consume_tokens_boundary (example_world RpcRaises 100) "acc-1"
           (example_row "free" 100) "m" None None).
  - vm_compute; reflexivity.
  - simpl; discriminate.
Defined.

(** C10. An account without a billing row: [get_user_token_status] and
    [consume_tokens] first insert the fallback free-plan record (total =
    remaining = 100,000 tokens, placeholder e-mail, reset date 30 days
    ahead) and then go on against that record; neither fails for want
    of a row. *)
Theorem missing_row_fallback_record (w : world) a :
  billing_customers w !! a = None ->
  exists rec : billing_customer,
    plan_id rec = "free"
    /\ token_quota_total rec = 100000
    /\ token_quota_remaining rec = 100000
    /\ email rec = "missing_email_" +:+ a +:+ "@placeholder.com"
    /\ quota_resets_at rec = clock w + 30 * 86400
    /\ (exists st,
          run (get_user_token_status a) w
            = (set_billing <[a := rec]> w, Returned st)
          /\ status_plan st = "free"
          /\ status_tokens_remaining st = 100000
          /\ tokens_total st = 100000
          /\ status_credits_remaining st = 20
          /\ status_quota_resets_at st = clock w + 30 * 86400)
    /\ (forall n model th msg,
          run (consume_tokens a n model th msg) w
            = run (consume_tokens a n model th msg)
                  (set_billing <[a := rec]> w))
    /\ (forall n model th msg,
          n <= 100000 ->
          exists w' res,
            run (consume_tokens a n model th msg) w = (w', Returned res)
            /\ tokens_remaining res = 100000 - n
            /\ remaining_of a w' = Some (100000 - n))
    /\ (forall n model th msg,
          100000 < n ->
          exists m,
            run (consume_tokens a n model th msg) w
              = (set_billing <[a := rec]> w,
                 Raised (InsufficientTokensError m 100000 20))).
Proof.
  intros Hnone.
  pose (free := {| name := "Free"; token_quota := 100000;
                   display_credits := 20;
                   features := ["5 credits daily (up to 20/month)";
                                "1 deployed website"; "Community support"] |}).
  assert (Hfree : get_plan_by_id "free" = Some free) by reflexivity.
  set (rec := fallback_record a free (clock w)).
  set (w1 := set_billing <[a := rec]> w).
  assert (Hrec : billing_customers w1 !! a = Some rec)
    by (simpl; by rewrite lookup_insert_eq).
  assert (Hplan : plan_id rec <> "byok") by (simpl; discriminate).
  assert (Hcons : forall n model th msg,
             run (consume_tokens a n model th msg) w
             = run (_consume_tokens_fallback a n model th msg) w1).
  { intros n model th msg.
    set (rhs := run (_consume_tokens_fallback a n model th msg) w1).
    unfold consume_tokens, _create_billing_record, insert_billing. simpl.
    rewrite Hnone. simpl. rewrite Hnone. simpl. rewrite Hnone. simpl.
    rewrite lookup_insert_eq. simpl. done. }
  exists rec. repeat split; try reflexivity.
  - eexists. split.
    + unfold get_user_token_status, _create_billing_record, insert_billing.
      simpl. rewrite Hnone. simpl. rewrite Hnone. simpl. rewrite Hnone. simpl.
      rewrite lookup_insert_eq. simpl. reflexivity.
    + simpl. repeat split; reflexivity.
  - intros n model th msg.
    rewrite Hcons. symmetry.
    apply (consume_tokens_existing w1 a rec n model th msg Hrec Hplan).
  - intros n model th msg Hn. rewrite Hcons.
    destruct (fallback_enough w1 a rec n model th msg Hrec)
      as (w' & Hrun & Hlook & _); [simpl; lia|].
    exists w'; eexists. split; [exact Hrun|]. simpl. split; [done|].
    unfold remaining_of. by rewrite Hlook.
  - intros n model th msg Hn. rewrite Hcons. eexists.
    rewrite (fallback_short w1 a rec n model th msg Hrec); [|simpl; lia].
    reflexivity.
Qed.

Lemma missing_row_fallback_record_witness :
  exists rec : billing_customer,
    plan_id rec = "free"
    /\ token_quota_total rec = 100000
    /\ token_quota_remaining rec = 100000
    /\ email rec = "missing_email_" +:+ "acc-9" +:+ "@placeholder.com"
    /\ quota_resets_at rec = clock (empty_world RpcRaises) + 30 * 86400
    /\ (exists st,
          run (get_user_token_status "acc-9") (empty_world RpcRaises)
            = (set_billing <["acc-9" := rec]> (empty_world RpcRaises),
               Returned st)
          /\ status_plan st = "free"
          /\ status_tokens_remaining st = 100000
          /\ tokens_total st = 100000
          /\ status_credits_remaining st = 20
          /\ status_quota_resets_at st
             = clock (empty_world RpcRaises) + 30 * 86400)
    /\ (forall n model th msg,
          run (consume_tokens "acc-9" n model th msg) (empty_world RpcRaises)
            = run (consume_tokens "acc-9" n model th msg)
                  (set_billing <["acc-9" := rec]> (empty_world RpcRaises)))
    /\ (forall n model th msg,
          n <= 100000 ->
          exists w' res,
            run (consume_tokens "acc-9" n model th msg)
                (empty_world RpcRaises) = (w', Returned res)
            /\ tokens_remaining res = 100000 - n
            /\ remaining_of "acc-9" w' = Some (100000 - n))
    /\ (forall n model th msg,
          100000 < n ->
          exists m,
            run (consume_tokens "acc-9" n model th msg)
                (empty_world RpcRaises)
              = (set_billing <["acc-9" := rec]> (empty_world RpcRaises),
                 Raised (InsufficientTokensError m 100000 20))).
Proof.
  apply (missing_row_fallback_record (empty_world RpcRaises) "acc-9").
  vm_compute; reflexivity.
Defined.

(** C1 (the code falls short of it). The debit written by the fallback
    [UPDATE] is the value read earlier minus [n], not the value at
    update time minus [n].  With the remote function unavailable, two
    concurrent calls of 30 tokens against 100 can both succeed and leave
    70 (one update lost), and three calls of 90, 10 and 50 can all
    succeed and leave -40. *)
Theorem concurrent_debits_lose_updates :
  (exists sched w' r1 r2,
      run_sched sched (example_world RpcRaises 100)
        [consume_tokens "acc-1" 30 "m" None None;
         consume_tokens "acc-1" 30 "m" None None]
        = (w', [Ret r1; Ret r2])
      /\ success r1 = true /\ success r2 = true
      /\ remaining_of "acc-1" w' = Some 70
      /\ 70 <> 100 - (30 + 30))
  /\ (exists sched w' r1 r2 r3,
      run_sched sched (example_world RpcRaises 100)
        [consume_tokens "acc-1" 90 "m" None None;
         consume_tokens "acc-1" 10 "m" None None;
         consume_tokens "acc-1" 50 "m" None None]
        = (w', [Ret r1; Ret r2; Ret r3])
      /\ success r1 = true /\ success r2 = true /\ success r3 = true
      /\ remaining_of "acc-1" w' = Some (-40)).
Proof.
  split.
  - exists [0; 0; 1; 1; 0; 0; 0; 1; 1; 1]%nat.
    do 3 eexists. split; [vm_compute; reflexivity|].
    repeat split; try reflexivity. lia.
  - exists [0; 0; 1; 1; 0; 0; 0; 2; 2; 1; 1; 1; 2; 2; 2]%nat.
    do 4 eexists. split; [vm_compute; reflexivity|].
    repeat split; reflexivity.
Qed.

End TokenBillingFacts.

Module RunLockFacts.
Import Store RunLock.

(** *** Printing and parsing the timestamp *)

Lemma digit_char (c : ascii) (d : option Decimal.uint) (u : Decimal.uint) :
  uint_of_char c d = Some u ->
  existsb (Ascii.eqb c)
    ["0"; "1"; "2"; "3"; "4"; "5"; "6"; "7"; "8"; "9"]%char = true.
Proof.
  destruct d as [d|]; [|done].
  destruct c as [[] [] [] [] [] [] [] []]; simpl; done.
Qed.

Lemma uint_digits_not_space (u : Decimal.uint) :
  all_chars (fun c => negb (is_space c)) (NilEmpty.string_of_uint u) = true.
Proof. induction u; simpl; done. Qed.

Lemma rstrip_no_space (s : string) :
  all_chars (fun c => negb (is_space c)) s = true -> rstrip s = s.
Proof.
  induction s as [|c s IH]; [done|]. simpl. intros H.
  apply andb_prop in H as [Hc Hs]. rewrite (IH Hs).
  destruct s; [|done]. by destruct (is_space c).
Qed.

Lemma int_digits_uint (u : Decimal.uint) (b : bool) :
  u <> Decimal.Nil \/ b = true ->
  int_digits b (NilEmpty.string_of_uint u) = Some u.
Proof.
  revert b. induction u; intros b Hb; simpl;
    try (rewrite IHu by (by right); done).
  destruct Hb as [?| ->]; done.
Qed.

Lemma lstrip_no_space (s : string) :
  all_chars (fun c => negb (is_space c)) s = true -> lstrip s = s.
Proof.
  destruct s as [|c s]; [done|]. simpl. intros H.
  apply andb_prop in H as [Hc _]. by destruct (is_space c).
Qed.

Lemma int_no_space (d : Decimal.signed_int) :
  all_chars (fun c => negb (is_space c)) (NilZero.string_of_int d) = true.
Proof.
  destruct d as [u|u]; simpl; destruct u; simpl; try done;
    apply uint_digits_not_space.
Qed.

Lemma int_literal_int (d : Decimal.signed_int) :
  match d with Decimal.Pos u | Decimal.Neg u => u <> Decimal.Nil end ->
  int_literal (NilZero.string_of_int d) = Some d.
Proof.
  destruct d as [u|u]; intros Hu; destruct u; try done;
    unfold int_literal; simpl; by rewrite int_digits_uint by (by right).
Qed.

Lemma py_int_py_str (z : Z) : py_int (py_str z) = Some z.
Proof.
  unfold py_int, py_str.
  rewrite lstrip_no_space, rstrip_no_space by apply int_no_space.
  rewrite int_literal_int; [simpl; by rewrite DecimalZ.of_to|].
  destruct z; simpl; try done;
    intros H; exact (DecimalPos.Unsigned.to_uint_nonnil _ H).
Qed.

Lemma int_digits_chars (b : bool) (s : string) (u : Decimal.uint) :
  int_digits b s = Some u -> all_chars int_char s = true.
Proof.
  revert b u. induction s as [|c s IH]; intros b u; [done|]. simpl.
  destruct (Ascii.eqb_spec c "_") as [->|Hc].
  - destruct b; [|done]. intros H. by rewrite (IH _ _ H).
  - intros H. destruct (int_digits true s) as [u'|] eqn:E.
    + rewrite (IH _ _ E), andb_true_r. unfold int_char.
      by rewrite (digit_char _ _ _ H), !orb_true_r.
    + by destruct c as [[] [] [] [] [] [] [] []].
Qed.

Lemma int_literal_chars (s : string) (d : Decimal.signed_int) :
  int_literal s = Some d -> all_chars int_char s = true.
Proof.
  destruct s as [|c s]; [done|]. unfold int_literal.
  destruct (Ascii.eqb_spec c "-") as [->|Hm].
  { destruct (int_digits false s) eqn:E; [|done]. intros _. simpl.
    by rewrite (int_digits_chars _ _ _ E). }
  destruct (Ascii.eqb_spec c "+") as [->|Hp].
  { destruct (int_digits false s) eqn:E; [|done]. intros _. simpl.
    by rewrite (int_digits_chars _ _ _ E). }
  destruct (int_digits false (String c s)) eqn:E; [|done]. intros _.
  by rewrite (int_digits_chars _ _ _ E).
Qed.

Lemma all_chars_lstrip (s : string) :
  all_chars int_char (lstrip s) = all_chars int_char s.
Proof.
  induction s as [|c s IH]; [done|]. simpl.
  destruct (is_space c) eqn:E; [|done].
  rewrite IH. unfold int_char. by rewrite E.
Qed.

Lemma all_chars_rstrip (s : string) :
  all_chars int_char (rstrip s) = all_chars int_char s.
Proof.
  induction s as [|c s IH]; [done|]. simpl. rewrite <- IH.
  destruct (rstrip s) as [|c' r]; [|done].
  destruct (is_space c) eqn:E; simpl; [|done].
  unfold int_char. by rewrite E.
Qed.

(** What [int] accepts is made of blanks, signs, underscores and
    digits. *)
Lemma py_int_chars (s : string) (z : Z) :
  py_int s = Some z -> all_chars int_char s = true.
Proof.
  unfold py_int. destruct (int_literal _) as [d|] eqn:E; [|done]. intros _.
  apply int_literal_chars in E.
  by rewrite all_chars_rstrip, all_chars_lstrip in E.
Qed.

Lemma all_chars_app (f : ascii -> bool) (x y : string) :
  all_chars f (x +:+ y) = all_chars f x && all_chars f y.
Proof.
  induction x as [|c x IH]; [done|]. simpl. by rewrite IH, andb_assoc.
Qed.

(** A decimal literal has no colon in it. *)
Lemma no_colon_app (x y : string) : no_colon (x +:+ ":" +:+ y) = false.
Proof. induction x as [|c x IH]; simpl; [done|]. by rewrite IH, andb_false_r. Qed.

Lemma uint_no_colon (u : Decimal.uint) :
  no_colon (NilEmpty.string_of_uint u) = true.
Proof. induction u; simpl; done. Qed.

Lemma int_no_colon (d : Decimal.signed_int) :
  no_colon (NilZero.string_of_int d) = true.
Proof.
  destruct d as [u|u]; simpl; destruct u; simpl; try done;
    apply uint_no_colon.
Qed.

Lemma py_int_colon (x y : string) : py_int (x +:+ ":" +:+ y) = None.
Proof.
  destruct (py_int _) as [z|] eqn:E; [|done].
  apply py_int_chars in E. rewrite !all_chars_app in E. simpl in E.
  by rewrite andb_false_r in E.
Qed.

(** Splitting ["{instance}:{timestamp}"] at its first colon gives the
    timestamp back, or something that is not a number. *)
Lemma split_colon_lock (inst t : string) :
  exists a b, split_colon (inst +:+ ":" +:+ t) = Some (a, b)
              /\ (b = t \/ exists b', b = b' +:+ ":" +:+ t).
Proof.
  induction inst as [|c inst (a & b & IH & Hb)]; simpl.
  - exists "", t. auto.
  - destruct (Ascii.eqb c ":").
    + exists "", (inst +:+ ":" +:+ t). split; [done|]. right. by exists inst.
    + rewrite IH. exists (String c a), b. auto.
Qed.

Lemma split_colon_no_colon (inst t : string) :
  no_colon inst = true ->
  split_colon (inst +:+ ":" +:+ t) = Some (inst, t).
Proof.
  induction inst as [|c inst IH]; simpl; [done|].
  destruct (Ascii.eqb c ":"); simpl; [done|]. intros H. by rewrite IH.
Qed.


(** A lock written at most half a TTL ago is never judged stale,
    whatever the instance id looks like. *)
Lemma fresh_lock_not_stale (d : delivery) (inst : string) (ts : Z) :
  current_time d - ts <= REDIS_KEY_TTL / 2 ->
  older_than_half_ttl d (inst +:+ ":" +:+ py_str ts) = false.
Proof.
  intros Hage. unfold older_than_half_ttl.
  destruct (split_colon_lock inst (py_str ts)) as (a & b & -> & [->|[b' ->]]).
  - rewrite py_int_py_str. lia.
  - by rewrite py_int_colon.
Qed.


(** *** One worker, lock held by someone *)

Lemma event_key_ne (x y : string) :
  "concurrency_event:single:" +:+ x <> run_lock_key y.
Proof. unfold run_lock_key. simpl. discriminate. Qed.

Lemma acquire_lock_held (d : delivery) (w : world) (held : string) (ttl : Z) :
  kv w !! run_lock_key (agent_run_id d) = Some (held, ttl) ->
  run (acquire_run_lock d) w =
    if older_than_half_ttl d held
    then (with_kv <[run_lock_key (agent_run_id d)
                    := (lock_value d, REDIS_KEY_TTL)]> (note_failure d w),
          Returned true)
    else (note_failure d w, Returned false).
Proof.
  intros Hheld.
  unfold acquire_run_lock, monitored_lock, redis_set_nx. simpl.
  rewrite Hheld. simpl. rewrite Hheld. simpl.
  unfold older_than_half_ttl, reclaim_if_stale.
  destruct (String.eqb_spec held "") as [->|Hne]; [done|].
  destruct (split_colon held) as [[inst ts]|]; [|done].
  destruct (py_int ts) as [t|]; [|done].
  destruct (current_time d - t >? REDIS_KEY_TTL / 2); [|done].
  simpl. unfold redis_eval_reclaim. simpl. rewrite Hheld.
  by rewrite String.eqb_refl.
Qed.


(** *** Two workers, one run *)










(** The two deliveries run to the end: the first to ask owns the run. *)
Example race_first_wins :
  (run_sched [0; 1; 1; 0; 1]%nat empty_world
     [acquire_run_lock first_delivery; acquire_run_lock second_delivery]).2
  = [Ret true; Ret false].
Proof. vm_compute. reflexivity. Qed.

(** A lock left twelve hours and one second ago is taken over. *)
Example stale_lock_reclaimed :
  let w := with_kv <[run_lock_key "r5" := ("3f9c2a71:1699956800", 86400)]>
                   empty_world in
  (run (acquire_run_lock first_delivery) w).2 = Returned true
  /\ (fst <$> kv (run (acquire_run_lock first_delivery) w).1
                !! run_lock_key "r5") = Some "3f9c2a71:1700000000".
Proof. vm_compute. split; reflexivity. Qed.

End RunLockFacts.

Module ExecutorFacts.
Import Store Executor.

(** C4 (the code falls short of it). In the loop the append and the
    notification of an item are two spawned tasks, neither awaited; the
    ["new"] message can be delivered while the item is still in flight.
    Here: run [r1], one content item, the notification completing
    first. *)
Theorem notification_can_precede_append :
  exists cs w' p',
    exec_sched cs (world_with_run "r1" "t1" "running")
      (execute "r1" "3f9c2a71" example_traceback [(false, chunk "hello")]
         None) = (w', p')
    /\ published w' = [(response_channel "r1", "new")]
    /\ response_list "r1" w' = []
    /\ pending w' = [Rpush (response_list_key "r1") (chunk "hello")].
Proof.
  exists [Main; Main; Main; Complete 1]. do 2 eexists.
  split; [vm_compute; reflexivity|]. repeat split; reflexivity.
Qed.

(** *** Observations under the store commands *)

Lemma item_eqb_eq (x y : item) : item_eqb x y = true -> x = y.
Proof.
  unfold item_eqb. destruct x, y; simpl. intros H.
  repeat (apply andb_prop in H as [H ?]).
  apply bool_decide_eq_true in H. repeat match goal with
    | H : bool_decide _ = true |- _ => apply bool_decide_eq_true in H
    | H : String.eqb _ _ = true |- _ => apply String.eqb_eq in H
    end. congruence.
Qed.

Lemma quiet_not_synthetic (it : item) :
  terminal_status it = None -> item_eqb completion_message it = false.
Proof.
  intros H. destruct (item_eqb completion_message it) eqn:E; [|done].
  apply item_eqb_eq in E. subst it. discriminate.
Qed.

Lemma app_inv_prefix (p x y : string) : p +:+ x = p +:+ y -> x = y.
Proof. induction p as [|c p IH]; simpl; [done|]. intros [= H]. auto. Qed.

Lemma channels_differ (r : string) :
  response_channel r <> global_control_channel r.
Proof.
  unfold response_channel, global_control_channel. intros H.
  apply app_inv_prefix, app_inv_prefix in H. discriminate.
Qed.

Lemma count_app {A} (f : A -> bool) (l : list A) (x : A) :
  count f (l ++ [x]) = (count f l + if f x then 1 else 0)%nat.
Proof.
  unfold count. rewrite filter_app, length_app. f_equal.
  rewrite filter_cons, filter_nil. destruct (f x); by case_decide.
Qed.

Lemma count_delete {A} (f : A -> bool) (l : list A) (i : nat) (x : A) :
  l !! i = Some x ->
  count f l = (count f (delete i l) + if f x then 1 else 0)%nat.
Proof.
  unfold count. revert i. induction l as [|y l IH]; intros [|i] H;
    try done; simpl in *.
  - injection H as ->. rewrite filter_cons.
    destruct (f x); case_decide; try done; simpl; lia.
  - rewrite !filter_cons. case_decide; simpl; rewrite (IH _ H); lia.
Qed.

Lemma heard_publish (c c' d : string) (w : world) :
  heard c (redis_publish c' d w).1
  = heard c w ++ (if decide (c' = c) then [d] else []).
Proof.
  unfold heard. simpl. rewrite filter_app, fmap_app. f_equal.
  rewrite filter_cons, filter_nil. simpl. by case_decide.
Qed.

Lemma response_list_rpush (r : string) (it : item) (w : world) :
  response_list r (redis_rpush (response_list_key r) it w).1
  = response_list r w ++ [it].
Proof. unfold response_list. simpl. by rewrite lookup_insert_eq. Qed.

Lemma run_rows_update (r status : string) now err resp (w : world) :
  run_rows r (with_agent_runs (map (update_row r status now err resp)) w)
  = map (update_row r status now err resp) (run_rows r w).
Proof.
  unfold run_rows. simpl. induction (agent_runs w) as [|x l IH]; [done|].
  simpl. rewrite !filter_cons.
  assert (Hid : run_id (update_row r status now err resp x) = run_id x).
  { unfold update_row. by destruct (String.eqb (run_id x) r). }
  rewrite Hid. case_decide; simpl; by rewrite IH.
Qed.

Lemma rows_completed_update (r : string) now err resp (w : world) :
  rows_completed r
    (with_agent_runs (map (update_row r "completed" now err resp)) w).
Proof.
  unfold rows_completed. rewrite run_rows_update.
  apply Forall_forall. intros x Hx. apply list_elem_of_fmap in Hx as (y & -> & Hy).
  unfold run_rows in Hy. apply list_elem_of_filter in Hy as [Hy _].
  unfold update_row. apply String.eqb_eq in Hy. by rewrite Hy.
Qed.

Lemma row_known_update (r status : string) now err resp (w : world) :
  row_known r w ->
  row_known r (with_agent_runs (map (update_row r status now err resp)) w).
Proof.
  unfold row_known. simpl. induction (agent_runs w) as [|x l IH]; [done|].
  simpl. intros H. apply orb_prop in H as [H|H].
  - unfold update_row at 1. rewrite H. simpl. by rewrite H.
  - rewrite (IH H). by rewrite orb_true_r.
Qed.

(** *** The executor's own steps *)

Section QuietRun.
Variables (r inst tb : string) (gen : list (bool * item)).
Hypothesis Hquiet : quiet gen.

Local Arguments response_list_key : simpl never.
Local Arguments response_channel : simpl never.
Local Arguments global_control_channel : simpl never.
Local Arguments instance_active_key : simpl never.
Local Arguments task_status_key : simpl never.

Lemma main_step (st : stage) (w : world) :
  stage_facts r gen st w ->
  exists st' w',
    step (stage_prog r inst tb gen st) w = (w', stage_prog r inst tb gen st')
    /\ stage_facts r gen st' w'
    /\ steps_needed (length gen) st' = pred (steps_needed (length gen) st).
Proof.
  intros (Hc & Hp & Hi & Hs & Hk & Hr & Hh & Hx).
  cut (exists st' w',
          step (stage_prog r inst tb gen st) w
          = (w', stage_prog r inst tb gen st')
          /\ steps_needed (length gen) st'
             = pred (steps_needed (length gen) st)
          /\ stage_facts r gen st' w').
  { intros (st' & w' & ? & ? & ?). by exists st', w'. }
  destruct st as [| |rest| | |all| | | |].
  - exists AtActiveKey. eexists. split; [reflexivity|]. split; [simpl; lia|]. done.
  - exists (AtItem gen). eexists. split; [reflexivity|]. split; [simpl; lia|].
    unfold stage_facts. simpl in *. rewrite Nat.sub_diag. done.
  - destruct rest as [|[stop it] rest].
    + exists AtNotify,
        (redis_rpush (response_list_key r) completion_message w).1.
      split; [reflexivity|]. split; [simpl; lia|].
      unfold stage_facts, synthetic_count, notified, in_flight in *.
      simpl issued in *. simpl spawned in *. simpl appended in *.
      simpl finalized in *. simpl signalled in *. cbv iota.
      rewrite response_list_rpush, count_app, Hc.
      rewrite Nat.sub_0_r in Hi, Hs. done.
    + destruct Hx as [Hq Hlen]. apply Forall_cons in Hq as [[Hstop Hterm] Hq].
      simpl in Hstop, Hterm. subst stop.
      exists (AtItem rest). eexists. split.
      { simpl. unfold loop_body. rewrite Hterm. reflexivity. }
      split; [simpl; lia|].
      unfold stage_facts, synthetic_count, notified, in_flight in *.
      unfold heard, create_task in *.
      simpl in *. rewrite !count_app. simpl.
      rewrite String.eqb_refl. simpl.
      repeat split; try done.
      * rewrite !Forall_app. repeat split; try done.
        -- apply Forall_singleton. simpl. split; [done|].
           by apply quiet_not_synthetic.
        -- by apply Forall_singleton.
      * lia.
      * lia.
      * lia.
  - exists AtSnapshot, (redis_publish (response_channel r) "new" w).1.
    split; [reflexivity|]. split; [simpl; lia|].
    unfold stage_facts, synthetic_count, notified, in_flight in *.
    rewrite !heard_publish. simpl in *.
    rewrite decide_True by done.
    rewrite decide_False by apply channels_differ.
    rewrite length_app, app_nil_r. simpl. repeat split; try done. lia.
  - exists (AtUpdate (redis_lrange (response_list_key r) 0 w).2). eexists.
    split; [reflexivity|]. split; [simpl; lia|]. done.
  - exists AtVerify. eexists. split.
    { simpl. unfold row_known in Hk. rewrite Hk. reflexivity. }
    split; [simpl; lia|].
    unfold stage_facts, synthetic_count, notified, in_flight in *.
    simpl in *. repeat split; try done.
    + by apply row_known_update.
    + apply rows_completed_update.
  - exists AtSignal. eexists. split; [reflexivity|]. split; [simpl; lia|]. done.
  - exists AtFinalStatus,
      (redis_publish (global_control_channel r) "END_STREAM" w).1.
    split; [reflexivity|]. split; [simpl; lia|].
    unfold stage_facts, synthetic_count, notified, in_flight in *.
    rewrite !heard_publish. simpl in *.
    destruct (decide (global_control_channel r = response_channel r))
      as [E|_]; [symmetry in E; by apply channels_differ in E|].
    rewrite decide_True by done.
    rewrite Hh, app_nil_r. done.
  - exists AtEnd. eexists. split; [reflexivity|]. split; [simpl; lia|]. done.
  - exists AtEnd. eexists. split; [reflexivity|]. split; [simpl; lia|]. done.
Qed.

(** *** Spawned commands completing *)

Lemma complete_keeps (st : stage) (w : world) (i : nat) :
  stage_facts r gen st w -> stage_facts r gen st (complete i w).
Proof.
  intros (Hc & Hp & Hi & Hs & Hk & Hr & Hh & Hx).
  unfold complete. destruct (pending w !! i) as [op|] eqn:E; [|done].
  pose proof (proj1 (Forall_lookup _ _) Hp i op E) as Hop.
  pose proof (count_delete (is_notification r) _ _ _ E) as Hcount.
  assert (Hdel : Forall (loop_spawned r) (delete i (pending w)))
    by by apply Forall_delete.
  unfold stage_facts, synthetic_count, notified, in_flight in *.
  destruct op as [k it|c d]; simpl in Hop; destruct Hop as [-> Hop].
  - cbn [apply_op]. rewrite response_list_rpush, count_app, Hop.
    simpl in Hcount. unfold response_list, heard in *. simpl in *.
    repeat split; try done; lia.
  - subst d. cbn [apply_op]. rewrite !heard_publish.
    rewrite decide_True by done.
    rewrite decide_False by apply channels_differ.
    rewrite length_app, app_nil_r. simpl in Hcount.
    rewrite !String.eqb_refl in Hcount.
    unfold response_list, heard in *. simpl in *.
    repeat split; try done; lia.
Qed.

Lemma exec_inv_sched (cs : list choice) (w : world) (p : task string) :
  exec_inv r inst tb gen w p ->
  exec_inv r inst tb gen (exec_sched cs w p).1 (exec_sched cs w p).2.
Proof.
  revert w p. induction cs as [|[|i] cs IH]; intros w p Hinv; [done| |].
  - simpl. destruct Hinv as (st & -> & Hf).
    destruct (main_step st w Hf) as (st' & w' & -> & Hf' & _).
    apply IH. by exists st'.
  - simpl. destruct Hinv as (st & -> & Hf).
    apply IH. exists st. split; [done|]. by apply complete_keeps.
Qed.

Lemma fresh_run_inv (w : world) :
  fresh_run r w -> exec_inv r inst tb gen w (execute r inst tb gen None).
Proof.
  intros (Hl & Hp & Hpub & Hk & Hr). exists AtTaskStatus. split; [done|].
  unfold stage_facts, synthetic_count, notified, in_flight, response_list,
    heard. rewrite Hl, Hp, Hpub. done.
Qed.

(** The executor alone reaches the end in [steps_needed] steps. *)
Lemma main_finishes (k : nat) (st : stage) (w : world) :
  stage_facts r gen st w ->
  (steps_needed (length gen) st <= k)%nat ->
  exists w', exec_sched (repeat Main k) w (stage_prog r inst tb gen st)
             = (w', Ret "completed")
             /\ stage_facts r gen AtEnd w'.
Proof.
  revert st w. induction k as [|k IH]; intros st w Hf Hk.
  - destruct st; simpl in Hk; try lia. by exists w.
  - simpl. destruct (main_step st w Hf) as (st' & w' & -> & Hf' & Hm).
    apply IH; [done|lia].
Qed.

Lemma known_row_decides (w : world) :
  row_known r w -> rows_not_completed r w -> rows_completed r w -> False.
Proof.
  unfold row_known, rows_not_completed, rows_completed, run_rows.
  intros Hk Hn Hc. apply existsb_exists in Hk as (x & Hx & Hid).
  apply String.eqb_eq in Hid.
  assert (Hin : x ∈ filter (fun r0 => run_id r0 = r) (agent_runs w)).
  { apply list_elem_of_filter. split; [done|]. by apply list_elem_of_In. }
  pose proof (proj1 (Forall_forall _ _) Hn x Hin).
  pose proof (proj1 (Forall_forall _ _) Hc x Hin). done.
Qed.

End QuietRun.

Lemma announce_signals (r final_status : string) (w : world) :
  heard (global_control_channel r) (run (announce r final_status) w).1
  = heard (global_control_channel r) w ++ [control_signal final_status]
  /\ (run (announce r final_status) w).2 = Returned final_status.
Proof.
  split; [|done]. unfold heard. simpl.
  rewrite filter_app, fmap_app, filter_cons, filter_nil. simpl.
  by rewrite decide_True.
Qed.

(** C7. A run whose generator is exhausted without a terminal status
    item and without a stop signal, under every schedule of the executor
    and of the commands it has spawned: the response list never holds
    more than one synthetic [{type: status, status: completed}] item;
    the control channel hears nothing but one [END_STREAM]; that signal
    is published only once the run row is completed; the row is
    completed only once the synthetic item is appended and every
    notification (one per item, one more for the synthetic item, this
    last one not left in flight) has been issued; when the executor is
    done it has returned [completed] with all of that in place; and it
    is done after [length gen + 9] steps of its own.  The final control
    signal is [END_STREAM] for completed, [ERROR] for failed, [STOP] for
    stopped. *)
Theorem quiet_run_completes (r inst tb : string) (gen : list (bool * item))
        (w0 : world) :
  quiet gen ->
  fresh_run r w0 ->
  (forall cs w' p',
      exec_sched cs w0 (execute r inst tb gen None) = (w', p') ->
      (synthetic_count r w' <= 1)%nat
      /\ (heard (global_control_channel r) w' = []
          \/ heard (global_control_channel r) w' = ["END_STREAM"])
      /\ (heard (global_control_channel r) w' = ["END_STREAM"] ->
          rows_completed r w')
      /\ (rows_completed r w' ->
          synthetic_count r w' = 1%nat
          /\ (notified r w' + in_flight r w' = S (length gen))%nat
          /\ (in_flight r w' <= length gen)%nat)
      /\ (forall res, finished p' = Some res ->
          res = Returned "completed"
          /\ synthetic_count r w' = 1%nat
          /\ rows_completed r w'
          /\ heard (global_control_channel r) w' = ["END_STREAM"]))
  /\ (exists w',
        exec_sched (repeat Main (length gen + 9)) w0
                   (execute r inst tb gen None) = (w', Ret "completed"))
  /\ (forall final_status w,
        heard (global_control_channel r)
              (run (announce r final_status) w).1
        = heard (global_control_channel r) w ++ [control_signal final_status])
  /\ control_signal "completed" = "END_STREAM"
  /\ control_signal "failed" = "ERROR"
  /\ control_signal "stopped" = "STOP".
Proof.
  intros Hquiet Hfresh. split; [|split; [|split]].
  - intros cs w' p' Hrun.
    pose proof (exec_inv_sched r inst tb gen Hquiet cs w0 _
                  (fresh_run_inv r inst tb gen w0 Hfresh)) as Hinv.
    rewrite Hrun in Hinv. simpl in Hinv.
    destruct Hinv as (st & -> & Hc & Hp & Hi & Hs & Hk & Hr & Hh & Hx).
    split; [rewrite Hc; destruct st; simpl; lia|].
    split; [rewrite Hh; destruct st; simpl; auto|].
    split.
    { rewrite Hh. destruct st; simpl; try discriminate; intros _; exact Hr. }
    split.
    { intros Hdone. destruct st; simpl in *;
        try (exfalso; by eapply known_row_decides); repeat split; lia. }
    intros res Hfin. destruct st; simpl in Hfin; try discriminate.
    + destruct rest as [|[stop it] rest]; discriminate.
    + injection Hfin as <-. simpl in *. done.
  - destruct (main_finishes r inst tb gen Hquiet (length gen + 9)
                AtTaskStatus w0)
      as (w' & Hrun & _).
    + destruct (fresh_run_inv r inst tb gen w0 Hfresh) as (st & Hst & Hf).
      destruct Hfresh as (Hl & Hp & Hpub & Hk & Hr).
      unfold stage_facts, synthetic_count, notified, in_flight, response_list,
        heard. rewrite Hl, Hp, Hpub. done.
    + simpl. lia.
    + by exists w'.
  - intros fs w. apply announce_signals.
  - done.
Qed.

Lemma quiet_run_completes_witness :
  (forall cs w' p',
      exec_sched cs (world_with_run "r1" "t1" "running")
        (execute "r1" "3f9c2a71" example_traceback
           [(false, chunk "hello")] None) = (w', p') ->
      (synthetic_count "r1" w' <= 1)%nat
      /\ (heard (global_control_channel "r1") w' = []
          \/ heard (global_control_channel "r1") w' = ["END_STREAM"])
      /\ (heard (global_control_channel "r1") w' = ["END_STREAM"] ->
          rows_completed "r1" w')
      /\ (rows_completed "r1" w' ->
          synthetic_count "r1" w' = 1%nat
          /\ (notified "r1" w' + in_flight "r1" w'
              = S (length [(false, chunk "hello")]))%nat
          /\ (in_flight "r1" w' <= length [(false, chunk "hello")])%nat)
      /\ (forall res, finished p' = Some res ->
          res = Returned "completed"
          /\ synthetic_count "r1" w' = 1%nat
          /\ rows_completed "r1" w'
          /\ heard (global_control_channel "r1") w' = ["END_STREAM"]))
  /\ (exists w',
        exec_sched (repeat Main (length [(false, chunk "hello")] + 9))
                   (world_with_run "r1" "t1" "running")
                   (execute "r1" "3f9c2a71" example_traceback
                      [(false, chunk "hello")] None)
        = (w', Ret "completed"))
  /\ (forall final_status w,
        heard (global_control_channel "r1")
              (run (announce "r1" final_status) w).1
        = heard (global_control_channel "r1") w
          ++ [control_signal final_status])
  /\ control_signal "completed" = "END_STREAM"
  /\ control_signal "failed" = "ERROR"
  /\ control_signal "stopped" = "STOP".
Proof.
  apply (quiet_run_completes "r1" "3f9c2a71" example_traceback
           [(false, chunk "hello")] (world_with_run "r1" "t1" "running")).
  - repeat constructor.
  - repeat split; try reflexivity.
    unfold rows_not_completed. vm_compute. repeat constructor. discriminate.
Defined.

(** The other endings, on concrete runs: a [failed] status item ends
    with [ERROR], a stop signal with [STOP], a raising generator with
    [ERROR]. *)
Example failed_run_signals_error :
  let failed := {| type := Some "status"; status := Some "failed";
                   message := Some "boom"; body := "" |} in
  let w := (exec_sched (repeat Main 10) (world_with_run "r1" "t1" "running")
              (execute "r1" "3f9c2a71" example_traceback [(false, failed)]
                 None)).1 in
  heard (global_control_channel "r1") w = ["ERROR"]
  /\ run_status <$> run_rows "r1" w = ["failed"]
  /\ synthetic_count "r1" w = 0%nat.
Proof. vm_compute. repeat split; reflexivity. Qed.

Example stopped_run_signals_stop :
  let w := (exec_sched (repeat Main 10) (world_with_run "r1" "t1" "running")
              (execute "r1" "3f9c2a71" example_traceback
                 [(true, chunk "late")] None)).1 in
  heard (global_control_channel "r1") w = ["STOP"]
  /\ run_status <$> run_rows "r1" w = ["stopped"].
Proof. vm_compute. repeat split; reflexivity. Qed.

Example raising_run_signals_error :
  let w := (exec_sched (repeat Main 12) (world_with_run "r1" "t1" "running")
              (execute "r1" "3f9c2a71" example_traceback []
                 (Some "llm timeout"))).1 in
  heard (global_control_channel "r1") w = ["ERROR"]
  /\ run_status <$> run_rows "r1" w = ["failed"].
Proof. vm_compute. repeat split; reflexivity. Qed.

End ExecutorFacts.


Module AgentApiFacts.
Import Store Executor AgentApi.

(** *** Stopping a run *)

(** C2, as stated, fails: stopping the completed run [r3] does not
    succeed; the handler answers HTTP 400. *)
Lemma stop_completed_run_is_refused :
  (run (stop_agent all_willing "r3") (project_world "completed")).2
  = Raised (HTTPException 400 "Cannot stop agent run with status: completed")
  /\ ~ (exists answer,
          (run (stop_agent all_willing "r3") (project_world "completed")).2
          = Returned answer).
Proof.
  split; [vm_compute; reflexivity|]. intros [answer H].
  vm_compute in H. discriminate.
Qed.

(** C2, amended. For a run whose status is terminal (completed,
    stopped or failed) [stop_agent] is refused with HTTP 400 "Cannot
    stop agent run with status: <status>"; no STOP is published and the
    run row, like the rest of the store, is left exactly as it was (so
    repeating the request gives the same refusal). *)
Theorem stop_terminal_run_refused (g : collaborators) (rid : string) (w : world)
        (row : agent_run) :
  thread_access g = None ->
  find (fun r => String.eqb (run_id r) rid) (agent_runs w) = Some row ->
  in_list (run_status row) ["completed"; "stopped"; "failed"] = true ->
  run (stop_agent g rid) w
  = (w, Raised (HTTPException 400
                  ("Cannot stop agent run with status: " +:+ run_status row))).
Proof.
  intros Hacc Hrow Hterm.
  unfold stop_agent, get_agent_run_with_access_check. simpl.
  rewrite Hrow, Hacc. simpl.
  assert (Hnot : in_list (run_status row) ["running"; "queued"] = false).
  { unfold in_list in *. simpl in *.
    destruct (String.eqb_spec (run_status row) "completed") as [->|];
      [done|].
    destruct (String.eqb_spec (run_status row) "stopped") as [->|]; [done|].
    destruct (String.eqb_spec (run_status row) "failed") as [->|]; [done|].
    discriminate. }
  unfold in_list in Hnot. simpl in Hnot. by rewrite Hnot.
Qed.

Lemma stop_terminal_run_refused_witness :
  run (stop_agent all_willing "r3") (project_world "stopped")
  = (project_world "stopped",
     Raised (HTTPException 400
               ("Cannot stop agent run with status: "
                  +:+ run_status (run_row "r3" "t3" "stopped")))).
Proof.
  apply (stop_terminal_run_refused all_willing "r3" (project_world "stopped")
           (run_row "r3" "t3" "stopped")); reflexivity.
Defined.

(** A run that is running is stopped: STOP goes out and the row reads
    [stopping]. *)
Example stop_running_run :
  let '(w, res) := run (stop_agent all_willing "r3") (project_world "running") in
  res = Returned ("r3", "stopping")
  /\ published w = [(global_control_channel "r3", "STOP")]
  /\ run_status <$> agent_runs w = ["stopping"].
Proof. vm_compute. repeat split; reflexivity. Qed.

(** *** Streaming a run that is not running *)

(** C9. A stream opened on a run whose durable status is anything but
    [running] (queued, stopping, stopped, failed, completed, or no row
    at all) yields the whole response list from index 0, then the one
    event [{type: status, status: completed}], with the literal value
    [completed] whatever the status of the run, and is closed; the
    store is not touched. *)
Theorem stream_of_run_not_running (rid : string) (w : world) :
  run_status <$> find (fun r => String.eqb (run_id r) rid) (agent_runs w)
    <> Some "running" ->
  run (stream_generator rid) w
  = (w, Returned (default []
                    (lists w !! ("agent_run:" +:+ rid +:+ ":responses"))
                  ++ [{| type := Some "status"; status := Some "completed";
                         message := None; body := "" |}],
                  Closed)).
Proof.
  intros Hstatus. unfold stream_generator. simpl.
  rewrite bool_decide_eq_false_2 by done. simpl.
  by rewrite drop_0.
Qed.

Lemma stream_of_run_not_running_witness :
  run (stream_generator "r3")
      (redis_rpush (response_list_key "r3") (chunk "hello")
                   (project_world "failed")).1
  = ((redis_rpush (response_list_key "r3") (chunk "hello")
                  (project_world "failed")).1,
     Returned (default []
                 (lists (redis_rpush (response_list_key "r3") (chunk "hello")
                                     (project_world "failed")).1
                    !! ("agent_run:" +:+ "r3" +:+ ":responses"))
               ++ [{| type := Some "status"; status := Some "completed";
                      message := None; body := "" |}],
               Closed)).
Proof.
  apply (stream_of_run_not_running "r3").
  vm_compute. discriminate.
Defined.

Example stream_of_failed_run :
  (run (stream_generator "r3")
       (redis_rpush (response_list_key "r3") (chunk "hello")
                    (project_world "failed")).1).2
  = Returned ([{| type := Some "content"; status := None; message := None;
                  body := "hello" |};
               {| type := Some "status"; status := Some "completed";
                  message := None; body := "" |}], Closed).
Proof. vm_compute. reflexivity. Qed.

Example stream_of_running_run_tails :
  (run (stream_generator "r3")
       (redis_rpush (response_list_key "r3") (chunk "hello")
                    (project_world "running")).1).2
  = Returned ([chunk "hello"], Tailing 0).
Proof. vm_compute. reflexivity. Qed.

(** *** Starting a run on a project that has one *)

(** C3, as stated, fails: project [p1] has run [r3] running; a start
    request on its thread [t3] publishes STOP for [r3] and, [r3] still
    running, persists and queues [r4]: two runs of [p1] are active. *)
Lemma start_agent_overlaps_running_run :
  let w' := (run (start_agent example_config (Some "3f9c2a71") all_willing
                    "t3" (start_body "web")) (project_world "running")).1 in
  (fun r => (run_id r, run_status r)) <$> active_runs "p1" w'
    = [("r3", "running"); ("r4", "running")]
  /\ published w' = [(global_control_channel "r3", "STOP")]
  /\ q_agent_run_id <$> queue w' = ["r4"]
  /\ ~ (length (active_runs "p1" w') <= 1)%nat.
Proof. vm_compute. repeat split; try reflexivity. lia. Qed.

Lemma thread_of_project_listed (tid : string) (td : thread) (w : world) :
  find (fun t => String.eqb (thread_id t) tid) (threads w) = Some td ->
  in_list tid
    (thread_id <$> filter (fun t => thread_project_id t
                                    = thread_project_id td) (threads w))
  = true.
Proof.
  intros H. apply find_some in H as [Hin Hid]. apply String.eqb_eq in Hid.
  unfold in_list. apply existsb_exists. exists tid.
  split; [|apply String.eqb_refl].
  apply list_elem_of_In, list_elem_of_fmap. exists td. split; [done|].
  apply list_elem_of_filter. split; [done|]. by apply list_elem_of_In.
Qed.

(** C3, amended. When [start_agent] finds a run of the project in
    {queued, running}, it publishes STOP on that run's global control
    channel and goes on without waiting: that run's row is left as it
    is, the new run is inserted with status [running] and queued, and
    the project then has the runs that were active before and the new
    one. *)
Theorem start_agent_stops_without_waiting
        (cfg : config) (inst : string) (g : collaborators) (tid : string)
        (body : start_request) (w : world) (td : thread) (pr : project)
        (sb : string) (old : agent_run) (olds : list agent_run) :
  thread_access g = None ->
  find (fun t => String.eqb (thread_id t) tid) (threads w) = Some td ->
  quota_precheck g = Ret tt ->
  billing_checks g = Ret tt ->
  active_runs (thread_project_id td) w = old :: olds ->
  find (fun p => String.eqb (project_id p) (thread_project_id td))
       (projects w) = Some pr ->
  sandbox_id pr = Some sb ->
  sandbox_failure g = None ->
  enqueue_failure g = None ->
  let fresh := new_run (new_run_id g) tid
                       (resolve_model cfg (model_name body)) (clock w) in
  exists w',
    run (start_agent cfg (Some inst) g tid body) w
      = (w', Returned (new_run_id g, "queued"))
    /\ published w'
       = published w ++ [(global_control_channel (run_id old), "STOP")]
    /\ agent_runs w' = agent_runs w ++ [fresh]
    /\ (exists q, queue w' = queue w ++ [q]
                  /\ q_agent_run_id q = new_run_id g)
    /\ active_runs (thread_project_id td) w' = old :: olds ++ [fresh].
Proof.
  intros Hacc Hthread Hquota Hbill Hactive Hproj Hsb Hsf Hq fresh.
  eexists. split.
  { unfold start_agent. rewrite Hacc. simpl. rewrite Hthread.
    rewrite Hquota, Hbill. simpl.
    unfold start_project_sandbox. simpl.
    rewrite Hactive. simpl. rewrite Hproj, Hsb, Hsf. simpl.
    unfold register_and_enqueue. rewrite Hq. simpl. reflexivity. }
  split; [done|]. split; [done|]. split; [by eexists|].
  unfold active_runs in *. cbn -[in_list filter resolve_model new_run].
  rewrite filter_app, Hactive. f_equal.
  rewrite filter_cons, filter_nil. rewrite decide_True; [done|].
  split; [by apply thread_of_project_listed | done].
Qed.

Lemma start_agent_stops_without_waiting_witness :
  exists w',
    run (start_agent example_config (Some "3f9c2a71") all_willing "t3"
                     (start_body "web")) (project_world "running")
      = (w', Returned (new_run_id all_willing, "queued"))
    /\ published w'
       = published (project_world "running")
         ++ [(global_control_channel (run_id (run_row "r3" "t3" "running")),
              "STOP")]
    /\ agent_runs w'
       = agent_runs (project_world "running")
         ++ [new_run (new_run_id all_willing) "t3"
               (resolve_model example_config (model_name (start_body "web")))
               (clock (project_world "running"))]
    /\ (exists q, queue w' = queue (project_world "running") ++ [q]
                  /\ q_agent_run_id q = new_run_id all_willing)
    /\ active_runs
         (thread_project_id
            {| thread_id := "t3"; thread_project_id := "p1";
               thread_account_id := "acc-1"; is_agent_builder := false;
               target_agent_id := None |}) w'
       = run_row "r3" "t3" "running" :: []
         ++ [new_run (new_run_id all_willing) "t3"
               (resolve_model example_config (model_name (start_body "web")))
               (clock (project_world "running"))].
Proof.
  apply (start_agent_stops_without_waiting example_config "3f9c2a71"
           all_willing "t3" (start_body "web") (project_world "running")
           {| thread_id := "t3"; thread_project_id := "p1";
              thread_account_id := "acc-1"; is_agent_builder := false;
              target_agent_id := None |}
           {| project_id := "p1"; project_account_id := "acc-1";
              project_name := "hello"; project_app_type := "web";
              sandbox_id := Some "sb1" |}
           "sb1" (run_row "r3" "t3" "running") []);
    reflexivity.
Defined.

(** *** An [app_type] that is neither web nor mobile *)

(** C8, as stated, fails: with [app_type = "desktop"] both endpoints
    answer normally, having created a run (and a project, a sandbox and
    a thread) of type [web]. *)
Lemma unknown_app_type_is_accepted :
  (let '(w, res) :=
     run (start_agent example_config (Some "3f9c2a71") all_willing "t3"
                      (start_body "desktop")) (project_world "completed") in
   res = Returned ("r4", "queued")
   /\ (fun q => (q_agent_run_id q, q_app_type q)) <$> queue w
      = [("r4", "web")])
  /\ (let '(w, res) :=
        run (initiate_agent_with_files example_config (Some "3f9c2a71")
               all_willing (initiate_form "desktop")) empty_world in
      res = Returned ("t9", "r4")
      /\ (fun p => (project_id p, project_app_type p)) <$> projects w
         = [("p9", "web")]
      /\ sandboxes w = [("sb9", "cheatcode-web-snapshot")]
      /\ thread_id <$> threads w = ["t9"]
      /\ run_id <$> agent_runs w = ["r4"]).
Proof. vm_compute. repeat split; reflexivity. Qed.

Lemma validate_app_type_unknown (a : string) :
  in_list a ["web"; "mobile"] = false -> validate_app_type a = "web".
Proof. unfold validate_app_type. by intros ->. Qed.

(** C8, amended. An [app_type] that is neither "web" nor "mobile" is
    replaced by "web": both endpoints treat the request exactly as the
    same request with [app_type = "web"]; they do not answer 400 for
    it. *)
Theorem unknown_app_type_defaults_to_web
        (cfg : config) (inst : option string) (g : collaborators) (tid : string)
        (body : start_request) (form : initiate_request) (a : string) :
  in_list a ["web"; "mobile"] = false ->
  start_agent cfg inst g tid (with_app_type a body)
  = start_agent cfg inst g tid (with_app_type "web" body)
  /\ initiate_agent_with_files cfg inst g (with_i_app_type a form)
     = initiate_agent_with_files cfg inst g (with_i_app_type "web" form).
Proof.
  intros Ha. unfold start_agent, initiate_agent_with_files. simpl.
  by rewrite (validate_app_type_unknown a Ha).
Qed.

Lemma unknown_app_type_defaults_to_web_witness :
  start_agent example_config (Some "3f9c2a71") all_willing "t3"
              (with_app_type "desktop" (start_body "mobile"))
  = start_agent example_config (Some "3f9c2a71") all_willing "t3"
                (with_app_type "web" (start_body "mobile"))
  /\ initiate_agent_with_files example_config (Some "3f9c2a71") all_willing
       (with_i_app_type "desktop" (initiate_form "mobile"))
     = initiate_agent_with_files example_config (Some "3f9c2a71") all_willing
         (with_i_app_type "web" (initiate_form "mobile")).
Proof.
  apply (unknown_app_type_defaults_to_web example_config (Some "3f9c2a71")
           all_willing "t3" (start_body "mobile") (initiate_form "mobile")
           "desktop").
  reflexivity.
Defined.

End AgentApiFacts.

(** * Further properties of the ledger *)

Module LedgerFacts.
Import Constants TokenBilling TokenBillingAdmin TokenBillingFacts.

(** X1. Credits and tokens: a credit count turned into tokens and back
    is itself (0 for a negative count); a token count turned into
    credits and back loses less than one credit's worth and never
    gains. *)
Theorem credits_tokens_round_trip (credits tokens : Z) :
  get_credits_from_tokens (get_tokens_from_credits credits) = Z.max 0 credits
  /\ get_tokens_from_credits (get_credits_from_tokens tokens)
     <= Z.max 0 tokens
  /\ Z.max 0 tokens
     < get_tokens_from_credits (get_credits_from_tokens tokens) + 5000.
Proof.
  unfold get_credits_from_tokens, get_tokens_from_credits,
    AVERAGE_TOKENS_PER_CREDIT, TOKENS_PER_CONVERSATION_ESTIMATE.
  split.
  - destruct (Z.leb_spec credits 0); [simpl; lia|].
    destruct (Z.leb_spec (credits * 5000) 0); [lia|].
    rewrite Z.div_mul by lia. lia.
  - destruct (Z.leb_spec tokens 0); [simpl; lia|].
    pose proof (Z.div_mod tokens 5000 ltac:(lia)).
    pose proof (Z.mod_pos_bound tokens 5000 ltac:(lia)).
    destruct (Z.leb_spec (tokens / 5000) 0); lia.
Qed.

(** A plan's advertised credits are what its token quota converts to. *)
Lemma plan_credits_consistent (pid : string) (p : plan) :
  get_plan_by_id pid = Some p ->
  pid <> "byok" ->
  get_credits_from_tokens (token_quota p) = display_credits p.
Proof.
  unfold get_plan_by_id, PLANS. simpl. intros H Hne.
  destruct (String.eqb pid "free"); [by injection H as <-|].
  destruct (String.eqb pid "pro"); [by injection H as <-|].
  destruct (String.eqb pid "premium"); [by injection H as <-|].
  destruct (String.eqb_spec pid "byok"); [done|discriminate].
Qed.

Lemma status_of_existing (w : world) a (row : billing_customer) :
  billing_customers w !! a = Some row ->
  exists p : plan,
    (get_plan_by_id (plan_id row) = Some p
     \/ get_plan_by_id (plan_id row) = None
        /\ get_plan_by_id "free" = Some p)
    /\ run (get_user_token_status a) w
       = (w, Returned
               {| status_account_id := a;
                  status_plan := plan_id row;
                  plan_name := name p;
                  status_tokens_remaining := token_quota_remaining row;
                  tokens_total := token_quota_total row;
                  status_credits_remaining :=
                    if String.eqb (plan_id row) "byok" then -1
                    else get_credits_from_tokens (token_quota_remaining row);
                  credits_total :=
                    if String.eqb (plan_id row) "byok" then -1
                    else display_credits p;
                  status_quota_resets_at := quota_resets_at row;
                  status_features := features p |}).
Proof.
  intros Hrow. unfold get_user_token_status. simpl. rewrite Hrow. simpl.
  destruct (get_plan_by_id (plan_id row)) as [p|] eqn:Hp.
  - exists p. split; [by left|]. by destruct (String.eqb (plan_id row) "byok").
  - destruct (get_plan_by_id "free") as [p|] eqn:Hf; [|discriminate].
    exists p. split; [by right|].
    by destruct (String.eqb (plan_id row) "byok").
Qed.

(** X2. Reading the status of an account that has a row writes nothing
    and never raises. Tokens and total are the row's; credits are the
    floor of remaining / 5000 against the plan's advertised credits, -1
    and -1 for [byok]; a plan id that is not in the catalogue is
    reported as it is, under the Free plan's name and credit total. *)
Theorem token_status_reads_only (w : world) a (row : billing_customer) :
  billing_customers w !! a = Some row ->
  exists st,
    run (get_user_token_status a) w = (w, Returned st)
    /\ status_plan st = plan_id row
    /\ status_tokens_remaining st = token_quota_remaining row
    /\ tokens_total st = token_quota_total row
    /\ (plan_id row = "byok" ->
        status_credits_remaining st = -1 /\ credits_total st = -1)
    /\ (plan_id row <> "byok" ->
        status_credits_remaining st
        = get_credits_from_tokens (token_quota_remaining row))
    /\ (get_plan_by_id (plan_id row) = None ->
        plan_name st = "Free" /\ credits_total st = 20).
Proof.
  intros Hrow.
  destruct (status_of_existing w a row Hrow) as (p & Hp & Hrun).
  eexists. split; [exact Hrun|]. simpl.
  split; [done|]. split; [done|]. split; [done|].
  split; [by intros ->|].
  split.
  { intros Hne. apply String.eqb_neq in Hne. by rewrite Hne. }
  intros Hnone. destruct Hp as [Hp|[_ Hp]]; [congruence|].
  injection Hp as <-. split; [done|].
  destruct (String.eqb_spec (plan_id row) "byok") as [E|]; [|done].
  rewrite E in Hnone. discriminate.
Qed.

Lemma token_status_reads_only_witness :
  exists st,
    run (get_user_token_status "acc-1") (example_world RpcRaises 12345)
      = (example_world RpcRaises 12345, Returned st)
    /\ status_plan st = plan_id (example_row "free" 12345)
    /\ status_tokens_remaining st
       = token_quota_remaining (example_row "free" 12345)
    /\ tokens_total st = token_quota_total (example_row "free" 12345)
    /\ (plan_id (example_row "free" 12345) = "byok" ->
        status_credits_remaining st = -1 /\ credits_total st = -1)
    /\ (plan_id (example_row "free" 12345) <> "byok" ->
        status_credits_remaining st
        = get_credits_from_tokens
            (token_quota_remaining (example_row "free" 12345)))
    /\ (get_plan_by_id (plan_id (example_row "free" 12345)) = None ->
        plan_name st = "Free" /\ credits_total st = 20).
Proof.
  apply (token_status_reads_only (example_world RpcRaises 12345) "acc-1"
           (example_row "free" 12345)).
  vm_compute; reflexivity.
Defined.

(** One call against a row on a plan other than [byok], run alone. *)
Lemma consume_step (w : world) a (row : billing_customer) n model :
  billing_customers w !! a = Some row ->
  plan_id row <> "byok" ->
  exists w',
    (run (consume_tokens a n model None None) w).1 = w'
    /\ clock w' = clock w
    /\ consume_tokens_atomic w' = consume_tokens_atomic w
    /\ (forall b, b <> a ->
        billing_customers w' !! b = billing_customers w !! b)
    /\ billing_customers w' !! a
       = Some (if n <=? token_quota_remaining row
               then set_remaining (token_quota_remaining row - n)
                                  (clock w) row
               else row)
    /\ length (token_usage_log w')
       = (length (token_usage_log w)
          + if (n <=? token_quota_remaining row)%Z then 1 else 0)%nat.
Proof.
  intros Hrow Hplan. eexists. split; [reflexivity|].
  rewrite (consume_tokens_existing _ _ _ _ _ _ _ Hrow Hplan).
  destruct (Z.leb_spec n (token_quota_remaining row)) as [Hle|Hgt].
  - assert (Hb : (n <=? token_quota_remaining row) = true) by lia.
    unfold _consume_tokens_fallback; simpl. rewrite Hrow; simpl.
    unfold rpc_consume_tokens_atomic, update_remaining_gte.
    destruct (consume_tokens_atomic w) eqn:Hmode; simpl;
      repeat (first [rewrite Hrow | rewrite Hb]; simpl);
      (split; [done|]; split; [done|];
       split; [intros b Hb'; by rewrite lookup_insert_ne|];
       split; [by rewrite lookup_insert_eq|];
       rewrite length_app; simpl; lia).
  - rewrite (fallback_short w a row n model None None Hrow Hgt). simpl.
    split; [done|]. split; [done|]. split; [done|]. split; [done|]. lia.
Qed.

Lemma consume_in_turn_cons a model n ns (w : world) :
  consume_in_turn a model (n :: ns) w
  = consume_in_turn a model ns
      (run (consume_tokens a n model None None) w).1.
Proof. reflexivity. Qed.

Lemma debit_in_turn_cons (r n : Z) ns :
  debit_in_turn r (n :: ns)
  = debit_in_turn (if n <=? r then r - n else r) ns.
Proof. reflexivity. Qed.

Lemma debit_in_turn_bounds (r : Z) (ns : list Z) :
  0 <= r -> Forall (fun n => 0 <= n) ns ->
  0 <= debit_in_turn r ns <= r.
Proof.
  intros Hr Hns. revert r Hr.
  induction Hns as [|n ns Hn _ IH]; intros r Hr; [unfold debit_in_turn; simpl; lia|].
  rewrite debit_in_turn_cons.
  destruct (Z.leb_spec n r).
  - specialize (IH (r - n) ltac:(lia)). lia.
  - by apply IH.
Qed.

(** X3. Calls of [consume_tokens] made one after the other on an
    account with a plan other than [byok] keep the books exactly: each
    amount the balance covers at its turn is taken off and logged once,
    each other call changes nothing; with amounts that are not negative
    the balance never goes below zero nor above where it started. *)
Theorem debits_in_turn_exact (w : world) a (row : billing_customer)
        (model : string) (amounts : list Z) :
  billing_customers w !! a = Some row ->
  plan_id row <> "byok" ->
  remaining_of a (consume_in_turn a model amounts w)
  = Some (debit_in_turn (token_quota_remaining row) amounts)
  /\ length (token_usage_log (consume_in_turn a model amounts w))
     = (length (token_usage_log w)
        + covered_in_turn (token_quota_remaining row) amounts)%nat
  /\ (0 <= token_quota_remaining row ->
      Forall (fun n => 0 <= n) amounts ->
      0 <= debit_in_turn (token_quota_remaining row) amounts
        <= token_quota_remaining row).
Proof.
  intros Hrow Hplan. split; [|split]; [| |apply debit_in_turn_bounds].
  - revert w row Hrow Hplan.
    induction amounts as [|n ns IH]; intros w row Hrow Hplan.
    + unfold remaining_of, consume_in_turn, debit_in_turn. simpl.
      by rewrite Hrow.
    + rewrite consume_in_turn_cons, debit_in_turn_cons.
      destruct (consume_step w a row n model Hrow Hplan)
        as (w' & -> & _ & _ & _ & Hrow' & _).
      destruct (n <=? token_quota_remaining row);
        by rewrite (IH w' _ Hrow').
  - revert w row Hrow Hplan.
    induction amounts as [|n ns IH]; intros w row Hrow Hplan.
    + unfold consume_in_turn. simpl. lia.
    + rewrite consume_in_turn_cons.
      destruct (consume_step w a row n model Hrow Hplan)
        as (w' & -> & _ & _ & _ & Hrow' & Hlog).
      cbn [covered_in_turn].
      destruct (n <=? token_quota_remaining row);
        rewrite (IH w' _ Hrow'); try done; simpl; lia.
Qed.

Lemma debits_in_turn_exact_witness :
  remaining_of "acc-1"
    (consume_in_turn "acc-1" "m" [30; 80; 70] (example_world RpcRaises 100))
  = Some (debit_in_turn (token_quota_remaining (example_row "free" 100))
            [30; 80; 70])
  /\ length (token_usage_log
               (consume_in_turn "acc-1" "m" [30; 80; 70]
                  (example_world RpcRaises 100)))
     = (length (token_usage_log (example_world RpcRaises 100%Z))
        + covered_in_turn (token_quota_remaining (example_row "free" 100%Z))
            [30; 80; 70]%Z)%nat
  /\ (0 <= token_quota_remaining (example_row "free" 100) ->
      Forall (fun n => 0 <= n) [30; 80; 70] ->
      0 <= debit_in_turn (token_quota_remaining (example_row "free" 100))
             [30; 80; 70]
        <= token_quota_remaining (example_row "free" 100)).
Proof.
  apply (debits_in_turn_exact (example_world RpcRaises 100) "acc-1"
           (example_row "free" 100) "m" [30; 80; 70]).
  - vm_compute; reflexivity.
  - simpl; discriminate.
Defined.

(** X4. [consume_tokens] does not look at the sign of the amount: a
    negative amount (which the guard [remaining >= amount] lets through
    whenever the balance is not below it) succeeds, raises the balance
    by its absolute value and is logged as usage; an amount of zero
    succeeds on a balance that is not negative and leaves it. *)
Theorem negative_amount_credits (w : world) a (row : billing_customer)
        (n : Z) model th msg :
  billing_customers w !! a = Some row ->
  plan_id row <> "byok" ->
  n <= 0 ->
  n <= token_quota_remaining row ->
  exists w' res,
    run (consume_tokens a n model th msg) w = (w', Returned res)
    /\ success res = true
    /\ tokens_remaining res = token_quota_remaining row + Z.abs n
    /\ remaining_of a w' = Some (token_quota_remaining row + Z.abs n)
    /\ length (token_usage_log w') = S (length (token_usage_log w)).
Proof.
  intros Hrow Hplan Hneg Hle.
  rewrite (consume_tokens_existing _ _ _ _ _ _ _ Hrow Hplan).
  destruct (fallback_enough w a row n model th msg Hrow Hle)
    as (w' & Hrun & Hlook & Hlog).
  exists w'; eexists. split; [exact Hrun|]. simpl.
  unfold remaining_of. rewrite Hlook, Hlog, length_app. simpl.
  split; [done|]. split; [lia|]. split; [f_equal; lia|lia].
Qed.

Lemma negative_amount_credits_witness :
  exists w' res,
    run (consume_tokens "acc-1" (-500) "m" None None)
        (example_world RpcRaises 100) = (w', Returned res)
    /\ success res = true
    /\ tokens_remaining res
       = token_quota_remaining (example_row "free" 100) + Z.abs (-500)
    /\ remaining_of "acc-1" w'
       = Some (token_quota_remaining (example_row "free" 100) + Z.abs (-500))
    /\ length (token_usage_log w')
       = S (length (token_usage_log (example_world RpcRaises 100))).
Proof.
  apply (negative_amount_credits (example_world RpcRaises 100) "acc-1"
           (example_row "free" 100) (-500) "m" None None).
  - vm_compute; reflexivity.
  - simpl; discriminate.
  - lia.
  - simpl; lia.
Defined.

(** X5. On the [byok] plan nothing is debited and nothing is refused:
    whatever the amount, even one above the balance, the call succeeds,
    the billing table is as it was, the usage is logged against the
    unchanged balance and the credits are reported as -1. *)
Theorem byok_never_debited (w : world) a (row : billing_customer)
        (n : Z) model th msg :
  billing_customers w !! a = Some row ->
  plan_id row = "byok" ->
  exists w',
    run (consume_tokens a n model th msg) w
    = (w', Returned {| success := true; tokens_consumed := n;
                       tokens_remaining := token_quota_remaining row;
                       credits_remaining := -1;
                       consumed_plan_id := "byok";
                       byok_unlimited := true |})
    /\ billing_customers w' = billing_customers w
    /\ token_usage_log w'
       = token_usage_log w
         ++ [usage a th msg model n (token_quota_remaining row)].
Proof.
  intros Hrow Hplan. unfold consume_tokens. simpl. rewrite Hrow. simpl.
  rewrite Hplan. simpl. by eexists.
Qed.

Lemma byok_never_debited_witness :
  let w := {| billing_customers := {[ "acc-1" := example_row "byok" (-1) ]};
              token_usage_log := []; clock := 1000;
              consume_tokens_atomic := RpcRaises |} in
  exists w',
    run (consume_tokens "acc-1" 5000000 "m" None None) w
    = (w', Returned {| success := true; tokens_consumed := 5000000;
                       tokens_remaining :=
                         token_quota_remaining (example_row "byok" (-1));
                       credits_remaining := -1;
                       consumed_plan_id := "byok";
                       byok_unlimited := true |})
    /\ billing_customers w' = billing_customers w
    /\ token_usage_log w'
       = token_usage_log w
         ++ [usage "acc-1" None None "m" 5000000
                   (token_quota_remaining (example_row "byok" (-1)))].
Proof.
  intros w.
  apply (byok_never_debited w "acc-1" (example_row "byok" (-1))
           5000000 "m" None None).
  - vm_compute; reflexivity.
  - reflexivity.
Defined.

(** X6. [_create_billing_record] never overwrites and never raises when
    run alone: an account with a row keeps it and nothing is written, an
    account without one gets a record on the Free plan with the full
    100000 tokens, due for reset thirty days on; every other account
    and the usage log are as before, and a second call changes nothing
    more. *)
Theorem create_billing_record_idempotent (w : world) a :
  exists w',
    run (_create_billing_record a) w = (w', Returned tt)
    /\ (is_Some (billing_customers w !! a) -> w' = w)
    /\ (billing_customers w !! a = None ->
        exists r, billing_customers w' !! a = Some r
                  /\ plan_id r = "free"
                  /\ token_quota_remaining r = 100000
                  /\ token_quota_total r = 100000
                  /\ quota_resets_at r = clock w + days 30)
    /\ (forall b, b <> a ->
        billing_customers w' !! b = billing_customers w !! b)
    /\ token_usage_log w' = token_usage_log w
    /\ run (_create_billing_record a) w' = (w', Returned tt).
Proof.
  unfold _create_billing_record. simpl.
  destruct (billing_customers w !! a) as [row|] eqn:Hrow; simpl.
  - exists w. rewrite Hrow. simpl.
    split; [done|]. split; [done|]. split; [done|]. done.
  - unfold insert_billing. rewrite Hrow. simpl.
    eexists. split; [reflexivity|]. simpl.
    rewrite !lookup_insert_eq. simpl.
    split; [by intros [? ?]|].
    split; [intros _; by eexists|].
    split; [intros b Hb; by rewrite lookup_insert_ne|].
    done.
Qed.

(** What the update of [reset_user_quota] and [upgrade_user_plan] does
    to the table. *)
Lemma update_billing_lookup a f (w : world) b :
  billing_customers (update_billing a f w).1 !! b
  = if decide (b = a) then f (clock w) <$> billing_customers w !! a
    else billing_customers w !! b.
Proof.
  unfold update_billing. simpl. case_decide as E.
  - subst. by rewrite lookup_alter_eq.
  - by rewrite lookup_alter_ne.
Qed.

(** X7. [reset_user_quota] answers [True] exactly when the account has
    a row whose plan is in the catalogue, and otherwise leaves the store
    as it was; it never raises. On success the balance is the plan's
    quota whatever was spent before, the plan and the stored total are
    untouched, other accounts and the usage log are untouched, and the
    status read next shows the plan's full credits. *)
Theorem reset_user_quota_restores_plan (w : world) a :
  exists w' ok,
    run (reset_user_quota a) w = (w', Returned ok)
    /\ (ok = true <->
        exists row p, billing_customers w !! a = Some row
                      /\ get_plan_by_id (plan_id row) = Some p)
    /\ (ok = false -> w' = w)
    /\ (forall b, b <> a ->
        billing_customers w' !! b = billing_customers w !! b)
    /\ token_usage_log w' = token_usage_log w
    /\ (forall row p,
        billing_customers w !! a = Some row ->
        get_plan_by_id (plan_id row) = Some p ->
        billing_customers w' !! a
        = Some (reset_columns (token_quota p) (clock w) row)
        /\ exists st,
            run (get_user_token_status a) w' = (w', Returned st)
            /\ status_plan st = plan_id row
            /\ status_tokens_remaining st = token_quota p
            /\ tokens_total st = token_quota_total row
            /\ status_credits_remaining st = display_credits p
            /\ credits_total st = display_credits p).
Proof.
  unfold reset_user_quota. simpl.
  destruct (billing_customers w !! a) as [row|] eqn:Hrow; simpl.
  2:{ exists w, false. split; [done|]. split.
      { split; [done|]. by intros (? & ? & ? & _). }
      split; [done|]. split; [done|]. split; [done|]. by intros. }
  destruct (get_plan_by_id (plan_id row)) as [p|] eqn:Hp; simpl.
  2:{ exists w, false. split; [done|]. split.
      { split; [done|]. intros (? & ? & [= <-] & ?). congruence. }
      split; [done|]. split; [done|]. split; [done|].
      intros ? ? [= <-] ?. congruence. }
  eexists _, true. split; [reflexivity|].
  split. { split; [|done]. intros _. by exists row, p. }
  split; [done|].
  split.
  { intros b Hb. simpl. by rewrite lookup_alter_ne. }
  split; [done|].
  intros row' p' [= <-] Hp'. rewrite Hp in Hp'. injection Hp' as <-.
  assert (Hnew : billing_customers
                   (update_billing a (reset_columns (token_quota p)) w).1
                 !! a
                 = Some (reset_columns (token_quota p) (clock w) row)).
  { rewrite update_billing_lookup, decide_True by done. by rewrite Hrow. }
  split; [exact Hnew|].
  destruct (status_of_existing _ a _ Hnew) as (q & Hq & Hrun).
  change (plan_id (reset_columns (token_quota p) (clock w) row))
    with (plan_id row) in Hq.
  rewrite Hp in Hq. destruct Hq as [[= <-]|[? _]]; [|done].
  eexists. split; [exact Hrun|]. simpl.
  split; [done|]. split; [done|]. split; [done|].
  destruct (String.eqb_spec (plan_id row) "byok") as [E|E].
  - rewrite E in Hp. vm_compute in Hp. by injection Hp as <-.
  - split; [|done]. by apply (plan_credits_consistent (plan_id row)).
Qed.

(** X8. [upgrade_user_plan] on an account that has a row: a plan of the
    catalogue replaces the plan, and balance and total both become the
    new quota whatever they were; the status returned is the one of the
    new plan with its full credits; other accounts and the usage log
    are untouched. *)
Theorem upgrade_user_plan_existing (w : world) a (row : billing_customer)
        new_plan_id (p : plan) :
  billing_customers w !! a = Some row ->
  get_plan_by_id new_plan_id = Some p ->
  exists w' st,
    run (upgrade_user_plan a new_plan_id) w = (w', Returned st)
    /\ billing_customers w' !! a
       = Some (upgrade_columns new_plan_id (token_quota p) (clock w) row)
    /\ (forall b, b <> a ->
        billing_customers w' !! b = billing_customers w !! b)
    /\ token_usage_log w' = token_usage_log w
    /\ status_plan st = new_plan_id
    /\ plan_name st = name p
    /\ status_tokens_remaining st = token_quota p
    /\ tokens_total st = token_quota p
    /\ status_credits_remaining st = display_credits p
    /\ credits_total st = display_credits p.
Proof.
  intros Hrow Hp. unfold upgrade_user_plan. rewrite Hp.
  change (run _ w)
    with (run (get_user_token_status a)
            (update_billing a
               (upgrade_columns new_plan_id (token_quota p)) w).1).
  assert (Hnew : billing_customers
                   (update_billing a
                      (upgrade_columns new_plan_id (token_quota p)) w).1
                 !! a
                 = Some (upgrade_columns new_plan_id (token_quota p)
                           (clock w) row)).
  { rewrite update_billing_lookup, decide_True by done. by rewrite Hrow. }
  destruct (status_of_existing _ a _ Hnew) as (q & Hq & Hrun).
  change (plan_id (upgrade_columns new_plan_id (token_quota p) (clock w) row))
    with new_plan_id in Hq.
  rewrite Hp in Hq. destruct Hq as [[= <-]|[? _]]; [|done].
  rewrite Hrun. eexists _, _. split; [reflexivity|].
  split; [exact Hnew|].
  split; [intros b Hb; simpl; by rewrite lookup_alter_ne|]. simpl.
  split; [done|]. split; [done|]. split; [done|].
  split; [done|]. split; [done|].
  destruct (String.eqb_spec new_plan_id "byok") as [E|E].
  - rewrite E in Hp. vm_compute in Hp. by injection Hp as <-.
  - split; [|done]. by apply (plan_credits_consistent new_plan_id).
Qed.

Lemma upgrade_user_plan_existing_witness :
  let p := {| name := "Pro"; token_quota := 750000; display_credits := 150;
              features := ["Priority Support"; "All Models";
                           "Advanced Features"] |} in
  exists w' st,
    run (upgrade_user_plan "acc-1" "pro") (example_world RpcRaises 12)
      = (w', Returned st)
    /\ billing_customers w' !! "acc-1"
       = Some (upgrade_columns "pro" (token_quota p)
                 (clock (example_world RpcRaises 12))
                 (example_row "free" 12))
    /\ (forall b, b <> "acc-1" ->
        billing_customers w' !! b
        = billing_customers (example_world RpcRaises 12) !! b)
    /\ token_usage_log w' = token_usage_log (example_world RpcRaises 12)
    /\ status_plan st = "pro"
    /\ plan_name st = name p
    /\ status_tokens_remaining st = token_quota p
    /\ tokens_total st = token_quota p
    /\ status_credits_remaining st = display_credits p
    /\ credits_total st = display_credits p.
Proof.
  intros p.
  apply (upgrade_user_plan_existing (example_world RpcRaises 12) "acc-1"
           (example_row "free" 12) "pro" p).
  - vm_compute; reflexivity.
  - vm_compute; reflexivity.
Defined.

(** The status of an account without a row: the Free record is created
    first. *)
Lemma status_of_missing (w : world) a :
  billing_customers w !! a = None ->
  exists w' st,
    run (get_user_token_status a) w = (w', Returned st)
    /\ status_plan st = "free"
    /\ status_tokens_remaining st = 100000
    /\ credits_total st = 20
    /\ (plan_id <$> billing_customers w' !! a) = Some "free".
Proof.
  intros Hrow. unfold get_user_token_status, _create_billing_record. simpl.
  rewrite Hrow. simpl. rewrite Hrow. simpl.
  unfold insert_billing. rewrite Hrow. simpl.
  rewrite lookup_insert_eq. simpl.
  eexists _, _. split; [reflexivity|]. simpl.
  by rewrite lookup_insert_eq.
Qed.

(** X9. [upgrade_user_plan] does not check that the account has a row.
    For an account without one the update changes no row, and the
    status read that follows creates the Free record: the call returns
    normally with plan [free] and 100000 tokens, whatever plan was asked
    for, and that is what the table then holds. A plan id outside the
    catalogue raises before anything is written. *)
Theorem upgrade_user_plan_missing_row (w : world) a new_plan_id :
  billing_customers w !! a = None ->
  (forall p, get_plan_by_id new_plan_id = Some p ->
   exists w' st,
     run (upgrade_user_plan a new_plan_id) w = (w', Returned st)
     /\ status_plan st = "free"
     /\ status_tokens_remaining st = 100000
     /\ credits_total st = 20
     /\ (plan_id <$> billing_customers w' !! a) = Some "free")
  /\ (get_plan_by_id new_plan_id = None ->
      run (upgrade_user_plan a new_plan_id) w
      = (w, Raised (Exception ("Invalid plan_id: " +:+ new_plan_id)))).
Proof.
  intros Hrow. split.
  - intros p Hp. unfold upgrade_user_plan. rewrite Hp.
    change (run _ w)
      with (run (get_user_token_status a)
              (update_billing a
                 (upgrade_columns new_plan_id (token_quota p)) w).1).
    apply status_of_missing.
    rewrite update_billing_lookup, decide_True by done. by rewrite Hrow.
  - intros Hp. unfold upgrade_user_plan. by rewrite Hp.
Qed.

Lemma upgrade_user_plan_missing_row_witness :
  (forall p, get_plan_by_id "premium" = Some p ->
   exists w' st,
     run (upgrade_user_plan "acc-9" "premium") (empty_world RpcRaises)
       = (w', Returned st)
     /\ status_plan st = "free"
     /\ status_tokens_remaining st = 100000
     /\ credits_total st = 20
     /\ (plan_id <$> billing_customers w' !! "acc-9") = Some "free")
  /\ (get_plan_by_id "premium" = None ->
      run (upgrade_user_plan "acc-9" "premium") (empty_world RpcRaises)
      = (empty_world RpcRaises,
         Raised (Exception ("Invalid plan_id: " +:+ "premium")))).
Proof.
  apply (upgrade_user_plan_missing_row (empty_world RpcRaises) "acc-9"
           "premium").
  vm_compute; reflexivity.
Defined.

End LedgerFacts.

(** * Further properties of the executor *)

Module ExecutorEndingsFacts.
Import Store Executor ExecutorEndings ExecutorFacts.

Local Arguments response_list_key : simpl never.
Local Arguments response_channel : simpl never.
Local Arguments global_control_channel : simpl never.
Local Arguments instance_active_key : simpl never.
Local Arguments task_status_key : simpl never.

Lemma with_agent_runs_same (w : world) :
  with_agent_runs (fun _ => agent_runs w) w = w.
Proof. by destruct w. Qed.

Lemma update_row_other (id status : string) now err resp (l : list agent_run) :
  existsb (fun r => String.eqb (run_id r) id) l = false ->
  map (update_row id status now err resp) l = l.
Proof.
  induction l as [|x l IH]; [done|]. simpl. intros H.
  apply orb_false_elim in H as [Hx Hl].
  rewrite (IH Hl). unfold update_row. by rewrite Hx.
Qed.

Lemma update_attempts_missing (n : nat) (id status : string) err resp
      (w : world) :
  existsb (fun r => String.eqb (run_id r) id) (agent_runs w) = false ->
  run (update_attempts n id status err resp) w = (w, Returned false).
Proof.
  intros Hex. induction n as [|n IH]; [done|].
  change (run (update_attempts (S n) id status err resp) w)
    with (let '(w1, updated) := db_update_run id status err resp w in
          run (if updated : bool
               then await (db_select_run id) ;; Ret true
               else update_attempts n id status err resp) w1).
  unfold db_update_run. rewrite Hex.
  assert (Hsame : with_agent_runs
                    (map (update_row id status (clock w) err resp)) w = w).
  { unfold with_agent_runs. rewrite (update_row_other _ _ _ _ _ _ Hex).
    by destruct w. }
  by rewrite Hsame.
Qed.

(** [update_agent_run_status] run alone. *)
Lemma update_status_run (id status : string) err resp (w : world) :
  run (update_agent_run_status id status err resp) w
  = (if existsb (fun r => String.eqb (run_id r) id) (agent_runs w)
     then with_agent_runs (map (update_row id status (clock w) err resp)) w
     else w,
     Returned (existsb (fun r => String.eqb (run_id r) id) (agent_runs w))).
Proof.
  unfold update_agent_run_status.
  destruct (existsb _ (agent_runs w)) eqn:Hex.
  - simpl. by rewrite Hex.
  - by apply update_attempts_missing.
Qed.

(** X10. [update_agent_run_status] answers [True] exactly when the run
    has a row. Without one it gives up after its three attempts and the
    store is as before. With one, every row of the run gets the status
    and the completion time; an empty list of responses leaves the
    stored responses, an absent or empty error leaves the stored error;
    rows of other runs, and their number, are untouched. *)
Theorem update_agent_run_status_outcome (id status : string)
        (err : option string) (resp : list item) (w : world) :
  exists w' ok,
    run (update_agent_run_status id status err resp) w = (w', Returned ok)
    /\ (ok = true <-> exists r, r ∈ agent_runs w /\ run_id r = id)
    /\ (ok = false -> w' = w)
    /\ length (agent_runs w') = length (agent_runs w)
    /\ (forall i r, agent_runs w !! i = Some r -> run_id r <> id ->
        agent_runs w' !! i = Some r)
    /\ (forall i r, agent_runs w !! i = Some r -> run_id r = id ->
        exists r',
          agent_runs w' !! i = Some r'
          /\ run_id r' = id
          /\ run_status r' = status
          /\ completed_at r' = Some (clock w)
          /\ started_at r' = started_at r
          /\ responses r' = (if bool_decide (resp = []) then responses r
                             else resp)
          /\ error r' = stored_error err r)
    /\ kv w' = kv w /\ lists w' = lists w /\ published w' = published w.
Proof.
  rewrite update_status_run.
  destruct (existsb _ (agent_runs w)) eqn:Hex.
  - eexists _, true. split; [reflexivity|].
    split.
    { split; [|done]. intros _. apply existsb_exists in Hex as (r & Hin & E).
      exists r. split; [by apply list_elem_of_In|by apply String.eqb_eq]. }
    split; [done|]. simpl.
    split; [by rewrite length_map|].
    split.
    { intros i r Hi Hne. rewrite list_lookup_fmap, Hi. simpl.
      unfold update_row. apply String.eqb_neq in Hne. by rewrite Hne. }
    split; [|done].
    intros i r Hi He. eexists. rewrite list_lookup_fmap, Hi. simpl.
    split; [reflexivity|]. unfold update_row.
    apply String.eqb_eq in He as He'. rewrite He'. simpl.
    split; [done|]. split; [done|]. split; [done|]. split; [done|].
    split; [|done]. by destruct resp.
  - exists w, false. split; [done|].
    split.
    { split; [done|]. intros (r & Hin & E).
      assert (existsb (fun r => String.eqb (run_id r) id) (agent_runs w)
              = true); [|congruence].
      apply existsb_exists. exists r.
      split; [by apply list_elem_of_In|by apply String.eqb_eq]. }
    split; [done|]. split; [done|].
    split; [done|]. split; [|done].
    intros i r Hi He.
    assert (existsb (fun r => String.eqb (run_id r) id) (agent_runs w)
            = true); [|congruence].
    apply existsb_exists. exists r.
    split; [apply list_elem_of_In; by eapply list_elem_of_lookup_2
           |by apply String.eqb_eq].
Qed.

Lemma run_await_bind {St E R A} (op : St -> St * R) (k : R -> prog St E A) s :
  run (bind (await op) k) s = run (k (op s).2) (op s).1.
Proof. simpl. by destruct (op s). Qed.

Lemma with_pending_app (ops1 ops2 : list redis_op) (w : world) :
  with_pending (fun l => l ++ ops2) (with_pending (fun l => l ++ ops1) w)
  = with_pending (fun l => l ++ (ops1 ++ ops2)) w.
Proof. unfold with_pending. simpl. by rewrite app_assoc. Qed.

Lemma with_pending_nil (w : world) : with_pending (fun l => l ++ []) w = w.
Proof. unfold with_pending. rewrite app_nil_r. by destruct w. Qed.

Lemma loop_body_exit (id : string) (flag : bool) (it : item) (w : world) :
  loop_body id flag it w
  = (with_pending (fun l => l ++ spawned_for id (last_spawned flag it)) w,
     exit_of flag it).
Proof.
  unfold loop_body, exit_of, last_spawned, exit_message.
  destruct flag; [by rewrite with_pending_nil|].
  unfold create_task. rewrite with_pending_app. simpl.
  by destruct (terminal_status it).
Qed.

Lemma drive_cons (id : string) flag it rest ending (w : world) :
  run (drive id ((flag, it) :: rest) ending) w
  = match exit_of flag it with
    | Some r =>
        (with_pending (fun l => l ++ spawned_for id (last_spawned flag it)) w,
         Returned r)
    | None =>
        run (drive id rest ending)
          (with_pending (fun l => l ++ spawned_for id (last_spawned flag it))
                        w)
    end.
Proof.
  change (run (drive id ((flag, it) :: rest) ending) w)
    with (let '(w1, exit) := loop_body id flag it w in
          run (match exit with
               | Some r => Ret r
               | None => drive id rest ending
               end) w1).
  rewrite loop_body_exit. by destruct (exit_of flag it).
Qed.

Lemma spawned_for_app (id : string) (l1 l2 : list item) :
  spawned_for id (l1 ++ l2) = spawned_for id l1 ++ spawned_for id l2.
Proof. unfold spawned_for. by rewrite flat_map_app. Qed.

Lemma drive_quiet_prefix (id : string) pre rest ending (w : world) :
  quiet pre ->
  run (drive id (pre ++ rest) ending) w
  = run (drive id rest ending)
        (with_pending (fun l => l ++ spawned_for id pre.*2) w).
Proof.
  intros Hq. revert w. induction Hq as [|[flag it] pre [Hf Ht] _ IH];
    intros w.
  - change (spawned_for id ([] : list (bool * item)).*2) with (@nil redis_op).
    by rewrite with_pending_nil.
  - simpl in Hf, Ht. subst flag.
    rewrite <- app_comm_cons, drive_cons. unfold exit_of. rewrite Ht.
    rewrite IH, with_pending_app. done.
Qed.

(** X11. The loop over the generator stops at the first item that
    arrives with the stop flag set or that is a terminal status item,
    and consumes nothing after it. Every item before it, and the
    terminal status item itself, is handed to Redis (one RPUSH and one
    PUBLISH each, never awaited); an item that arrives with the stop
    flag set is dropped. A generator that ends or raises without such an
    item leaves the status at [running], or raises, after all its items
    were handed over. *)
Theorem loop_ends_at_first_exit (id : string) (pre : list (bool * item))
        (ending : option string) (w : world) :
  quiet pre ->
  run (drive id pre ending) w
  = (with_pending (fun l => l ++ spawned_for id pre.*2) w,
     match ending with
     | None => Returned ("running", None)
     | Some e => Raised e
     end)
  /\ (forall it post,
      run (drive id (pre ++ (true, it) :: post) ending) w
      = (with_pending (fun l => l ++ spawned_for id pre.*2) w,
         Returned ("stopped", None)))
  /\ (forall it post s,
      terminal_status it = Some s ->
      run (drive id (pre ++ (false, it) :: post) ending) w
      = (with_pending (fun l => l ++ spawned_for id (pre.*2 ++ [it])) w,
         Returned (s, exit_message s it))).
Proof.
  intros Hq. split; [|split].
  - rewrite <- (app_nil_r pre) at 1. rewrite (drive_quiet_prefix _ _ _ _ _ Hq).
    simpl. by destruct ending.
  - intros it post. rewrite (drive_quiet_prefix _ _ _ _ _ Hq), drive_cons.
    simpl. by rewrite with_pending_nil.
  - intros it post s Hs.
    rewrite (drive_quiet_prefix _ _ _ _ _ Hq), drive_cons.
    unfold exit_of. rewrite Hs. unfold last_spawned.
    by rewrite with_pending_app, spawned_for_app.
Qed.

Lemma loop_ends_at_first_exit_witness :
  run (drive "r1" [(false, chunk "a")] None) (world_with_run "r1" "t1" "running")
  = (with_pending
       (fun l => l ++ spawned_for "r1" [(false, chunk "a")].*2)
       (world_with_run "r1" "t1" "running"),
     Returned ("running", None))
  /\ (forall it post,
      run (drive "r1" ([(false, chunk "a")] ++ (true, it) :: post) None)
          (world_with_run "r1" "t1" "running")
      = (with_pending
           (fun l => l ++ spawned_for "r1" [(false, chunk "a")].*2)
           (world_with_run "r1" "t1" "running"),
         Returned ("stopped", None)))
  /\ (forall it post s,
      terminal_status it = Some s ->
      run (drive "r1" ([(false, chunk "a")] ++ (false, it) :: post) None)
          (world_with_run "r1" "t1" "running")
      = (with_pending
           (fun l => l ++ spawned_for "r1" ([(false, chunk "a")].*2 ++ [it]))
           (world_with_run "r1" "t1" "running"),
         Returned (s, exit_message s it))).
Proof.
  apply (loop_ends_at_first_exit "r1" [(false, chunk "a")] None
           (world_with_run "r1" "t1" "running")).
  repeat constructor.
Defined.

(** The store after [update_agent_run_status], run alone. *)
Lemma update_status_fields (id status : string) err resp (w : world) :
  exists w' ok,
    run (update_agent_run_status id status err resp) w = (w', Returned ok)
    /\ agent_runs w' = map (update_row id status (clock w) err resp)
                           (agent_runs w)
    /\ kv w' = kv w /\ lists w' = lists w /\ published w' = published w
    /\ pending w' = pending w /\ clock w' = clock w.
Proof.
  rewrite update_status_run.
  destruct (existsb _ (agent_runs w)) eqn:Hex; eexists _, _;
    (split; [reflexivity|]); simpl; [done|].
  by rewrite (update_row_other _ _ _ _ _ _ Hex).
Qed.

Lemma run_rows_map_update (id status : string) now err resp
      (w w' : world) :
  agent_runs w' = map (update_row id status now err resp) (agent_runs w) ->
  run_rows id w' = map (update_row id status now err resp) (run_rows id w).
Proof.
  intros H. unfold run_rows. rewrite H. clear H.
  induction (agent_runs w) as [|x xs IH]; [done|].
  simpl. rewrite !filter_cons.
  assert (Hid : run_id (update_row id status now err resp x) = run_id x).
  { unfold update_row. by destruct (String.eqb (run_id x) id). }
  rewrite Hid. case_decide; simpl; by rewrite IH.
Qed.

Lemma updated_rows (id status : string) now err resp (w : world) :
  Forall (fun r => run_status r = status
                   /\ completed_at r = Some now
                   /\ (resp <> [] -> responses r = resp))
         (map (update_row id status now err resp) (run_rows id w)).
Proof.
  apply Forall_forall. intros x Hx.
  apply list_elem_of_fmap in Hx as (y & -> & Hy).
  unfold run_rows in Hy. apply list_elem_of_filter in Hy as [Hy _].
  unfold update_row. apply String.eqb_eq in Hy. rewrite Hy. simpl.
  split; [done|]. split; [done|]. by destruct resp.
Qed.

(** Phase 4 run alone, for a status other than [running]. *)
Lemma finalize_fields (id st : string) (err : option string) (w : world) :
  exists w',
    run (finalize id st err) w = (w', Returned st)
    /\ lists w' = lists w
    /\ pending w' = pending w
    /\ published w'
       = published w ++ [(global_control_channel id, control_signal st)]
    /\ kv w' = <[task_status_key id := (st, REDIS_RESPONSE_LIST_TTL)]> (kv w)
    /\ agent_runs w'
       = map (update_row id st (clock w) err (response_list id w))
             (agent_runs w).
Proof.
  unfold finalize. rewrite run_await_bind. rewrite run_bind.
  destruct (update_status_fields id st err
              (redis_lrange (response_list_key id) 0 w).2
              (redis_lrange (response_list_key id) 0 w).1)
    as (w1 & ok & -> & Hruns & Hkv & Hlists & Hpub & Hpend & Hclock).
  unfold announce. rewrite !run_await_bind. simpl.
  eexists. split; [reflexivity|]. simpl.
  rewrite Hlists, Hpend, Hpub, Hkv, Hruns. simpl.
  unfold response_list. by rewrite drop_0.
Qed.

Lemma terminal_status_in (it : item) (s : string) :
  terminal_status it = Some s ->
  in_list s ["completed"; "failed"; "stopped"] = true.
Proof.
  unfold terminal_status. destruct (type it) as [t|]; [|done].
  destruct (status it) as [s'|]; [|done].
  destruct (String.eqb t "status" && in_list s' _) eqn:E; [|done].
  intros [= <-]. by apply andb_prop in E as [_ E].
Qed.

(** X12. A run that leaves the loop on a stop signal or on a terminal
    status item, with the executor run alone from any store: it ends
    with that status, which is one of [completed], [failed], [stopped];
    no completion item is appended on its behalf (the response list is
    as the loop found it); the only message published is the final
    control signal, END_STREAM, ERROR or STOP; the task status key holds
    the status; every row of the run has the status and the completion
    time, and the responses snapshot when it is not empty. *)
Theorem ended_run_outcome (id inst tb : string)
        (pre post : list (bool * item))
        (flag : bool) (it : item) (ending : option string)
        (st : string) (err : option string) (w : world) :
  quiet pre ->
  exit_of flag it = Some (st, err) ->
  exists w',
    run (execute id inst tb (pre ++ (flag, it) :: post) ending) w
    = (w', Returned st)
    /\ in_list st ["completed"; "failed"; "stopped"] = true
    /\ lists w' = lists w
    /\ pending w'
       = pending w ++ spawned_for id (pre.*2 ++ last_spawned flag it)
    /\ published w'
       = published w ++ [(global_control_channel id, control_signal st)]
    /\ kv w' !! task_status_key id = Some (st, REDIS_RESPONSE_LIST_TTL)
    /\ length (run_rows id w') = length (run_rows id w)
    /\ Forall (fun r => run_status r = st
                        /\ completed_at r = Some (clock w)
                        /\ (response_list id w <> [] ->
                            responses r = response_list id w))
              (run_rows id w').
Proof.
  intros Hq Hexit.
  assert (Hst : in_list st ["completed"; "failed"; "stopped"] = true
                /\ String.eqb st "running" = false).
  { assert (Hin : in_list st ["completed"; "failed"; "stopped"] = true).
    { unfold exit_of in Hexit. destruct flag; [by injection Hexit as <- <-|].
      destruct (terminal_status it) as [s|] eqn:Hs; [|done].
      injection Hexit as <- <-. by apply terminal_status_in in Hs. }
    split; [done|]. unfold in_list in Hin. simpl in Hin.
    destruct (String.eqb_spec st "completed") as [->|]; [done|].
    destruct (String.eqb_spec st "failed") as [->|]; [done|].
    destruct (String.eqb_spec st "stopped") as [->|]; [done|].
    done. }
  destruct Hst as [Hterm Hrun].
  unfold execute. rewrite run_try_except. unfold run_body.
  rewrite !run_await_bind, run_bind.
  rewrite (drive_quiet_prefix _ _ _ _ _ Hq), drive_cons, Hexit.
  rewrite with_pending_app.
  unfold after_loop. rewrite run_bind. cbn [fst snd]. rewrite Hrun.
  cbn [run].
  match goal with
  | |- context [run (finalize id st err) ?w0] =>
      destruct (finalize_fields id st err w0)
        as (w' & -> & Hlists & Hpend & Hpub & Hkv & Hruns)
  end.
  simpl in Hlists, Hpend, Hpub, Hkv.
  exists w'. split; [done|]. split; [done|].
  split; [done|].
  split; [by rewrite Hpend, spawned_for_app|].
  split; [done|].
  split; [by rewrite Hkv, lookup_insert_eq|].
  rewrite (run_rows_map_update id st _ err _ _ w' Hruns).
  split; [by rewrite length_map|].
  apply updated_rows.
Qed.

Lemma ended_run_outcome_witness :
  exists w',
    run (execute "r1" "3f9c2a71" example_traceback
           ([(false, chunk "a")] ++ (true, chunk "late") :: [])
           None) (world_with_run "r1" "t1" "running")
    = (w', Returned "stopped")
    /\ in_list "stopped" ["completed"; "failed"; "stopped"] = true
    /\ lists w' = lists (world_with_run "r1" "t1" "running")
    /\ pending w'
       = pending (world_with_run "r1" "t1" "running")
         ++ spawned_for "r1" ([(false, chunk "a")].*2
                              ++ last_spawned true (chunk "late"))
    /\ published w'
       = published (world_with_run "r1" "t1" "running")
         ++ [(global_control_channel "r1", control_signal "stopped")]
    /\ kv w' !! task_status_key "r1"
       = Some ("stopped", REDIS_RESPONSE_LIST_TTL)
    /\ length (run_rows "r1" w')
       = length (run_rows "r1" (world_with_run "r1" "t1" "running"))
    /\ Forall (fun r => run_status r = "stopped"
                        /\ completed_at r
                           = Some (clock (world_with_run "r1" "t1" "running"))
                        /\ (response_list "r1"
                              (world_with_run "r1" "t1" "running") <> [] ->
                            responses r
                            = response_list "r1"
                                (world_with_run "r1" "t1" "running")))
              (run_rows "r1" w').
Proof.
  apply (ended_run_outcome "r1" "3f9c2a71" example_traceback
           [(false, chunk "a")] []
           true (chunk "late") None "stopped" None
           (world_with_run "r1" "t1" "running")).
  - repeat constructor.
  - reflexivity.
Defined.

(** *** A generator that raises *)

Lemma stored_error_not_empty (e tb : string) :
  String.eqb (e +:+ newline +:+ tb) "" = false.
Proof. by destruct e. Qed.

Lemma rows_failed_update (id stored : string) (it : item) now
      (resp : list item) (w : world) :
  String.eqb stored "" = false ->
  it ∈ resp ->
  rows_failed id stored it
    (with_agent_runs (map (update_row id "failed" now (Some stored) resp)) w).
Proof.
  intros Hne Hin. unfold rows_failed. rewrite run_rows_update.
  apply Forall_forall. intros x Hx.
  apply list_elem_of_fmap in Hx as (y & -> & Hy).
  unfold run_rows in Hy. apply list_elem_of_filter in Hy as [Hy _].
  unfold update_row. apply String.eqb_eq in Hy. rewrite Hy, Hne. simpl.
  split; [done|]. split; [done|].
  destruct resp; [by apply elem_of_nil in Hin|done].
Qed.

Section RaisingRun.
Variables (r inst tb : string) (gen : list (bool * item)) (e : string).
Hypothesis Hquiet : quiet gen.

Lemma error_main_step (st : error_stage) (w : world) :
  error_stage_facts r tb gen e st w ->
  exists st' w',
    step (error_stage_prog r inst tb gen e st) w
    = (w', error_stage_prog r inst tb gen e st')
    /\ error_stage_facts r tb gen e st' w'
    /\ error_steps_needed (length gen) st'
       = pred (error_steps_needed (length gen) st).
Proof.
  intros (Hp & Hh & Hin & Hk & Hrows & Hx).
  destruct st as [| |rest| | |all| | | |].
  - exists ErrActiveKey. eexists. split; [reflexivity|].
    split; [done|simpl; lia].
  - exists (ErrItem gen). eexists. split; [reflexivity|].
    split; [|simpl; lia]. unfold error_stage_facts. by simpl in *.
  - destruct rest as [|[stop it] rest].
    + exists ErrNotify,
        (redis_rpush (response_list_key r) (error_response e) w).1.
      split; [reflexivity|]. split; [|simpl; lia].
      unfold error_stage_facts. rewrite response_list_rpush.
      split; [done|]. split; [done|].
      split; [apply elem_of_app; right; by apply list_elem_of_singleton|].
      done.
    + destruct Hx as [Hq Hlen]. apply Forall_cons in Hq as [[Hstop Hterm] Hq].
      simpl in Hstop, Hterm. subst stop.
      exists (ErrItem rest). eexists. split.
      { simpl. unfold loop_body. rewrite Hterm. reflexivity. }
      split; [|simpl; lia].
      unfold error_stage_facts, create_task. simpl in *.
      split.
      { rewrite !Forall_app. split; [split; [done|]|];
          by apply Forall_singleton. }
      split; [done|]. split; [done|]. split; [done|]. split; [done|].
      split; [done|lia].
  - exists ErrSnapshot, (redis_publish (response_channel r) "new" w).1.
    split; [reflexivity|]. split; [|simpl; lia].
    unfold error_stage_facts. rewrite heard_publish.
    rewrite decide_False by apply channels_differ.
    rewrite app_nil_r. done.
  - exists (ErrUpdate (redis_lrange (response_list_key r) 0 w).2). eexists.
    split; [reflexivity|]. split; [|simpl; lia].
    unfold error_stage_facts. simpl.
    split; [done|]. split; [done|]. split; [done|]. split; [done|].
    split; [done|]. unfold response_list in Hin. by rewrite drop_0.
  - exists ErrVerify. eexists. split.
    { simpl. unfold row_known in Hk. rewrite Hk. reflexivity. }
    split; [|simpl; lia].
    unfold error_stage_facts. simpl in *.
    split; [done|]. split; [done|]. split; [done|].
    split; [by apply row_known_update|].
    split; [|done].
    apply (rows_failed_update r _ _ _ _ w);
      [apply stored_error_not_empty|done].
  - exists ErrSignal. eexists. split; [reflexivity|].
    split; [done|simpl; lia].
  - exists ErrFinalStatus,
      (redis_publish (global_control_channel r) "ERROR" w).1.
    split; [reflexivity|]. split; [|simpl; lia].
    unfold error_stage_facts. rewrite heard_publish.
    rewrite decide_True by done. rewrite Hh. done.
  - exists ErrEnd. eexists. split; [reflexivity|].
    split; [|simpl; lia].
    unfold error_stage_facts. simpl.
    split; [done|]. split; [done|]. split; [done|]. split; [done|].
    split; [done|]. by rewrite lookup_insert_eq.
  - exists ErrEnd. eexists. split; [reflexivity|]. split; [done|simpl; lia].
Qed.

Lemma error_complete_keeps (st : error_stage) (w : world) (i : nat) :
  error_stage_facts r tb gen e st w ->
  error_stage_facts r tb gen e st (complete i w).
Proof.
  intros (Hp & Hh & Hin & Hk & Hrows & Hx).
  unfold complete. destruct (pending w !! i) as [op|] eqn:E; [|done].
  pose proof (proj1 (Forall_lookup _ _) Hp i op E) as Hop.
  assert (Hdel : Forall (loop_op r) (delete i (pending w)))
    by by apply Forall_delete.
  unfold error_stage_facts.
  destruct op as [k it|c d]; simpl in Hop; subst; cbn [apply_op].
  - rewrite response_list_rpush.
    split; [done|]. split; [done|].
    split; [destruct st; try done; apply elem_of_app; by left|].
    done.
  - rewrite heard_publish.
    rewrite decide_False by apply channels_differ.
    rewrite app_nil_r. done.
Qed.

Lemma error_sched (cs : list choice) (w : world) (st : error_stage) :
  error_stage_facts r tb gen e st w ->
  exists st',
    (exec_sched cs w (error_stage_prog r inst tb gen e st)).2
    = error_stage_prog r inst tb gen e st'
    /\ error_stage_facts r tb gen e st'
         (exec_sched cs w (error_stage_prog r inst tb gen e st)).1.
Proof.
  revert w st. induction cs as [|[|i] cs IH]; intros w st Hf.
  - by exists st.
  - simpl. destruct (error_main_step st w Hf) as (st' & w' & -> & Hf' & _).
    by apply IH.
  - simpl. apply IH. by apply error_complete_keeps.
Qed.

Lemma error_main_finishes (k : nat) (st : error_stage) (w : world) :
  error_stage_facts r tb gen e st w ->
  (error_steps_needed (length gen) st <= k)%nat ->
  exists w', exec_sched (repeat Main k) w (error_stage_prog r inst tb gen e st)
             = (w', Ret "failed").
Proof.
  revert st w. induction k as [|k IH]; intros st w Hf Hk.
  - destruct st; simpl in Hk; try lia. by exists w.
  - simpl. destruct (error_main_step st w Hf) as (st' & w' & -> & Hf' & Hm).
    apply IH; [done|lia].
Qed.

End RaisingRun.

(** X13. A run whose generator raises after any number of ordinary
    items, under every schedule of the executor and of the commands it
    has spawned, from a store that knows the run and has nothing of it
    in flight: the control channel hears nothing but one ERROR; once
    the executor is done it has returned [failed], the item
    [{type: status, status: error, message: <exception text>}] is in the
    response list, every row of the run is [failed], holds that item
    among its responses and holds as its error the exception text, a
    line feed and the traceback (which is never empty, so the column is
    always written), and the task status key holds [failed]; the
    executor is done after [length gen + 9] steps of its own. *)
Theorem raising_run_outcome (id inst tb : string) (gen : list (bool * item))
        (e : string) (w0 : world) :
  quiet gen ->
  row_known id w0 ->
  pending w0 = [] ->
  heard (global_control_channel id) w0 = [] ->
  (forall cs w' p',
      exec_sched cs w0 (execute id inst tb gen (Some e)) = (w', p') ->
      (heard (global_control_channel id) w' = []
       \/ heard (global_control_channel id) w' = ["ERROR"])
      /\ (forall res, finished p' = Some res ->
          res = Returned "failed"
          /\ {| type := Some "status"; status := Some "error";
                message := Some e; body := "" |} ∈ response_list id w'
          /\ Forall (fun r =>
                       run_status r = "failed"
                       /\ error r = Some (e +:+ newline +:+ tb)
                       /\ {| type := Some "status"; status := Some "error";
                             message := Some e; body := "" |} ∈ responses r)
                    (run_rows id w')
          /\ heard (global_control_channel id) w' = ["ERROR"]
          /\ kv w' !! task_status_key id
             = Some ("failed", REDIS_RESPONSE_LIST_TTL)))
  /\ (exists w',
        exec_sched (repeat Main (length gen + 9)) w0
                   (execute id inst tb gen (Some e)) = (w', Ret "failed")).
Proof.
  intros Hquiet Hk Hp Hh.
  assert (Hf : error_stage_facts id tb gen e ErrTaskStatus w0).
  { unfold error_stage_facts. rewrite Hp, Hh. done. }
  split.
  - intros cs w' p' Hrun.
    destruct (error_sched id inst tb gen e Hquiet cs w0 ErrTaskStatus Hf)
      as (st & Hprog & Hfacts).
    change (error_stage_prog id inst tb gen e ErrTaskStatus)
      with (execute id inst tb gen (Some e)) in Hprog, Hfacts.
    rewrite Hrun in Hprog, Hfacts. simpl in Hprog, Hfacts. subst p'.
    destruct Hfacts as (_ & Hh' & Hin & _ & Hrows & Hx).
    split; [rewrite Hh'; destruct st; auto|].
    intros res Hfin. destruct st; simpl in Hfin; try discriminate.
    + destruct rest as [|[stop it] rest]; discriminate.
    + by injection Hfin as <-.
  - apply (error_main_finishes id inst tb gen e Hquiet (length gen + 9)
             ErrTaskStatus w0 Hf). simpl. lia.
Qed.

Lemma raising_run_outcome_witness :
  (forall cs w' p',
      exec_sched cs (world_with_run "r1" "t1" "running")
        (execute "r1" "3f9c2a71" example_traceback [(false, chunk "a")]
           (Some "llm timeout")) = (w', p') ->
      (heard (global_control_channel "r1") w' = []
       \/ heard (global_control_channel "r1") w' = ["ERROR"])
      /\ (forall res, finished p' = Some res ->
          res = Returned "failed"
          /\ {| type := Some "status"; status := Some "error";
                message := Some "llm timeout"; body := "" |}
             ∈ response_list "r1" w'
          /\ Forall (fun r =>
                       run_status r = "failed"
                       /\ error r
                          = Some ("llm timeout" +:+ newline
                                    +:+ example_traceback)
                       /\ {| type := Some "status"; status := Some "error";
                             message := Some "llm timeout"; body := "" |}
                          ∈ responses r)
                    (run_rows "r1" w')
          /\ heard (global_control_channel "r1") w' = ["ERROR"]
          /\ kv w' !! task_status_key "r1"
             = Some ("failed", REDIS_RESPONSE_LIST_TTL)))
  /\ (exists w',
        exec_sched (repeat Main (length [(false, chunk "a")] + 9))
                   (world_with_run "r1" "t1" "running")
                   (execute "r1" "3f9c2a71" example_traceback
                      [(false, chunk "a")] (Some "llm timeout"))
        = (w', Ret "failed")).
Proof.
  apply (raising_run_outcome "r1" "3f9c2a71" example_traceback
           [(false, chunk "a")] "llm timeout"
           (world_with_run "r1" "t1" "running")).
  - repeat constructor.
  - reflexivity.
  - reflexivity.
  - reflexivity.
Defined.

End ExecutorEndingsFacts.

(** * Further properties of the run lock *)

Module LockUpkeepFacts.
Import Store RunLock Executor LockUpkeep RunLockFacts.

Local Arguments run_lock_key : simpl never.
Local Arguments instance_active_key : simpl never.

Lemma run_await_bind_lock {R A} (op : world -> world * R)
      (k : R -> RunLock.task A) (w : world) :
  run (bind (await op) k) w = run (k (op w).2) (op w).1.
Proof. simpl. by destruct (op w). Qed.

Lemma split_colon_none (s : string) :
  no_colon s = true -> split_colon s = None.
Proof.
  induction s as [|c s IH]; simpl; [done|].
  destruct (Ascii.eqb c ":"); simpl; [done|]. intros H. by rewrite IH.
Qed.


Lemma lock_value_not_empty (inst t : string) :
  String.eqb (inst +:+ ":" +:+ t) "" = false.
Proof. by destruct inst. Qed.

Lemma py_str_no_colon (z : Z) : no_colon (py_str z) = true.
Proof. apply int_no_colon. Qed.





(** *** The clean-up after a run *)

Lemma prefix_split (p s : string) :
  String.prefix p s = true -> exists r, s = p +:+ r.
Proof.
  revert s. induction p as [|c p IH]; intros s; simpl.
  - by exists s.
  - destruct s as [|c' s]; simpl; [done|].
    destruct (Ascii.ascii_dec c c') as [->|]; [|done].
    intros H. destruct (IH _ H) as [r ->]. by exists r.
Qed.

Lemma prefix_single (inst t : string) :
  no_colon inst = true ->
  String.prefix (worker_instance_id +:+ ":") (inst +:+ ":" +:+ t)
  = String.eqb inst "single".
Proof.
  intros Hinst. destruct (String.eqb_spec inst "single") as [->|Hne].
  - simpl. repeat (destruct (Ascii.ascii_dec _ _); [|done]).
    by destruct t.
  - destruct (String.prefix _ _) eqn:Hp; [|done].
    apply prefix_split in Hp as [r Hr].
    assert (H : split_colon (inst +:+ ":" +:+ t) = Some ("single", r))
      by (by rewrite Hr).
    rewrite (split_colon_no_colon inst t Hinst) in H. congruence.
Qed.

Lemma active_key_inj (inst inst' id id' : string) :
  no_colon inst = true -> no_colon inst' = true ->
  instance_active_key inst id = instance_active_key inst' id' ->
  inst = inst'.
Proof.
  unfold instance_active_key. intros H H' E.
  apply ExecutorFacts.app_inv_prefix in E.
  assert (S : split_colon (inst +:+ ":" +:+ id)
              = split_colon (inst' +:+ ":" +:+ id')) by (by rewrite E).
  rewrite !split_colon_no_colon in S by done. congruence.
Qed.

(** X15. The clean-up at the end of a run looks for keys written under
    the worker module's own instance id, [single], while the lock value
    and the active key are written under the instance id the run was
    dispatched with. For a dispatch under [single] both keys are
    removed; under any other (colon-free) instance id
    [_cleanup_redis_run_lock] leaves the store as it was, the lock
    included, and [_cleanup_redis_instance_key] leaves the run's active
    key. *)
Theorem cleanup_only_under_single (d : delivery) (w : world) (ttl : Z) :
  no_colon (instance_id d) = true ->
  kv w !! run_lock_key (agent_run_id d) = Some (lock_value d, ttl) ->
  exists w1 w2,
    run (_cleanup_redis_run_lock (agent_run_id d)) w = (w1, Returned tt)
    /\ run (_cleanup_redis_instance_key (agent_run_id d)) w
       = (w2, Returned tt)
    /\ (instance_id d = "single" ->
        kv w1 !! run_lock_key (agent_run_id d) = None
        /\ kv w2 !! instance_active_key (instance_id d) (agent_run_id d)
           = None)
    /\ (instance_id d <> "single" ->
        w1 = w
        /\ kv w2 !! instance_active_key (instance_id d) (agent_run_id d)
           = kv w !! instance_active_key (instance_id d) (agent_run_id d)).
Proof.
  intros Hinst Hheld.
  unfold _cleanup_redis_run_lock, _cleanup_redis_instance_key.
  rewrite !run_await_bind_lock. unfold redis_eval_cleanup. rewrite Hheld.
  unfold lock_value. rewrite (prefix_single _ _ Hinst).
  change (String.eqb worker_instance_id "") with false. cbn iota.
  rewrite run_await_bind_lock.
  destruct (String.eqb_spec (instance_id d) "single") as [E|E];
    eexists _, _; (split; [reflexivity|]); (split; [reflexivity|]);
    (split; intros E'; [|]); try done; simpl.
  - rewrite E. split; by rewrite lookup_delete_eq.
  - split; [done|]. rewrite lookup_delete_ne; [done|].
    intros Hk. apply (active_key_inj "single") in Hk; [|done|done].
    by symmetry in Hk.
Qed.

Lemma cleanup_only_under_single_witness :
  exists w1 w2,
    run (_cleanup_redis_run_lock (agent_run_id first_delivery))
        (with_kv <[run_lock_key "r5" := (lock_value first_delivery, 86400)]>
                 empty_world) = (w1, Returned tt)
    /\ run (_cleanup_redis_instance_key (agent_run_id first_delivery))
           (with_kv <[run_lock_key "r5" := (lock_value first_delivery, 86400)]>
                    empty_world) = (w2, Returned tt)
    /\ (instance_id first_delivery = "single" ->
        kv w1 !! run_lock_key (agent_run_id first_delivery) = None
        /\ kv w2 !! instance_active_key (instance_id first_delivery)
                      (agent_run_id first_delivery) = None)
    /\ (instance_id first_delivery <> "single" ->
        w1 = with_kv <[run_lock_key "r5"
                       := (lock_value first_delivery, 86400)]> empty_world
        /\ kv w2 !! instance_active_key (instance_id first_delivery)
                      (agent_run_id first_delivery)
           = kv (with_kv <[run_lock_key "r5"
                           := (lock_value first_delivery, 86400)]>
                         empty_world)
               !! instance_active_key (instance_id first_delivery)
                    (agent_run_id first_delivery)).
Proof.
  apply (cleanup_only_under_single first_delivery
           (with_kv <[run_lock_key "r5" := (lock_value first_delivery, 86400)]>
                    empty_world) 86400).
  - reflexivity.
  - vm_compute; reflexivity.
Defined.

(** *** The upkeep task *)

Lemma stale_keys_spec (max now : Z) (w : world) (j : string) :
  j ∈ (filter (fun kv => stale_lock max now kv.2 = true)
         (map (fun k => (k, fst <$> kv w !! k))
            (filter (fun k => is_lock_key k = true)
                    (map_to_list (kv w)).*1))).*1
  <-> is_lock_key j = true /\ stale_lock max now (fst <$> kv w !! j) = true.
Proof.
  split.
  - intros H. apply list_elem_of_fmap in H as ([k v] & -> & H).
    apply list_elem_of_filter in H as [Hst H]. simpl in *.
    apply list_elem_of_fmap in H as (k' & [= <- ->] & H).
    apply list_elem_of_filter in H as [Hk _]. done.
  - intros [Hk Hst]. apply list_elem_of_fmap.
    exists (j, fst <$> kv w !! j). split; [done|].
    apply list_elem_of_filter. split; [done|].
    apply list_elem_of_fmap. exists j. split; [done|].
    apply list_elem_of_filter. split; [done|].
    destruct (kv w !! j) as [x|] eqn:Hj; [|done].
    apply list_elem_of_fmap. exists (j, x). split; [done|].
    by apply elem_of_map_to_list.
Qed.

(** [cleanup_stale_locks] run alone: what it leaves of each key. *)
Lemma cleanup_stale_locks_run (max now : Z) (w : world) :
  exists w' n,
    run (cleanup_stale_locks max now) w = (w', Returned n)
    /\ (forall j, kv w' !! j
                  = if is_lock_key j
                       && stale_lock max now (fst <$> kv w !! j)
                    then None else kv w !! j)
    /\ lists w' = lists w /\ published w' = published w
    /\ pending w' = pending w /\ agent_runs w' = agent_runs w
    /\ monitor_events w' = monitor_events w.
Proof.
  unfold cleanup_stale_locks. rewrite run_await_bind_lock.
  pose proof (stale_keys_spec max now w) as Hspec.
  unfold redis_scan_locks. cbn [fst snd].
  destruct (filter (fun k => is_lock_key k = true) (map_to_list (kv w)).*1)
    as [|k0 keys] eqn:Hkeys.
  { exists w, 0%nat. split; [done|]. split; [|done].
    intros j. destruct (is_lock_key j && _) eqn:E; [|done].
    apply andb_prop in E. apply Hspec in E. simpl in E.
    by apply elem_of_nil in E. }
  rewrite run_await_bind_lock. unfold redis_get_all. cbn [fst snd].
  destruct ((filter (fun kv => stale_lock max now kv.2 = true)
               (map (fun k => (k, fst <$> kv w !! k)) (k0 :: keys))).*1)
    as [|s0 stale] eqn:Hstale.
  { exists w, 0%nat. split; [done|]. split; [|done].
    intros j. destruct (is_lock_key j && _) eqn:E; [|done].
    apply andb_prop in E. apply Hspec in E.
    by apply elem_of_nil in E. }
  rewrite run_await_bind_lock. eexists _, _. split; [reflexivity|].
  split; [|done]. intros j.
  change (kv (redis_delete_all (s0 :: stale) w).1)
    with (foldr delete (kv w) (s0 :: stale)).
  destruct (is_lock_key j && _) eqn:E.
  - apply andb_prop in E. apply Hspec in E.
    by apply lookup_foldr_delete.
  - apply lookup_foldr_delete_not_elem_of. intros Hin.
    apply Hspec in Hin as [H1 H2]. by rewrite H1, H2 in E.
Qed.

Lemma is_lock_key_run_lock (id : string) : is_lock_key (run_lock_key id) = true.
Proof.
  unfold is_lock_key, run_lock_key. simpl.
  repeat (destruct (Ascii.ascii_dec _ _); [|done]). by destruct id.
Qed.

Lemma stale_lock_value (max now : Z) (d : delivery) :
  no_colon (instance_id d) = true ->
  stale_lock max now (Some (lock_value d)) = (now - lock_time d >? max).
Proof.
  intros Hinst. unfold stale_lock, lock_value, second_part.
  rewrite lock_value_not_empty, (split_colon_no_colon _ _ Hinst).
  rewrite (split_colon_none _ (py_str_no_colon _)).
  by rewrite py_int_py_str.
Qed.

Lemma stale_lock_no_colon (max now : Z) (v : string) :
  no_colon v = true -> stale_lock max now (Some v) = false.
Proof.
  intros H. unfold stale_lock, second_part.
  rewrite (split_colon_none _ H). by destruct (String.eqb v "").
Qed.

(** X16. The upkeep task removes a run lock by the age of its
    timestamp alone: a lock written by a worker (under a colon-free
    instance id) is deleted when it is more than [max_lock_age] seconds
    old and kept otherwise, whether or not its run has ended. A value
    without a colon is never removed; keys outside [agent_run_lock:*]
    and the rest of the store are untouched. *)
Theorem stale_lock_cleanup_by_age (max now : Z) (w : world) :
  exists w' n,
    run (cleanup_stale_locks max now) w = (w', Returned n)
    /\ (forall k, is_lock_key k = false -> kv w' !! k = kv w !! k)
    /\ (forall d ttl,
        no_colon (instance_id d) = true ->
        kv w !! run_lock_key (agent_run_id d) = Some (lock_value d, ttl) ->
        kv w' !! run_lock_key (agent_run_id d)
        = if now - lock_time d >? max then None
          else Some (lock_value d, ttl))
    /\ (forall k v ttl,
        kv w !! k = Some (v, ttl) -> no_colon v = true ->
        kv w' !! k = Some (v, ttl))
    /\ lists w' = lists w /\ published w' = published w
    /\ agent_runs w' = agent_runs w.
Proof.
  destruct (cleanup_stale_locks_run max now w)
    as (w' & n & Hrun & Hkv & Hl & Hp & _ & Hr & _).
  exists w', n. split; [done|].
  split. { intros k Hk. by rewrite Hkv, Hk. }
  split.
  { intros d ttl Hinst Hheld.
    rewrite Hkv, is_lock_key_run_lock, Hheld.
    change (fst <$> Some (lock_value d, ttl)) with (Some (lock_value d)).
    rewrite (stale_lock_value _ _ _ Hinst). by rewrite andb_true_l. }
  split; [|done].
  intros k v ttl Hk Hv. rewrite Hkv, Hk.
  change (fst <$> Some (v, ttl)) with (Some v).
  by rewrite (stale_lock_no_colon _ _ _ Hv), andb_false_r.
Qed.

(** A worker that finds no lock takes it. *)
Lemma acquire_lock_free (d : delivery) (w : world) :
  kv w !! run_lock_key (agent_run_id d) = None ->
  exists w',
    run (acquire_run_lock d) w = (w', Returned true)
    /\ kv w' !! run_lock_key (agent_run_id d)
       = Some (lock_value d, REDIS_KEY_TTL).
Proof.
  intros Hfree. unfold acquire_run_lock, monitored_lock, redis_set_nx.
  simpl. rewrite Hfree. simpl. eexists. split; [reflexivity|]. simpl.
  rewrite lookup_insert_ne by apply event_key_ne.
  by rewrite lookup_insert_eq.
Qed.

(** X17. A run that lasts longer than the upkeep task's age limit
    (300 seconds) loses its lock while it is still executing: a second
    delivery of the same run, which is refused as long as the lock is
    there, acquires the lock after the upkeep task has passed and goes
    on to execute the run a second time. *)
Theorem expired_lock_admits_second_delivery (a b : delivery) (now : Z)
        (w : world) (ttl : Z) :
  agent_run_id b = agent_run_id a ->
  no_colon (instance_id a) = true ->
  kv w !! run_lock_key (agent_run_id a) = Some (lock_value a, ttl) ->
  now - lock_time a > MAX_LOCK_AGE ->
  current_time b - lock_time a <= REDIS_KEY_TTL / 2 ->
  (run (acquire_run_lock b) w).2 = Returned false
  /\ exists w1 n w2,
      run (cleanup_stale_locks MAX_LOCK_AGE now) w = (w1, Returned n)
      /\ run (acquire_run_lock b) w1 = (w2, Returned true)
      /\ kv w2 !! run_lock_key (agent_run_id a)
         = Some (lock_value b, REDIS_KEY_TTL).
Proof.
  intros Hid Hinst Hheld Hold Hfresh. split.
  - rewrite <- Hid in Hheld.
    rewrite (acquire_lock_held b w _ ttl Hheld).
    unfold lock_value at 1. by rewrite (fresh_lock_not_stale b _ _ Hfresh).
  - destruct (cleanup_stale_locks_run MAX_LOCK_AGE now w)
      as (w1 & n & Hrun & Hkv & _).
    assert (Hgone : kv w1 !! run_lock_key (agent_run_id b) = None).
    { rewrite Hid, Hkv, is_lock_key_run_lock, Hheld.
      change (fst <$> Some (lock_value a, ttl)) with (Some (lock_value a)).
      rewrite (stale_lock_value _ _ _ Hinst), andb_true_l.
      by destruct (Z.gtb_spec (now - lock_time a) MAX_LOCK_AGE); [|lia]. }
    destruct (acquire_lock_free b w1 Hgone) as (w2 & Hacq & Hlock).
    exists w1, n, w2. by rewrite <- Hid.
Qed.

Lemma expired_lock_admits_second_delivery_witness :
  let b := {| agent_run_id := "r5"; instance_id := "b81e04d5";
              lock_time := 1700000400; event_time_ms := 1700000400456;
              current_time := 1700000401 |} in
  let w := with_kv <[run_lock_key "r5" := (lock_value first_delivery, 86400)]>
                   empty_world in
  (run (acquire_run_lock b) w).2 = Returned false
  /\ exists w1 n w2,
      run (cleanup_stale_locks MAX_LOCK_AGE 1700000301) w = (w1, Returned n)
      /\ run (acquire_run_lock b) w1 = (w2, Returned true)
      /\ kv w2 !! run_lock_key (agent_run_id first_delivery)
         = Some (lock_value b, REDIS_KEY_TTL).
Proof.
  intros b w.
  apply (expired_lock_admits_second_delivery first_delivery b 1700000301
           w 86400).
  - reflexivity.
  - reflexivity.
  - vm_compute; reflexivity.
  - vm_compute; reflexivity.
  - vm_compute; discriminate.
Defined.

(** *** The lock over the life of a run *)





End LockUpkeepFacts.

(** * Further properties of the dispatcher *)

Module DispatcherFacts.
Import Store Executor AgentApi.

Local Arguments response_list_key : simpl never.
Local Arguments response_channel : simpl never.
Local Arguments global_control_channel : simpl never.
Local Arguments instance_active_key : simpl never.
Local Arguments task_status_key : simpl never.

Lemma run_await_bind_api {R A} (op : world -> world * R)
      (k : R -> handler A) (w : world) :
  run (bind (await op) k) w = run (k (op w).2) (op w).1.
Proof. simpl. by destruct (op w). Qed.

Lemma find_map_same {A} (f : A -> bool) (g : A -> A) (l : list A) :
  (forall x, f (g x) = f x) ->
  find f (map g l) = g <$> find f l.
Proof.
  intros Hf. induction l as [|x l IH]; [done|]. simpl.
  rewrite Hf. by destruct (f x).
Qed.

Lemma mark_stopping_id (rid : string) now (r : agent_run) :
  run_id (mark_stopping rid now r) = run_id r.
Proof. unfold mark_stopping. by destruct (String.eqb (run_id r) rid). Qed.

(** X18. Stopping a run that is [running] or [queued] succeeds once:
    STOP is published on the run's control channel, every row of the
    run becomes [stopping], rows of other runs, the Redis keys and
    lists and the queue are untouched; a second stop request, made
    before the executor has finished the run, is refused with HTTP 400
    "Cannot stop agent run with status: stopping" and changes nothing. *)
Theorem stop_active_run_once (g : collaborators) (rid : string) (w : world)
        (row : agent_run) :
  thread_access g = None ->
  find (fun r => String.eqb (run_id r) rid) (agent_runs w) = Some row ->
  in_list (run_status row) ["running"; "queued"] = true ->
  exists w',
    run (stop_agent g rid) w = (w', Returned (rid, "stopping"))
    /\ published w' = published w ++ [(global_control_channel rid, "STOP")]
    /\ Forall (fun r => run_status r = "stopping") (run_rows rid w')
    /\ length (agent_runs w') = length (agent_runs w)
    /\ (forall i r, agent_runs w !! i = Some r -> run_id r <> rid ->
        agent_runs w' !! i = Some r)
    /\ kv w' = kv w /\ lists w' = lists w /\ queue w' = queue w
    /\ run (stop_agent g rid) w'
       = (w', Raised (HTTPException 400
                        "Cannot stop agent run with status: stopping")).
Proof.
  intros Hacc Hrow Hactive.
  unfold stop_agent, get_agent_run_with_access_check. cbn -[in_list].
  rewrite Hrow, Hacc. cbn -[in_list]. rewrite Hactive. cbn -[in_list].
  eexists. split; [reflexivity|]. cbn -[in_list].
  split; [done|].
  split.
  { unfold run_rows. simpl. apply Forall_forall. intros x Hx.
    apply list_elem_of_filter in Hx as [Hid Hx].
    apply list_elem_of_fmap in Hx as (y & -> & _).
    rewrite mark_stopping_id in Hid. unfold mark_stopping.
    apply String.eqb_eq in Hid. by rewrite Hid. }
  split; [by rewrite length_map|].
  split.
  { intros i r Hi Hne. rewrite list_lookup_fmap, Hi. simpl.
    unfold mark_stopping. apply String.eqb_neq in Hne. by rewrite Hne. }
  split; [done|]. split; [done|]. split; [done|].
  rewrite (find_map_same _ (mark_stopping rid (clock w)))
    by (intros x; by rewrite mark_stopping_id).
  rewrite Hrow. cbn -[in_list mark_stopping].
  apply find_some in Hrow as [_ Hid]. unfold mark_stopping. by rewrite Hid.
Qed.

Lemma stop_active_run_once_witness :
  exists w',
    run (stop_agent all_willing "r3") (project_world "running")
    = (w', Returned ("r3", "stopping"))
    /\ published w'
       = published (project_world "running")
         ++ [(global_control_channel "r3", "STOP")]
    /\ Forall (fun r => run_status r = "stopping") (run_rows "r3" w')
    /\ length (agent_runs w') = length (agent_runs (project_world "running"))
    /\ (forall i r, agent_runs (project_world "running") !! i = Some r ->
        run_id r <> "r3" -> agent_runs w' !! i = Some r)
    /\ kv w' = kv (project_world "running")
    /\ lists w' = lists (project_world "running")
    /\ queue w' = queue (project_world "running")
    /\ run (stop_agent all_willing "r3") w'
       = (w', Raised (HTTPException 400
                        "Cannot stop agent run with status: stopping")).
Proof.
  apply (stop_active_run_once all_willing "r3" (project_world "running")
           (run_row "r3" "t3" "running")).
  - reflexivity.
  - vm_compute; reflexivity.
  - vm_compute; reflexivity.
Defined.

(** *** What a refused start leaves behind *)

Lemma quota_precheck_pure (g : collaborators) (w : world) :
  run (quota_precheck g) w = (w, Returned tt)
  \/ run (quota_precheck g) w
     = (w, Raised (HTTPException 402 "insufficient_credits")).
Proof.
  unfold quota_precheck. destruct (token_status g) as [[[p t] c]|]; [|by left].
  destruct (negb _ && _); [by right|by left].
Qed.

Lemma billing_checks_pure (g : collaborators) (w : world) :
  run (billing_checks g) w = (w, Returned tt)
  \/ exists c d, c <> 500
                 /\ run (billing_checks g) w = (w, Raised (HTTPException c d)).
Proof.
  unfold billing_checks. destruct (can_use g); simpl.
  - destruct (can_run g); simpl; [by left|].
    right. exists 402, "billing". by split.
  - right. exists 403, "model not allowed". by split.
Qed.

Lemma start_project_sandbox_outcome (g : collaborators) (pid : string)
      (w : world) :
  run (start_project_sandbox g pid) w = (w, Returned tt)
  \/ exists d, run (start_project_sandbox g pid) w
               = (w, Raised (HTTPException 500 d)).
Proof.
  unfold start_project_sandbox. rewrite run_try_except. simpl.
  destruct (find _ (projects w)) as [p|]; simpl; [|right; by eexists].
  destruct (sandbox_id p); simpl; [|right; by eexists].
  destruct (sandbox_failure g); simpl; [right; by eexists|by left].
Qed.

Lemma register_and_enqueue_outcome (g : collaborators) (q : queue_item)
      (w : world) :
  exists w', (run (register_and_enqueue g q) w).1 = w'
    /\ ((run (register_and_enqueue g q) w).2 = Returned tt
        \/ exists d, (run (register_and_enqueue g q) w).2
                     = Raised (HTTPException 500 d)).
Proof.
  unfold register_and_enqueue. rewrite run_await_bind_api.
  eexists. split; [reflexivity|].
  destruct (enqueue_failure g); simpl; [right; by eexists|by left].
Qed.

(** X19. [start_agent] answers every error it raises after its checks
    with HTTP 500: whenever the request is refused with another status
    code (the access check, 404 for the thread, 402 for the quota, 403
    for the model, 402 for billing), nothing has been written: no run
    row, no Redis key, no message published, nothing queued. *)
Theorem start_agent_refusal_writes_nothing (cfg : config)
        (instance_id : option string) (g : collaborators) (tid : string)
        (body : start_request) (w w' : world) (code : Z) (detail : string) :
  run (start_agent cfg instance_id g tid body) w
  = (w', Raised (HTTPException code detail)) ->
  code <> 500 ->
  w' = w.
Proof.
  unfold start_agent. destruct instance_id as [inst|]; [|by intros [= <- <-]].
  destruct (thread_access g) as [e|]; [by intros [= <- _]|].
  rewrite run_await_bind_api. unfold db_select_thread. cbn [fst snd].
  destruct (find _ (threads w)) as [th|]; [|by intros [= <- _]].
  rewrite run_bind.
  destruct (quota_precheck_pure g w) as [->| ->]; [|by intros [= <- _]].
  rewrite run_bind.
  destruct (billing_checks_pure g w) as [->|(c & d & Hc & ->)];
    [|by intros [= <- _]].
  rewrite run_await_bind_api. cbn [check_for_active_project_agent_run fst snd].
  rewrite run_bind.
  set (stop := match _ <$> head _ with Some rid => _ | None => _ end).
  assert (Hstop : exists w1, run stop w = (w1, Returned tt)).
  { unfold stop. destruct (_ <$> head _); simpl; by eexists. }
  destruct Hstop as [w1 ->].
  rewrite run_bind.
  destruct (start_project_sandbox_outcome g (thread_project_id th) w1)
    as [->|[d ->]]; [|by intros [= _ <-]].
  rewrite run_await_bind_api. rewrite run_bind.
  match goal with
  | |- context [run (register_and_enqueue g ?q) ?w0] =>
      destruct (register_and_enqueue_outcome g q w0) as (w2 & Hw & [Ho|[d Ho]]);
      destruct (run (register_and_enqueue g q) w0) as [w3 o]; simpl in *;
      subst
  end.
  - by intros [= _].
  - by intros [= _ <-].
Qed.

Lemma start_agent_refusal_writes_nothing_witness :
  run (start_agent example_config (Some "3f9c2a71") all_willing "t-unknown"
         (start_body "web")) (project_world "running")
  = (project_world "running", Raised (HTTPException 404 "Thread not found"))
  /\ project_world "running" = project_world "running".
Proof.
  split; [vm_compute; reflexivity|].
  apply (start_agent_refusal_writes_nothing example_config (Some "3f9c2a71")
           all_willing "t-unknown" (start_body "web")
           (project_world "running") (project_world "running")
           404 "Thread not found").
  - vm_compute; reflexivity.
  - discriminate.
Defined.

(** X20. When [start_agent] finds an active run of the project and then
    fails to start the project's sandbox, the active run has already
    been told to stop: STOP is on its control channel, and that is the
    only change. No new run is created, nothing is queued, and the
    request is answered with HTTP 500. *)
Theorem start_agent_sandbox_failure_after_stop (cfg : config) (inst : string)
        (g : collaborators) (tid : string) (body : start_request)
        (w : world) (th : thread) (active : agent_run) (e : string) :
  thread_access g = None ->
  find (fun t => String.eqb (thread_id t) tid) (threads w) = Some th ->
  quota_precheck g = Ret tt ->
  billing_checks g = Ret tt ->
  head (active_runs (thread_project_id th) w) = Some active ->
  sandbox_failure g = Some e ->
  exists d,
    run (start_agent cfg (Some inst) g tid body) w
    = (with_published
         (fun l => l ++ [(global_control_channel (run_id active), "STOP")]) w,
       Raised (HTTPException 500 d)).
Proof.
  intros Hacc Hth Hq Hb Hactive Hfail.
  unfold start_agent. rewrite Hacc, Hq, Hb.
  rewrite run_await_bind_api. unfold db_select_thread. cbn [fst snd].
  rewrite Hth. cbn [bind].
  rewrite run_await_bind_api. cbn [check_for_active_project_agent_run fst snd].
  rewrite Hactive. cbn [fmap option_fmap option_map].
  rewrite run_bind. unfold stop_agent_run.
  rewrite run_bind, run_await_bind_api. cbn [run redis_publish fst snd].
  rewrite run_bind.
  match goal with
  | |- context [run (start_project_sandbox g ?pid) ?w0] =>
      assert (Hs : exists d, run (start_project_sandbox g pid) w0
                             = (w0, Raised (HTTPException 500 d)))
  end.
  { unfold start_project_sandbox. rewrite run_try_except. simpl.
    destruct (find _ (projects w)) as [p|]; simpl; [|by eexists].
    destruct (sandbox_id p); simpl; [|by eexists].
    rewrite Hfail. simpl. by eexists. }
  destruct Hs as [d ->]. by exists d.
Qed.

Lemma start_agent_sandbox_failure_after_stop_witness :
  let g := {| account := Some "acc-1"; thread_access := None;
              token_status := Some ("pro", 750000, 150);
              can_use := true; can_run := true;
              sandbox_failure := Some "sandbox provider is down";
              enqueue_failure := None;
              new_run_id := "r4"; new_request_id := "req-1";
              new_project_id := "p9"; new_thread_id := "t9";
              new_message_id := "m9"; new_sandbox_id := "sb9" |} in
  exists d,
    run (start_agent example_config (Some "3f9c2a71") g "t3"
           (start_body "web")) (project_world "running")
    = (with_published
         (fun l => l ++ [(global_control_channel
                            (run_id (run_row "r3" "t3" "running")), "STOP")])
         (project_world "running"),
       Raised (HTTPException 500 d)).
Proof.
  intros g.
  apply (start_agent_sandbox_failure_after_stop example_config "3f9c2a71" g
           "t3" (start_body "web") (project_world "running")
           {| thread_id := "t3"; thread_project_id := "p1";
              thread_account_id := "acc-1";
              is_agent_builder := false; target_agent_id := None |}
           (run_row "r3" "t3" "running") "sandbox provider is down").
  - reflexivity.
  - vm_compute; reflexivity.
  - vm_compute; reflexivity.
  - vm_compute; reflexivity.
  - vm_compute; reflexivity.
  - reflexivity.
Defined.

Lemma mark_failed_other (rid err : string) now (l : list agent_run) :
  Forall (fun r => run_id r <> rid) l ->
  map (mark_failed rid err now) l = l.
Proof.
  induction 1 as [|x l Hx _ IH]; [done|]. simpl. rewrite IH.
  unfold mark_failed. apply String.eqb_neq in Hx. by rewrite Hx.
Qed.

(** X21. When the task queue refuses the new run, [start_agent] has
    already inserted its row and registered its active key: the row is
    then marked [failed] with the error "Failed to queue background
    task: ..." and a completion time, the active key stays in Redis,
    nothing is queued, rows of other runs are as before, and the
    request is answered with HTTP 500. *)
Theorem start_agent_enqueue_failure (cfg : config) (inst : string)
        (g : collaborators) (tid : string) (body : start_request)
        (w : world) (th : thread) (p : project) (sid e : string) :
  thread_access g = None ->
  find (fun t => String.eqb (thread_id t) tid) (threads w) = Some th ->
  quota_precheck g = Ret tt ->
  billing_checks g = Ret tt ->
  find (fun p => String.eqb (project_id p) (thread_project_id th))
       (projects w) = Some p ->
  sandbox_id p = Some sid ->
  sandbox_failure g = None ->
  enqueue_failure g = Some e ->
  Forall (fun r => run_id r <> new_run_id g) (agent_runs w) ->
  exists w' row,
    run (start_agent cfg (Some inst) g tid body) w
    = (w', Raised (HTTPException 500
                     ("Failed to queue background task: " +:+ e)))
    /\ agent_runs w' = agent_runs w ++ [row]
    /\ run_id row = new_run_id g
    /\ run_status row = "failed"
    /\ error row = Some ("Failed to queue background task: " +:+ e)
    /\ completed_at row = Some (clock w)
    /\ queue w' = queue w
    /\ kv w' !! instance_active_key inst (new_run_id g)
       = Some ("running", REDIS_KEY_TTL).
Proof.
  intros Hacc Hth Hq Hb Hp Hsid Hsb Henq Hfresh.
  unfold start_agent. rewrite Hacc, Hq, Hb.
  rewrite run_await_bind_api. unfold db_select_thread. cbn [fst snd].
  rewrite Hth. cbn [bind].
  rewrite run_await_bind_api. cbn [check_for_active_project_agent_run fst snd].
  rewrite run_bind.
  set (stop := match _ <$> head _ with Some rid => _ | None => _ end).
  assert (Hstop : exists w1, run stop w = (w1, Returned tt)
                             /\ projects w1 = projects w
                             /\ agent_runs w1 = agent_runs w
                             /\ queue w1 = queue w /\ clock w1 = clock w).
  { unfold stop. destruct (_ <$> head _); simpl; by eexists. }
  destruct Hstop as (w1 & -> & Hprojects & Hruns & Hqueue & Hclock).
  rewrite run_bind.
  assert (Hs : run (start_project_sandbox g (thread_project_id th)) w1
               = (w1, Returned tt)).
  { unfold start_project_sandbox. rewrite run_try_except. simpl.
    rewrite Hprojects, Hp. simpl. rewrite Hsid, Hsb. done. }
  rewrite Hs. rewrite run_await_bind_api, run_bind.
  unfold register_and_enqueue. rewrite run_await_bind_api, Henq.
  rewrite run_await_bind_api.
  cbn [run fst snd insert_new_run db_insert_run redis_set db_fail_run
       q_agent_run_id q_instance_id].
  eexists _, _. split; [reflexivity|].
  cbn [agent_runs queue kv with_agent_runs with_kv clock].
  rewrite Hruns, Hqueue, Hclock, map_app.
  rewrite (mark_failed_other _ _ _ _ Hfresh).
  cbn [map]. unfold mark_failed at 1. cbn [run_id new_run].
  rewrite String.eqb_refl.
  split; [reflexivity|]. cbn.
  split; [done|]. split; [done|]. split; [done|]. split; [done|].
  split; [done|]. by rewrite lookup_insert_eq.
Qed.

Lemma start_agent_enqueue_failure_witness :
  let g := {| account := Some "acc-1"; thread_access := None;
              token_status := Some ("pro", 750000, 150);
              can_use := true; can_run := true;
              sandbox_failure := None;
              enqueue_failure := Some "broker unreachable";
              new_run_id := "r4"; new_request_id := "req-1";
              new_project_id := "p9"; new_thread_id := "t9";
              new_message_id := "m9"; new_sandbox_id := "sb9" |} in
  exists w' row,
    run (start_agent example_config (Some "3f9c2a71") g "t3"
           (start_body "web")) (project_world "completed")
    = (w', Raised (HTTPException 500
                     ("Failed to queue background task: "
                        +:+ "broker unreachable")))
    /\ agent_runs w' = agent_runs (project_world "completed") ++ [row]
    /\ run_id row = new_run_id g
    /\ run_status row = "failed"
    /\ error row
       = Some ("Failed to queue background task: " +:+ "broker unreachable")
    /\ completed_at row = Some (clock (project_world "completed"))
    /\ queue w' = queue (project_world "completed")
    /\ kv w' !! instance_active_key "3f9c2a71" (new_run_id g)
       = Some ("running", REDIS_KEY_TTL).
Proof.
  intros g.
  apply (start_agent_enqueue_failure example_config "3f9c2a71" g
           "t3" (start_body "web") (project_world "completed")
           {| thread_id := "t3"; thread_project_id := "p1";
              thread_account_id := "acc-1";
              is_agent_builder := false; target_agent_id := None |}
           {| project_id := "p1"; project_account_id := "acc-1";
              project_name := "hello"; project_app_type := "web";
              sandbox_id := Some "sb1" |}
           "sb1" "broker unreachable").
  - reflexivity.
  - vm_compute; reflexivity.
  - vm_compute; reflexivity.
  - vm_compute; reflexivity.
  - vm_compute; reflexivity.
  - reflexivity.
  - reflexivity.
  - reflexivity.
  - repeat constructor. vm_compute. discriminate.
Defined.

(** *** [POST /agent/initiate] *)

Local Arguments placeholder_name : simpl never.
Local Arguments message_content_of : simpl never.
Local Arguments validate_app_type : simpl never.
Local Arguments resolve_model : simpl never.
Local Arguments snapshot_for : simpl never.

Lemma filter_all {A} (P : A -> Prop) `{!forall x, Decision (P x)}
      (l : list A) :
  Forall P l -> filter P l = l.
Proof.
  induction 1 as [|x l Hx _ IH]; [done|].
  by rewrite filter_cons, decide_True, IH.
Qed.

Lemma set_sandbox_other (pid sid : string) (l : list project) :
  Forall (fun p => project_id p <> pid) l ->
  map (set_sandbox pid sid) l = l.
Proof.
  induction 1 as [|x l Hx _ IH]; [done|]. simpl. rewrite IH.
  unfold set_sandbox. apply String.eqb_neq in Hx. by rewrite Hx.
Qed.

(** The first part of every accepted [initiate] request. *)
Lemma initiate_accepted (cfg : config) (inst : string) (g : collaborators)
      (q : initiate_request) (a : string) (w : world) :
  account g = Some a ->
  quota_precheck g = Ret tt ->
  billing_checks g = Ret tt ->
  run (initiate_agent_with_files cfg (Some inst) g q) w
  = match run (initiate_body cfg inst g a
                 (resolve_model cfg (i_model_name q))
                 (validate_app_type (i_app_type q)) q) w with
    | (w', Returned r) => (w', Returned r)
    | (w', Raised e) =>
        (w', Raised (HTTPException 500
                       ("Failed to initiate agent session: "
                          +:+ detail_of e)))
    end.
Proof.
  intros Ha Hq Hb. unfold initiate_agent_with_files.
  rewrite Ha, Hq, Hb. cbn [bind]. rewrite run_try_except.
  by destruct (run _ w) as [w' [r|e]].
Qed.

(** X22. When the sandbox cannot be created, [initiate] removes the
    project it has just inserted: with a fresh project id the store is
    exactly as before the request, and the answer is HTTP 500 "Failed
    to initiate agent session: Failed to create sandbox". *)
Theorem initiate_sandbox_failure_rolls_back (cfg : config) (inst : string)
        (g : collaborators) (q : initiate_request) (a e : string)
        (w : world) :
  account g = Some a ->
  quota_precheck g = Ret tt ->
  billing_checks g = Ret tt ->
  sandbox_failure g = Some e ->
  Forall (fun p => project_id p <> new_project_id g) (projects w) ->
  run (initiate_agent_with_files cfg (Some inst) g q) w
  = (w, Raised (HTTPException 500
                  "Failed to initiate agent session: Failed to create sandbox")).
Proof.
  intros Ha Hq Hb Hfail Hfresh.
  rewrite (initiate_accepted _ _ _ _ _ _ Ha Hq Hb).
  unfold initiate_body. cbv zeta. rewrite run_await_bind_api, Hfail.
  rewrite run_bind, run_await_bind_api.
  cbn [run fst snd db_insert_project db_delete_project].
  assert (Hsame : forall p (l : list project),
             project_id p = new_project_id g ->
             Forall (fun p => project_id p <> new_project_id g) l ->
             filter (fun p => project_id p <> new_project_id g) (l ++ [p])
             = l).
  { intros p l Hp Hl. rewrite filter_app, (filter_all _ _ Hl).
    rewrite filter_cons, decide_False by (intros H; by apply H).
    by rewrite filter_nil, app_nil_r. }
  unfold with_projects. cbn [projects].
  rewrite Hsame by done. by destruct w.
Qed.

Lemma initiate_sandbox_failure_rolls_back_witness :
  let g := {| account := Some "acc-1"; thread_access := None;
              token_status := Some ("pro", 750000, 150);
              can_use := true; can_run := true;
              sandbox_failure := Some "no capacity";
              enqueue_failure := None;
              new_run_id := "r4"; new_request_id := "req-1";
              new_project_id := "p9"; new_thread_id := "t9";
              new_message_id := "m9"; new_sandbox_id := "sb9" |} in
  run (initiate_agent_with_files example_config (Some "3f9c2a71") g
         (initiate_form "web")) (project_world "completed")
  = (project_world "completed",
     Raised (HTTPException 500
               "Failed to initiate agent session: Failed to create sandbox")).
Proof.
  intros g.
  apply (initiate_sandbox_failure_rolls_back example_config "3f9c2a71" g
           (initiate_form "web") "acc-1" "no capacity"
           (project_world "completed")).
  - reflexivity.
  - vm_compute; reflexivity.
  - vm_compute; reflexivity.
  - reflexivity.
  - repeat constructor. vm_compute. discriminate.
Defined.

(** The steps of [initiate] up to the thread, when the sandbox is
    created. *)
Lemma initiate_up_to_thread (cfg : config) (inst : string)
      (g : collaborators) (a model app : string) (q : initiate_request)
      (w : world) :
  sandbox_failure g = None ->
  Forall (fun p => project_id p <> new_project_id g) (projects w) ->
  exists w1,
    projects w1
    = projects w
      ++ [{| project_id := new_project_id g; project_account_id := a;
             project_name := placeholder_name (prompt q);
             project_app_type := app;
             sandbox_id := Some (new_sandbox_id g) |}]
    /\ sandboxes w1
       = sandboxes w ++ [(new_sandbox_id g, snapshot_for cfg app)]
    /\ threads w1
       = threads w
         ++ [{| thread_id := new_thread_id g;
                thread_project_id := new_project_id g;
                thread_account_id := a;
                is_agent_builder := i_is_agent_builder q;
                target_agent_id :=
                  if i_is_agent_builder q then i_target_agent_id q
                  else None |}]
    /\ messages w1 = messages w /\ agent_runs w1 = agent_runs w
    /\ queue w1 = queue w /\ kv w1 = kv w /\ lists w1 = lists w
    /\ published w1 = published w /\ clock w1 = clock w
    /\ run (initiate_body cfg inst g a model app q) w
       = run ((if existsb (fun f => negb (String.eqb (filename f) "")
                                    && negb (is_image f)) (files q)
               then Raise (HTTPException 400 "Only image files are allowed.")
               else Ret tt) ;;
              await (db_insert_message
                       {| message_id := new_message_id g;
                          message_thread_id := new_thread_id g;
                          message_content :=
                            message_content_of app (prompt q) (files q) |}) ;;
              await (insert_new_run (new_run_id g) (new_thread_id g) model) ;;
              register_and_enqueue g
                {| q_agent_run_id := new_run_id g;
                   q_thread_id := new_thread_id g;
                   q_instance_id := inst; q_project_id := new_project_id g;
                   q_model_name := model;
                   q_enable_thinking := i_enable_thinking q;
                   q_reasoning_effort := i_reasoning_effort q;
                   q_stream := i_stream q;
                   q_enable_context_manager := i_enable_context_manager q;
                   q_is_agent_builder := i_is_agent_builder q;
                   q_target_agent_id := i_target_agent_id q;
                   q_request_id := new_request_id g;
                   q_app_type := app |} ;;
              Ret (new_thread_id g, new_run_id g)) w1.
Proof.
  intros Hsb Hfresh. unfold initiate_body. cbv zeta.
  rewrite run_await_bind_api, Hsb.
  rewrite !run_await_bind_api.
  cbn [db_insert_project create_sandbox db_update_project_sandbox fst snd
       projects with_projects with_sandboxes].
  rewrite existsb_app. cbn [existsb project_id].
  rewrite String.eqb_refl, orb_true_r.
  cbn [bind]. rewrite run_await_bind_api.
  exists (db_insert_thread
            {| thread_id := new_thread_id g;
               thread_project_id := new_project_id g;
               thread_account_id := a;
               is_agent_builder := i_is_agent_builder q;
               target_agent_id :=
                 if i_is_agent_builder q then i_target_agent_id q
                 else None |}
            (db_update_project_sandbox (new_project_id g) (new_sandbox_id g)
               (create_sandbox (new_sandbox_id g) (snapshot_for cfg app)
                  (db_insert_project
                     {| project_id := new_project_id g;
                        project_account_id := a;
                        project_name := placeholder_name (prompt q);
                        project_app_type := app; sandbox_id := None |}
                     w).1).1).1).1.
  split.
  { cbn. rewrite map_app, (set_sandbox_other _ _ _ Hfresh). cbn.
    unfold set_sandbox. cbn. by rewrite String.eqb_refl. }
  repeat (split; [reflexivity|]). reflexivity.
Qed.

(** X23. A file that is not an image is refused only after the project,
    its sandbox and the thread have been created, and the refusal
    (HTTP 400 inside the handler) reaches the client as HTTP 500: the
    new project, sandbox and thread are left in the store, while no
    message, no run and no queue entry exist for them. *)
Theorem initiate_rejected_upload_leaves_orphans (cfg : config)
        (inst : string) (g : collaborators) (q : initiate_request)
        (a : string) (w : world) :
  account g = Some a ->
  quota_precheck g = Ret tt ->
  billing_checks g = Ret tt ->
  sandbox_failure g = None ->
  Forall (fun p => project_id p <> new_project_id g) (projects w) ->
  existsb (fun f => negb (String.eqb (filename f) "") && negb (is_image f))
          (files q) = true ->
  exists w' d p t,
    run (initiate_agent_with_files cfg (Some inst) g q) w
    = (w', Raised (HTTPException 500 d))
    /\ projects w' = projects w ++ [p]
    /\ project_id p = new_project_id g
    /\ sandbox_id p = Some (new_sandbox_id g)
    /\ sandboxes w'
       = sandboxes w
         ++ [(new_sandbox_id g,
              snapshot_for cfg (validate_app_type (i_app_type q)))]
    /\ threads w' = threads w ++ [t]
    /\ thread_id t = new_thread_id g
    /\ thread_project_id t = new_project_id g
    /\ messages w' = messages w
    /\ agent_runs w' = agent_runs w
    /\ queue w' = queue w.
Proof.
  intros Ha Hq Hb Hsb Hfresh Hfile.
  rewrite (initiate_accepted _ _ _ _ _ _ Ha Hq Hb).
  destruct (initiate_up_to_thread cfg inst g a
              (resolve_model cfg (i_model_name q))
              (validate_app_type (i_app_type q)) q w Hsb Hfresh)
    as (w1 & Hp & Hs & Ht & Hm & Hr & Hqu & _ & _ & _ & _ & ->).
  rewrite Hfile. cbn [bind run].
  eexists w1, _, _, _. split; [reflexivity|].
  split; [exact Hp|]. split; [done|]. split; [done|].
  split; [exact Hs|]. split; [exact Ht|]. done.
Qed.

Lemma initiate_rejected_upload_leaves_orphans_witness :
  let q := {| prompt := "build a hello world page"; i_model_name := None;
              i_enable_thinking := false; i_reasoning_effort := "low";
              i_stream := true; i_enable_context_manager := true;
              files := [{| filename := "notes.pdf"; is_image := false;
                           stored := true |}];
              i_is_agent_builder := false; i_target_agent_id := None;
              i_app_type := "web" |} in
  exists w' d p t,
    run (initiate_agent_with_files example_config (Some "3f9c2a71")
           all_willing q) (project_world "completed")
    = (w', Raised (HTTPException 500 d))
    /\ projects w' = projects (project_world "completed") ++ [p]
    /\ project_id p = new_project_id all_willing
    /\ sandbox_id p = Some (new_sandbox_id all_willing)
    /\ sandboxes w'
       = sandboxes (project_world "completed")
         ++ [(new_sandbox_id all_willing,
              snapshot_for example_config
                (validate_app_type (i_app_type q)))]
    /\ threads w' = threads (project_world "completed") ++ [t]
    /\ thread_id t = new_thread_id all_willing
    /\ thread_project_id t = new_project_id all_willing
    /\ messages w' = messages (project_world "completed")
    /\ agent_runs w' = agent_runs (project_world "completed")
    /\ queue w' = queue (project_world "completed").
Proof.
  intros q.
  apply (initiate_rejected_upload_leaves_orphans example_config "3f9c2a71"
           all_willing q "acc-1" (project_world "completed")).
  - reflexivity.
  - vm_compute; reflexivity.
  - vm_compute; reflexivity.
  - reflexivity.
  - repeat constructor. vm_compute. discriminate.
  - reflexivity.
Defined.

(** X24. An accepted [initiate] request whose files are all images
    creates exactly one of each: one project (holding the new sandbox),
    one sandbox from the snapshot of the validated app type, one thread
    of that project, one user message in that thread, one run of that
    thread in status [running], and one queue entry for that run,
    thread and project carrying the resolved model and the validated
    app type; the run's active key is registered, and the answer names
    the new thread and run. *)
Theorem initiate_creates_one_of_each (cfg : config) (inst : string)
        (g : collaborators) (q : initiate_request) (a : string)
        (w : world) :
  account g = Some a ->
  quota_precheck g = Ret tt ->
  billing_checks g = Ret tt ->
  sandbox_failure g = None ->
  enqueue_failure g = None ->
  Forall (fun p => project_id p <> new_project_id g) (projects w) ->
  existsb (fun f => negb (String.eqb (filename f) "") && negb (is_image f))
          (files q) = false ->
  exists w' p t m r e,
    run (initiate_agent_with_files cfg (Some inst) g q) w
    = (w', Returned (new_thread_id g, new_run_id g))
    /\ projects w' = projects w ++ [p]
    /\ project_id p = new_project_id g
    /\ project_app_type p = validate_app_type (i_app_type q)
    /\ sandbox_id p = Some (new_sandbox_id g)
    /\ sandboxes w'
       = sandboxes w
         ++ [(new_sandbox_id g,
              snapshot_for cfg (validate_app_type (i_app_type q)))]
    /\ threads w' = threads w ++ [t]
    /\ thread_id t = new_thread_id g
    /\ thread_project_id t = new_project_id g
    /\ messages w' = messages w ++ [m]
    /\ message_thread_id m = new_thread_id g
    /\ agent_runs w' = agent_runs w ++ [r]
    /\ run_id r = new_run_id g
    /\ run_thread_id r = new_thread_id g
    /\ run_status r = "running"
    /\ queue w' = queue w ++ [e]
    /\ q_agent_run_id e = new_run_id g
    /\ q_thread_id e = new_thread_id g
    /\ q_project_id e = new_project_id g
    /\ q_model_name e = resolve_model cfg (i_model_name q)
    /\ q_app_type e = validate_app_type (i_app_type q)
    /\ kv w' !! instance_active_key inst (new_run_id g)
       = Some ("running", REDIS_KEY_TTL).
Proof.
  intros Ha Hq Hb Hsb Henq Hfresh Hfiles.
  rewrite (initiate_accepted _ _ _ _ _ _ Ha Hq Hb).
  destruct (initiate_up_to_thread cfg inst g a
              (resolve_model cfg (i_model_name q))
              (validate_app_type (i_app_type q)) q w Hsb Hfresh)
    as (w1 & Hp & Hs & Ht & Hm & Hr & Hqu & Hkv & _ & _ & _ & ->).
  rewrite Hfiles. cbn [bind]. rewrite !run_await_bind_api.
  unfold register_and_enqueue. rewrite run_bind, run_await_bind_api, Henq.
  cbn [run await fst snd db_insert_message insert_new_run db_insert_run
       redis_set enqueue q_agent_run_id q_instance_id].
  eexists _, _, _, _, _, _. split; [reflexivity|].
  cbn [projects sandboxes threads messages agent_runs queue kv
       with_messages with_agent_runs with_kv with_queue].
  rewrite Hp, Hs, Ht, Hm, Hr, Hqu.
  repeat (split; [reflexivity|]). by rewrite lookup_insert_eq.
Qed.

Lemma initiate_creates_one_of_each_witness :
  exists w' p t m r e,
    run (initiate_agent_with_files example_config (Some "3f9c2a71")
           all_willing (initiate_form "mobile")) (project_world "completed")
    = (w', Returned (new_thread_id all_willing, new_run_id all_willing))
    /\ projects w' = projects (project_world "completed") ++ [p]
    /\ project_id p = new_project_id all_willing
    /\ project_app_type p
       = validate_app_type (i_app_type (initiate_form "mobile"))
    /\ sandbox_id p = Some (new_sandbox_id all_willing)
    /\ sandboxes w'
       = sandboxes (project_world "completed")
         ++ [(new_sandbox_id all_willing,
              snapshot_for example_config
                (validate_app_type (i_app_type (initiate_form "mobile"))))]
    /\ threads w' = threads (project_world "completed") ++ [t]
    /\ thread_id t = new_thread_id all_willing
    /\ thread_project_id t = new_project_id all_willing
    /\ messages w' = messages (project_world "completed") ++ [m]
    /\ message_thread_id m = new_thread_id all_willing
    /\ agent_runs w' = agent_runs (project_world "completed") ++ [r]
    /\ run_id r = new_run_id all_willing
    /\ run_thread_id r = new_thread_id all_willing
    /\ run_status r = "running"
    /\ queue w' = queue (project_world "completed") ++ [e]
    /\ q_agent_run_id e = new_run_id all_willing
    /\ q_thread_id e = new_thread_id all_willing
    /\ q_project_id e = new_project_id all_willing
    /\ q_model_name e
       = resolve_model example_config (i_model_name (initiate_form "mobile"))
    /\ q_app_type e = validate_app_type (i_app_type (initiate_form "mobile"))
    /\ kv w' !! instance_active_key "3f9c2a71" (new_run_id all_willing)
       = Some ("running", REDIS_KEY_TTL).
Proof.
  apply (initiate_creates_one_of_each example_config "3f9c2a71" all_willing
           (initiate_form "mobile") "acc-1" (project_world "completed")).
  - reflexivity.
  - vm_compute; reflexivity.
  - vm_compute; reflexivity.
  - reflexivity.
  - reflexivity.
  - repeat constructor. vm_compute. discriminate.
  - reflexivity.
Defined.

End DispatcherFacts.
